(** * Partition-table decoder of the disk-dump analyzer

    A shallow embedding of the class [DiskAnalyzer] of [disk_analyzer.py],
    with the properties of the decoder stated and proved over it, and of
    the functions of the second program, [dump_analyzer.py], that read the
    partition table (the module [DumpAnalyzer]).

    Conventions of the embedding:
    - a Python [int] is a [Z] (unbounded, as in Python);
    - a [bytes] object is a [list byte];
    - text built from literals, hex digits and decimal digits is a [string]
      (literals with Cyrillic letters are kept as their UTF-8 bytes);
      the GPT partition name, which comes out of a UTF-16 decoder, is the
      list of its code points;
    - [print] calls are presentation only and are left out of the methods
      that decode; a method that only prints has the lines that it prints
      as its value;
    - an exception is a value [Raise e] of the type [result]; the methods of
      the analyzer run in a state monad over the object's fields, so that
      what was stored in [self] before an exception stays stored. *)

From Stdlib Require Import ZArith List String Ascii Strings.Byte Bool Lia.
From Stdlib Require Import DecimalString HexadecimalString.
From Stdlib Require Import Sorted.
Import ListNotations.

Open Scope string_scope.
Open Scope Z_scope.

(** ** Exceptions and results *)

Inductive exn : Type :=
| IndexError
| StructError
| ValueError
| OSError
| OverflowError
| FileNotFoundError.

Inductive result (A : Type) : Type :=
| Ok (a : A)
| Raise (e : exn).

Arguments Ok {A} a.
Arguments Raise {A} e.

Definition rbind {A B : Type} (r : result A) (k : A -> result B) : result B :=
  match r with
  | Ok a => k a
  | Raise e => Raise e
  end.

(** ** The Python runtime functions the analyzer calls *)

Module Py.

Definition bytes : Type := list byte.

Definition byte_val (b : byte) : Z := Z.of_N (Byte.to_N b).

Definition len {A : Type} (s : list A) : Z := Z.of_nat (List.length s).

(** [s[i]] for a constant index [i >= 0]: [IndexError] past the end. *)
Definition getitem (s : bytes) (i : nat) : result Z :=
  match nth_error s i with
  | Some b => Ok (byte_val b)
  | None => Raise IndexError
  end.

(** [s[a:b]] for [0 <= a]: clipped to the length of [s], empty when [b <= a]. *)
Definition slice {A : Type} (s : list A) (a b : Z) : list A :=
  firstn (Z.to_nat (b - a)) (skipn (Z.to_nat a) s).

(** Little-endian value of a byte string. *)
Fixpoint le_value (b : bytes) : Z :=
  match b with
  | [] => 0
  | x :: rest => byte_val x + 256 * le_value rest
  end.

(** [struct.unpack('<I', b)[0]] with [w = 4] and [struct.unpack('<Q', b)[0]]
    with [w = 8]: [struct.error] unless [b] has exactly [w] bytes. *)
Definition unpack_le (w : nat) (b : bytes) : result Z :=
  if Nat.eqb (List.length b) w then Ok (le_value b) else Raise StructError.

(** *** Hexadecimal text *)

Definition hex_digit (d : Z) : ascii :=
  nth (Z.to_nat d)
      ["0"; "1"; "2"; "3"; "4"; "5"; "6"; "7"; "8"; "9";
       "a"; "b"; "c"; "d"; "e"; "f"]%char "0"%char.

(** [binascii.hexlify(b).decode('ascii')]: two lower-case digits a byte. *)
Fixpoint hexlify (b : bytes) : string :=
  match b with
  | [] => EmptyString
  | x :: rest =>
      String (hex_digit (byte_val x / 16))
             (String (hex_digit (byte_val x mod 16)) (hexlify rest))
  end.

Definition upper_char (c : ascii) : ascii :=
  let n := nat_of_ascii c in
  if (Nat.leb 97 n && Nat.leb n 122)%bool then ascii_of_nat (n - 32) else c.

(** [str.upper()] on ASCII text. *)
Fixpoint upper (s : string) : string :=
  match s with
  | EmptyString => EmptyString
  | String c rest => String (upper_char c) (upper rest)
  end.

(** [s[:n]] on a string. *)
Definition prefix (n : nat) (s : string) : string := substring 0 (Nat.min n (String.length s)) s.

(** [format(n, 'X')] for [n >= 0]. *)
Definition hex_upper (n : Z) : string :=
  upper (HexadecimalString.NilZero.string_of_uint (N.to_hex_uint (Z.to_N n))).

(** [f"{n:02X}"]: upper-case hexadecimal, zero-padded to two characters,
    a minus sign in front of a negative number. *)
Definition format_02X (n : Z) : string :=
  if n <? 0 then "-" ++ hex_upper (- n)
  else
    let s := hex_upper n in
    if Nat.ltb (String.length s) 2 then "0" ++ s else s.

(** *** Decimal text *)

(** [str(n)] for an integer. *)
Definition str_int (n : Z) : string :=
  DecimalString.NilZero.string_of_int (Z.to_int n).

(** *** Floating point

    The only floats of the program are made by [int / 1024.0] and
    [float / 1024.0] on values that are at least 1024, and by formatting
    an [int] with [.2f]. A binary64 value that is an integer multiple of
    a power of two is written exactly as [mant / 2^shift]. *)

Record dyadic : Type := { mant : Z; shift : Z }.

(** [a / b] rounded to the nearest integer, ties to the even one
    ([0 <= a], [0 < b]). *)
Definition round_half_even (a b : Z) : Z :=
  let q := a / b in
  let r := a mod b in
  if 2 * r <? b then q
  else if b <? 2 * r then q + 1
  else if Z.even q then q else q + 1.

(** [float(n)]: the nearest binary64 (53 significant bits, ties to even),
    [OverflowError] when it would reach [2^1024]. The result is an
    integer. *)
Definition float_of_int (n : Z) : result Z :=
  let a := Z.abs n in
  let bits := Z.log2 a + 1 in
  if bits <=? 53 then Ok n
  else
    let sh := bits - 53 in
    let r := round_half_even a (2 ^ sh) * 2 ^ sh in
    if 2 ^ 1024 <=? r then Raise OverflowError else Ok (Z.sgn n * r).

Definition two_digits (n : Z) : string :=
  String (hex_digit (n / 10)) (String (hex_digit (n mod 10)) EmptyString).

(** [f"{x:.2f}"] for a float [x]: the exact value rounded to hundredths,
    ties to even. *)
Definition format_2f (x : dyadic) : string :=
  let h := round_half_even (100 * Z.abs (mant x)) (2 ^ shift x) in
  (if mant x <? 0 then "-" else "")
    ++ str_int (h / 100) ++ "." ++ two_digits (h mod 100).

(** A Python number: [bytes_size] starts as an [int] and becomes a
    [float] at the first division. *)
Inductive num : Type :=
| Int (n : Z)
| Float (x : dyadic).

(** [x < 1024.0]; an [int] is compared with a float by value. *)
Definition lt_1024 (x : num) : bool :=
  match x with
  | Int n => n <? 1024
  | Float d => mant d <? 1024 * 2 ^ shift d
  end.

(** [x / 1024.0]; an [int] is first converted with [float]. *)
Definition div_1024 (x : num) : result num :=
  match x with
  | Int n => rbind (float_of_int n) (fun m => Ok (Float {| mant := m; shift := 10 |}))
  | Float d => Ok (Float {| mant := mant d; shift := shift d + 10 |})
  end.

(** [f"{x:.2f}"]; an [int] is first converted with [float]. *)
Definition format_num_2f (x : num) : result string :=
  match x with
  | Int n => rbind (float_of_int n) (fun m => Ok (format_2f {| mant := m; shift := 0 |}))
  | Float d => Ok (format_2f d)
  end.

(** *** UTF-16 *)

(** The 16-bit little-endian code units of a byte string; a last odd
    byte makes no unit. *)
Fixpoint utf16le_units (b : bytes) : list Z :=
  match b with
  | lo :: hi :: rest => (byte_val lo + 256 * byte_val hi) :: utf16le_units rest
  | _ => []
  end.

Definition is_high_surrogate (u : Z) : bool := (0xD800 <=? u) && (u <=? 0xDBFF).
Definition is_low_surrogate (u : Z) : bool := (0xDC00 <=? u) && (u <=? 0xDFFF).

Definition join_surrogates (hi lo : Z) : Z :=
  0x10000 + (hi - 0xD800) * 0x400 + (lo - 0xDC00).

(** The code points of a sequence of code units, with [errors='ignore']:
    a low surrogate on its own is dropped, a high surrogate that is not
    followed by a low one is dropped and decoding goes on at the next
    unit. *)
Fixpoint utf16_points (us : list Z) : list Z :=
  match us with
  | [] => []
  | u :: rest =>
      if is_high_surrogate u then
        match rest with
        | [] => []
        | v :: rest' =>
            if is_low_surrogate v then join_surrogates u v :: utf16_points rest'
            else utf16_points rest
        end
      else if is_low_surrogate u then utf16_points rest
      else u :: utf16_points rest
  end.

(** [b.decode('utf-16le', errors='ignore')]. *)
Definition decode_utf16le_ignore (b : bytes) : list Z :=
  utf16_points (utf16le_units b).

Fixpoint lstrip_nul (s : list Z) : list Z :=
  match s with
  | 0 :: rest => lstrip_nul rest
  | _ => s
  end.

(** [s.strip('\x00')]: NUL characters are removed at both ends. *)
Definition strip_nul (s : list Z) : list Z :=
  rev (lstrip_nul (rev (lstrip_nul s))).

(** [all(b == 0 for b in s)]. *)
Definition all_zero (s : bytes) : bool :=
  forallb (fun b => byte_val b =? 0) s.

(** [d.get(k, default)] on a dictionary given by its items. *)
Fixpoint dict_get {K V : Type} (eqb : K -> K -> bool) (d : list (K * V)) (k : K) (default : V) : V :=
  match d with
  | [] => default
  | (k', v) :: rest => if eqb k' k then v else dict_get eqb rest k default
  end.

(** *** A file opened with [open(path, 'rb')] *)

Record file : Type := { data : bytes; pos : Z }.

Definition open (content : bytes) : file := {| data := content; pos := 0 |}.

(** [f.read(n)]: at most [n] bytes from the position, everything that is
    left for [n = -1], [ValueError] for another negative [n]. A count
    that the memory of the machine cannot hold is not told apart (the
    read is then short, as on a file that ends before). *)
Definition read (f : file) (n : Z) : result (bytes * file) :=
  if n <? -1 then Raise ValueError
  else
    let rest := skipn (Z.to_nat (pos f)) (data f) in
    let chunk := if n =? -1 then rest else firstn (Z.to_nat n) rest in
    Ok (chunk, {| data := data f; pos := pos f + len chunk |}).

(** [f.seek(p)]: [ValueError] for a position that does not fit a signed
    64-bit offset, [OSError] for a negative position that fits; a position
    past the end of the file is accepted. A file system may refuse
    positions below [2^63] too; that limit is not part of the model. *)
Definition seek (f : file) (p : Z) : result file :=
  if (p <? - 2 ^ 63) || (2 ^ 63 <=? p) then Raise ValueError
  else if p <? 0 then Raise OSError
  else Ok {| data := data f; pos := p |}.

End Py.

Import Py.

(** ** Data model *)

Inductive PartitionType : Type :=
| MBR
| GPT
| UNKNOWN.

Record PartitionEntry : Type := {
  number : Z;
  type : string;
  type_code : Z;
  start_sector : Z;
  size_sectors : Z;
  end_sector : Z;
  size_bytes : Z;
  size_human : string;
  guid : string;
  name : list Z;
  attributes : Z;
  is_active : bool
}.

Record DiskAnalyzer : Type := {
  disk_image : string;
  sector_size : Z;
  partition_type : PartitionType;
  partitions : list PartitionEntry;
  boot_signature : string;
  disk_size : Z
}.

Definition __init__ (disk_image : string) (sector_size : Z) : DiskAnalyzer :=
  {| disk_image := disk_image;
     sector_size := sector_size;
     partition_type := UNKNOWN;
     partitions := [];
     boot_signature := "";
     disk_size := 0 |}.

(** ** The monad of the methods: the fields of [self] and exceptions *)

Definition M (A : Type) : Type := DiskAnalyzer -> result A * DiskAnalyzer.

Definition ret {A : Type} (a : A) : M A := fun self => (Ok a, self).

Definition bind {A B : Type} (m : M A) (k : A -> M B) : M B :=
  fun self =>
    match m self with
    | (Ok a, self') => k a self'
    | (Raise e, self') => (Raise e, self')
    end.

Definition lift {A : Type} (r : result A) : M A := fun self => (r, self).

(** Reading a field of [self]. *)
Definition gets {A : Type} (field : DiskAnalyzer -> A) : M A :=
  fun self => (Ok (field self), self).

Notation "x <- m ;; k" := (bind m (fun x => k))
  (at level 61, m at next level, right associativity).
Notation "' p <- m ;; k" := (bind m (fun x => let p := x in k))
  (at level 61, p pattern, m at next level, right associativity).
Notation "m ;;; k" := (bind m (fun _ => k))
  (at level 61, right associativity).

Definition set_partition_type (t : PartitionType) : M unit :=
  fun self =>
    (Ok tt,
     {| disk_image := disk_image self;
        sector_size := sector_size self;
        partition_type := t;
        partitions := partitions self;
        boot_signature := boot_signature self;
        disk_size := disk_size self |}).

Definition set_boot_signature (sig : string) : M unit :=
  fun self =>
    (Ok tt,
     {| disk_image := disk_image self;
        sector_size := sector_size self;
        partition_type := partition_type self;
        partitions := partitions self;
        boot_signature := sig;
        disk_size := disk_size self |}).

Definition set_disk_size (n : Z) : M unit :=
  fun self =>
    (Ok tt,
     {| disk_image := disk_image self;
        sector_size := sector_size self;
        partition_type := partition_type self;
        partitions := partitions self;
        boot_signature := boot_signature self;
        disk_size := n |}).

(** [self.partitions.append(partition)]. *)
Definition partitions_append (partition : PartitionEntry) : M unit :=
  fun self =>
    (Ok tt,
     {| disk_image := disk_image self;
        sector_size := sector_size self;
        partition_type := partition_type self;
        partitions := (partitions self ++ [partition])%list;
        boot_signature := boot_signature self;
        disk_size := disk_size self |}).

(** [for x in l: body(x)], where [continue] is the end of the body. *)
Fixpoint for_each {A : Type} (l : list A) (body : A -> M unit) : M unit :=
  match l with
  | [] => ret tt
  | x :: rest => body x ;;; for_each rest body
  end.

(** ** PartitionTypeCatalog *)

Definition partition_types : list (Z * string) :=
  [ (0x00, "Пустой");
    (0x01, "FAT12");
    (0x04, "FAT16 <32MB");
    (0x05, "Расширенный");
    (0x06, "FAT16 >32MB");
    (0x07, "NTFS/HPFS/exFAT");
    (0x0B, "FAT32 (CHS)");
    (0x0C, "FAT32 (LBA)");
    (0x0E, "FAT16 (LBA)");
    (0x0F, "Расширенный (LBA)");
    (0x11, "Скрытый FAT12");
    (0x14, "Скрытый FAT16 <32MB");
    (0x16, "Скрытый FAT16 >32MB");
    (0x1B, "Скрытый FAT32 (CHS)");
    (0x1C, "Скрытый FAT32 (LBA)");
    (0x1E, "Скрытый FAT16 (LBA)");
    (0x82, "Linux Swap");
    (0x83, "Linux Native");
    (0x85, "Linux Extended");
    (0x8E, "Linux LVM");
    (0xA5, "FreeBSD");
    (0xA6, "OpenBSD");
    (0xA8, "macOS Darwin UFS");
    (0xA9, "NetBSD");
    (0xAB, "macOS Darwin Boot");
    (0xAF, "macOS Darwin HFS/HFS+");
    (0xB7, "BSDI");
    (0xB8, "BSDI Swap");
    (0xEE, "GPT защитный MBR");
    (0xEF, "EFI System Partition");
    (0xFC, "VMWare VMFS");
    (0xFD, "Linux RAID") ].

Definition _get_partition_description (type_code : Z) : string :=
  dict_get Z.eqb partition_types type_code
           ("Неизвестный (0x" ++ format_02X type_code ++ ")").

Definition gpt_types : list (string * string) :=
  [ ("C12A7328F81F11D2BA4B00A0C93EC93B", "EFI System Partition");
    ("E3C9E3160B5C4DB8817DF92DF00215AE", "Microsoft Reserved");
    ("EBD0A0A2B9E5443387C068B6B72699C7", "Microsoft Basic Data");
    ("5808C8AA7E8F42E085FE4F984F2F9F50", "Linux LVM");
    ("0FC63DAF848347728E793D69D8477DE4", "Linux Filesystem");
    ("0657FD6DA4AB43C484E50933C84B4F4F", "Linux Swap");
    ("8DA63339000011C2950003FF48464D45", "Linux Reserved");
    ("83BD6B9D7F418719B69478DDA015F979", "Apple APFS");
    ("48465300000011AAAA1100306543ECAC", "Apple HFS+");
    ("7C3457EF000011AA8AA3005195CAF3CA", "Apple APFS Container") ].

Definition _get_gpt_partition_type (guid_bytes : bytes) : string :=
  let guid_str := upper (hexlify guid_bytes) in
  dict_get String.eqb gpt_types guid_str
           ("Unknown GUID (" ++ prefix 8 guid_str ++ "...)").

(** ** SizeFormatter *)

Definition units : list string := ["B"; "KB"; "MB"; "GB"; "TB"].

(** The [for unit in ...] loop of [_bytes_to_human], with the [return]
    after the loop as the case of the empty list. *)
Fixpoint bytes_to_human_loop (us : list string) (bytes_size : num) : result string :=
  match us with
  | [] => rbind (format_num_2f bytes_size) (fun s => Ok (s ++ " PB"))
  | unit :: rest =>
      if lt_1024 bytes_size
      then rbind (format_num_2f bytes_size) (fun s => Ok (s ++ " " ++ unit))
      else rbind (div_1024 bytes_size) (bytes_to_human_loop rest)
  end.

Definition _bytes_to_human (bytes_size : Z) : result string :=
  bytes_to_human_loop units (Int bytes_size).

(** ** TableTypeDetector *)

Fixpoint bytes_eqb (a b : bytes) : bool :=
  match a, b with
  | [], [] => true
  | x :: a', y :: b' => Byte.eqb x y && bytes_eqb a' b'
  | _, _ => false
  end.

(** The literal [b'EFI PART']. *)
Definition EFI_PART : bytes := list_byte_of_string "EFI PART".

(** [sector[510] == 0x55 and sector[511] == 0xAA]: the second index is
    evaluated only when the first comparison holds. *)
Definition has_boot_signature (sector : bytes) : M bool :=
  b510 <- lift (getitem sector 510) ;;
  if b510 =? 0x55
  then b511 <- lift (getitem sector 511) ;; ret (b511 =? 0xAA)
  else ret false.

Definition _detect_partition_type (sector : bytes) : M unit :=
  sig <- has_boot_signature sector ;;
  if sig : bool then
    set_boot_signature "55 AA" ;;;
    partition_type <- lift (getitem sector 450) ;;
    if partition_type =? 0xEE
    then set_partition_type GPT
    else set_partition_type MBR
  else
    let gpt_signature := slice sector 0x200 0x208 in
    if bytes_eqb gpt_signature EFI_PART
    then set_partition_type GPT
    else ret tt.

(** ** MbrDecoder *)

(** The body of the loop [for i in range(4)] of [_analyze_mbr]. *)
Definition mbr_slot (sector : bytes) (i : Z) : M unit :=
  let offset := 446 + i * 16 in
  let partition_data := slice sector offset (offset + 16) in
  if len partition_data <? 16 then ret tt
  else
    status <- lift (getitem partition_data 0) ;;
    let chs_start := slice partition_data 1 4 in
    type_code <- lift (getitem partition_data 4) ;;
    let chs_end := slice partition_data 5 8 in
    lba_start <- lift (unpack_le 4 (slice partition_data 8 12)) ;;
    num_sectors <- lift (unpack_le 4 (slice partition_data 12 16)) ;;
    if (type_code =? 0x00) && (lba_start =? 0) then ret tt
    else
      let is_active := status =? 0x80 in
      let type_str := _get_partition_description type_code in
      self_sector_size <- gets sector_size ;;
      let size_bytes := num_sectors * self_sector_size in
      size_human <- lift (_bytes_to_human size_bytes) ;;
      partitions_append
        {| number := i + 1;
           type := type_str;
           type_code := type_code;
           start_sector := lba_start;
           size_sectors := num_sectors;
           end_sector := lba_start + num_sectors - 1;
           size_bytes := size_bytes;
           size_human := size_human;
           guid := "";
           name := [];
           attributes := 0;
           is_active := is_active |}.

Definition _analyze_mbr (sector : bytes) (f : file) : M unit :=
  for_each [0; 1; 2; 3] (mbr_slot sector).

(** ** GptDecoder *)

(** The body of the loop of [_analyze_gpt] after the length check, for one
    record [entry_data]; the value is [partition_num] as the body leaves
    it ([continue] leaves it as it was). *)
Definition gpt_entry (entry_data : bytes) (partition_num : Z) : M Z :=
  let partition_type_guid := slice entry_data 0 16 in
  if all_zero partition_type_guid then ret partition_num
  else
    let partition_guid := slice entry_data 16 32 in
    first_lba <- lift (unpack_le 8 (slice entry_data 32 40)) ;;
    last_lba <- lift (unpack_le 8 (slice entry_data 40 48)) ;;
    attributes <- lift (unpack_le 8 (slice entry_data 48 56)) ;;
    let partition_name := strip_nul (decode_utf16le_ignore (slice entry_data 56 128)) in
    if first_lba =? 0 then ret partition_num
    else
      let type_str := _get_gpt_partition_type partition_type_guid in
      let num_sectors := last_lba - first_lba + 1 in
      self_sector_size <- gets sector_size ;;
      let size_bytes := num_sectors * self_sector_size in
      size_human <- lift (_bytes_to_human size_bytes) ;;
      partitions_append
        {| number := partition_num;
           type := type_str;
           type_code := 0;
           start_sector := first_lba;
           size_sectors := num_sectors;
           end_sector := last_lba;
           size_bytes := size_bytes;
           size_human := size_human;
           guid := hexlify partition_guid;
           name := partition_name;
           attributes := attributes;
           is_active := false |} ;;;
      ret (partition_num + 1).

(** The loop [for i in range(num_partition_entries)], with [n] iterations
    left; [break] ends it. *)
Fixpoint gpt_entries (n : nat) (f : file) (partition_entry_size : Z) (partition_num : Z) : M unit :=
  match n with
  | O => ret tt
  | S n' =>
      '(entry_data, f') <- lift (read f partition_entry_size) ;;
      if len entry_data <? 128 then ret tt
      else
        partition_num' <- gpt_entry entry_data partition_num ;;
        gpt_entries n' f' partition_entry_size partition_num'
  end.

Definition _analyze_gpt (sector : bytes) (f : file) : M unit :=
  self_sector_size <- gets sector_size ;;
  f <- lift (seek f self_sector_size) ;;
  '(gpt_header, f) <- lift (read f self_sector_size) ;;
  if len gpt_header <? 92 then ret tt
  else
    revision <- lift (unpack_le 4 (slice gpt_header 8 12)) ;;
    header_size <- lift (unpack_le 4 (slice gpt_header 12 16)) ;;
    header_crc <- lift (unpack_le 4 (slice gpt_header 16 20)) ;;
    reserved <- lift (unpack_le 4 (slice gpt_header 20 24)) ;;
    current_lba <- lift (unpack_le 8 (slice gpt_header 24 32)) ;;
    backup_lba <- lift (unpack_le 8 (slice gpt_header 32 40)) ;;
    first_usable_lba <- lift (unpack_le 8 (slice gpt_header 40 48)) ;;
    last_usable_lba <- lift (unpack_le 8 (slice gpt_header 48 56)) ;;
    partition_entries_lba <- lift (unpack_le 8 (slice gpt_header 72 80)) ;;
    num_partition_entries <- lift (unpack_le 4 (slice gpt_header 80 84)) ;;
    partition_entry_size <- lift (unpack_le 4 (slice gpt_header 84 88)) ;;
    partitions_crc <- lift (unpack_le 4 (slice gpt_header 88 92)) ;;
    let partition_table_offset := partition_entries_lba * self_sector_size in
    f <- lift (seek f partition_table_offset) ;;
    gpt_entries (Z.to_nat num_partition_entries) f partition_entry_size 1.

(** ** The decode operation *)

(** The body of the [try] block of [analyze]. [image] is the content of
    the file named [self.disk_image], [None] when there is no such file
    ([os.path.getsize] raises [FileNotFoundError]). The hex dump and
    [_find_first_sectors] only print, and [_find_first_sectors] catches
    the exceptions of its own reads. *)
Definition analyze_body (image : option bytes) : M bool :=
  match image with
  | None => lift (Raise FileNotFoundError)
  | Some content =>
      set_disk_size (len content) ;;;
      let f := open content in
      self_sector_size <- gets sector_size ;;
      '(sector0, f) <- lift (read f self_sector_size) ;;
      if len sector0 <? self_sector_size then ret false
      else
        _detect_partition_type sector0 ;;;
        self_partition_type <- gets partition_type ;;
        match self_partition_type with
        | MBR => _analyze_mbr sector0 f ;;; ret true
        | GPT => _analyze_gpt sector0 f ;;; ret true
        | UNKNOWN => ret false
        end
  end.

(** [analyze]: every exception of the body is caught and turned into
    [False]; what the body stored in [self] before stays. *)
Definition analyze (image : option bytes) (self : DiskAnalyzer) : bool * DiskAnalyzer :=
  match analyze_body image self with
  | (Ok b, self') => (b, self')
  | (Raise _, self') => (false, self')
  end.

(** ** Building images

    Encoders for the concrete sectors and images on which the decoder is
    run below. *)

Definition byte_of_Z (z : Z) : byte :=
  match Byte.of_N (Z.to_N (z mod 256)) with
  | Some b => b
  | None => x00
  end.

(** [struct.pack] of an unsigned little-endian integer of [w] bytes. *)
Fixpoint le_bytes (w : nat) (v : Z) : bytes :=
  match w with
  | O => []
  | S w' => byte_of_Z v :: le_bytes w' (v / 256)
  end.

Definition zeros (n : nat) : bytes := repeat x00 n.

(** A 16-byte MBR partition entry with the CHS fields [chs_start] and
    [chs_end] (three bytes each). *)
Definition mbr_entry_chs (status : byte) (chs_start : bytes) (type_code : byte)
           (chs_end : bytes) (lba_start num_sectors : Z) : bytes :=
  ([status] ++ chs_start ++ [type_code] ++ chs_end
     ++ le_bytes 4 lba_start ++ le_bytes 4 num_sectors)%list.

Definition mbr_entry (status type_code : byte) (lba_start num_sectors : Z) : bytes :=
  mbr_entry_chs status (zeros 3) type_code (zeros 3) lba_start num_sectors.

(** A 512-byte sector: boot code and disk signature [boot] (446 bytes),
    four entries, the two signature bytes. *)
Definition mbr_sector (boot e0 e1 e2 e3 sig : bytes) : bytes :=
  (boot ++ e0 ++ e1 ++ e2 ++ e3 ++ sig)%list.

Definition boot_sig : bytes := [x55; xaa].

(** * Definitions used in the statements *)

(** ** The effect of a computation on [self] *)

(** [self] with the entries [l] appended to its partitions. *)
Definition extend (self : DiskAnalyzer) (l : list PartitionEntry) : DiskAnalyzer :=
  {| disk_image := disk_image self;
     sector_size := sector_size self;
     partition_type := partition_type self;
     partitions := (partitions self ++ l)%list;
     boot_signature := boot_signature self;
     disk_size := disk_size self |}.

(** An analyzer that has decoded nothing yet. *)
Definition blank (sector_size : Z) : DiskAnalyzer := __init__ "" sector_size.

(** What a computation answers, and the entries it appends, as seen on a
    blank analyzer. *)
Definition outcome {A : Type} (m : M A) (sector_size : Z) : result A :=
  fst (m (blank sector_size)).

Definition emitted {A : Type} (m : M A) (sector_size : Z) : list PartitionEntry :=
  partitions (snd (m (blank sector_size))).

(** A computation that reads no field of [self] but the sector size and
    writes none but the partitions, to which it appends. *)
Definition appends_only {A : Type} (m : M A) : Prop :=
  forall self : DiskAnalyzer,
    m self = (outcome m (sector_size self), extend self (emitted m (sector_size self))).

Definition with_disk_size (n : Z) (self : DiskAnalyzer) : DiskAnalyzer :=
  {| disk_image := disk_image self;
     sector_size := sector_size self;
     partition_type := partition_type self;
     partitions := partitions self;
     boot_signature := boot_signature self;
     disk_size := n |}.

(** What the detector writes into [self]: the table type [t] when it
    found one, the boot signature when [signature] holds. *)
Definition detected (t : option PartitionType) (signature : bool) (self : DiskAnalyzer)
  : DiskAnalyzer :=
  {| disk_image := disk_image self;
     sector_size := sector_size self;
     partition_type := match t with Some t' => t' | None => partition_type self end;
     partitions := partitions self;
     boot_signature := if signature then "55 AA" else boot_signature self;
     disk_size := disk_size self |}.

(** A decoder run on [self]: [True] unless it raised. *)
Definition decoded (decoder : M unit) (self : DiskAnalyzer) : result bool * DiskAnalyzer :=
  (rbind (outcome decoder (sector_size self)) (fun _ => Ok true),
   extend self (emitted decoder (sector_size self))).

(** ** Texts *)

Definition unit_name (k : nat) : string := nth k (units ++ ["PB"])%list "".

(** The two upper-case hexadecimal digits of a byte value. *)
Definition hex2_upper (c : Z) : string :=
  String (upper_char (hex_digit (c / 16)))
         (String (upper_char (hex_digit (c mod 16))) EmptyString).

Definition text_of (r : result string) : string :=
  match r with
  | Ok h => h
  | Raise _ => ""
  end.

(** ** The MBR table by offsets *)

(** The fields of slot [i] of the partition table at their offsets in the
    sector: entry [i] starts at [446 + 16 * i]. *)
Definition byte_at (s : bytes) (i : Z) : Z := byte_val (nth (Z.to_nat i) s x00).

Definition slot_offset (i : Z) : Z := 446 + i * 16.

Definition slot_status (sector : bytes) (i : Z) : Z :=
  byte_at sector (slot_offset i).

Definition slot_type_code (sector : bytes) (i : Z) : Z :=
  byte_at sector (slot_offset i + 4).

Definition slot_lba_start (sector : bytes) (i : Z) : Z :=
  le_value (slice sector (slot_offset i + 8) (slot_offset i + 12)).

Definition slot_num_sectors (sector : bytes) (i : Z) : Z :=
  le_value (slice sector (slot_offset i + 12) (slot_offset i + 16)).

(** The empty slot: type code 0x00 and first sector 0. *)
Definition slot_empty (sector : bytes) (i : Z) : bool :=
  (slot_type_code sector i =? 0x00) && (slot_lba_start sector i =? 0).

(** The entry made from slot [i], given the text of its size. *)
Definition slot_entry (sector : bytes) (sector_size : Z) (i : Z) (size_human : string)
  : PartitionEntry :=
  {| number := i + 1;
     type := _get_partition_description (slot_type_code sector i);
     type_code := slot_type_code sector i;
     start_sector := slot_lba_start sector i;
     size_sectors := slot_num_sectors sector i;
     end_sector := slot_lba_start sector i + slot_num_sectors sector i - 1;
     size_bytes := slot_num_sectors sector i * sector_size;
     size_human := size_human;
     guid := "";
     name := [];
     attributes := 0;
     is_active := slot_status sector i =? 0x80 |}.

(** The entry decoded from slot [i], and the slots that are not empty. *)
Definition decoded_slot (sector : bytes) (sector_size : Z) (i : Z) : PartitionEntry :=
  slot_entry sector sector_size i
             (text_of (_bytes_to_human (slot_num_sectors sector i * sector_size))).

Definition used_slots (sector : bytes) : list Z :=
  filter (fun i => negb (slot_empty sector i)) [0; 1; 2; 3].

(** What holds of an entry of the MBR decoder on [sector]: it is the entry
    made from one of the four slots of the table, a slot that lies within
    the sector and is not the empty slot. *)
Definition mbr_materialized (sector : bytes) (sector_size : Z) (e : PartitionEntry) : Prop :=
  exists i : Z,
    0 <= i <= 3
    /\ slot_offset i + 16 <= len sector
    /\ slot_empty sector i = false
    /\ e = slot_entry sector sector_size i (size_human e).

(** ** The GPT entry array by positions *)

(** Record [j] of an entry array at [offset] with records of
    [partition_entry_size] bytes: the bytes of the image from
    [offset + j * partition_entry_size] on, as many as the size says and
    the image has. *)
Definition record_at (content : bytes) (offset partition_entry_size : Z) (j : nat) : bytes :=
  slice content (offset + Z.of_nat j * partition_entry_size)
        (offset + (Z.of_nat j + 1) * partition_entry_size).

Fixpoint take_while {A : Type} (p : A -> bool) (l : list A) : list A :=
  match l with
  | [] => []
  | x :: rest => if p x then x :: take_while p rest else []
  end.

(** The records that the decoder goes through: those before the first
    one of fewer than 128 bytes. *)
Definition walked_records (content : bytes) (offset partition_entry_size : Z) (n : nat)
  : list bytes :=
  take_while (fun r => negb (len r <? 128))
             (map (record_at content offset partition_entry_size) (seq 0 n)).

(** The body of the loop over a list of records. *)
Fixpoint gpt_fold (records : list bytes) (partition_num : Z) : M unit :=
  match records with
  | [] => ret tt
  | entry_data :: rest =>
      partition_num' <- gpt_entry entry_data partition_num ;;
      gpt_fold rest partition_num'
  end.

(** The entry made from a record, given its number and the text of its
    size; the name is decoded from the bytes 56 to 128 of the record. *)
Definition record_entry (entry_data : bytes) (sector_size partition_num : Z)
           (size_human : string) : PartitionEntry :=
  let first_lba := le_value (slice entry_data 32 40) in
  let last_lba := le_value (slice entry_data 40 48) in
  {| number := partition_num;
     type := _get_gpt_partition_type (slice entry_data 0 16);
     type_code := 0;
     start_sector := first_lba;
     size_sectors := last_lba - first_lba + 1;
     end_sector := last_lba;
     size_bytes := (last_lba - first_lba + 1) * sector_size;
     size_human := size_human;
     guid := hexlify (slice entry_data 16 32);
     name := strip_nul (decode_utf16le_ignore (slice entry_data 56 128));
     attributes := le_value (slice entry_data 48 56);
     is_active := false |}.

(** What holds of an entry of the GPT decoder: it is the entry made from
    a record of at least 128 bytes that the decoder read, a record whose
    type GUID is not all zeros and whose first sector is not 0. *)
Definition gpt_materialized (sector_size : Z) (e : PartitionEntry) : Prop :=
  exists entry_data : bytes,
    128 <= len entry_data
    /\ all_zero (slice entry_data 0 16) = false
    /\ le_value (slice entry_data 32 40) <> 0
    /\ e = record_entry entry_data sector_size (number e) (size_human e).

(** ** The decode operation on a new analyzer *)


(** ** The GPT walk in the words of the specification *)

(** The walk as the specification words it: the short-read check
    compares with the declared size of a record, and the name field runs
    from byte 56 to the declared size, with the NUL padding at its end
    removed. *)
Definition spec_gpt_entry (partition_entry_size : Z) (entry_data : bytes) (partition_num : Z)
  : M Z :=
  let partition_type_guid := slice entry_data 0 16 in
  if all_zero partition_type_guid then ret partition_num
  else
    let partition_guid := slice entry_data 16 32 in
    first_lba <- lift (unpack_le 8 (slice entry_data 32 40)) ;;
    last_lba <- lift (unpack_le 8 (slice entry_data 40 48)) ;;
    attributes <- lift (unpack_le 8 (slice entry_data 48 56)) ;;
    let partition_name :=
      rev (lstrip_nul (rev (decode_utf16le_ignore
                              (slice entry_data 56 partition_entry_size)))) in
    if first_lba =? 0 then ret partition_num
    else
      let type_str := _get_gpt_partition_type partition_type_guid in
      let num_sectors := last_lba - first_lba + 1 in
      self_sector_size <- gets sector_size ;;
      let size_bytes := num_sectors * self_sector_size in
      size_human <- lift (_bytes_to_human size_bytes) ;;
      partitions_append
        {| number := partition_num;
           type := type_str;
           type_code := 0;
           start_sector := first_lba;
           size_sectors := num_sectors;
           end_sector := last_lba;
           size_bytes := size_bytes;
           size_human := size_human;
           guid := hexlify partition_guid;
           name := partition_name;
           attributes := attributes;
           is_active := false |} ;;;
      ret (partition_num + 1).

Fixpoint spec_gpt_entries (n : nat) (f : file) (partition_entry_size : Z) (partition_num : Z)
  : M unit :=
  match n with
  | O => ret tt
  | S n' =>
      '(entry_data, f') <- lift (read f partition_entry_size) ;;
      if len entry_data <? partition_entry_size then ret tt
      else
        partition_num' <- spec_gpt_entry partition_entry_size entry_data partition_num ;;
        spec_gpt_entries n' f' partition_entry_size partition_num'
  end.

(** ** Sectors and images *)

Definition unknown_guid : bytes :=
  [xde; xad; xbe; xef; x00; x01; x02; x03; x04; x05; x06; x07; x08; x09; x0a; x0b].

(** A protective MBR: one entry of type 0xEE over the whole disk. *)
Definition protective_sector : bytes :=
  mbr_sector (zeros 446) (mbr_entry x00 xee 1 0xFFFFFFFF)
             (zeros 16) (zeros 16) (zeros 16) boot_sig.

(** An image of two 512-byte sectors: no boot signature in the first one,
    the GPT signature at the start of the second one. *)
Definition bare_gpt_image : bytes := (zeros 512 ++ EFI_PART ++ zeros 504)%list.

(** A protective MBR followed by 91 bytes of a GPT header. *)
Definition truncated_gpt_image : bytes :=
  (protective_sector ++ EFI_PART ++ zeros 83)%list.

(** The table [empty, X, empty, Y]. *)
Definition sparse_sector : bytes :=
  mbr_sector (zeros 446)
             (zeros 16) (mbr_entry x80 x83 2048 204800)
             (zeros 16) (mbr_entry x00 x07 206848 1000)
             boot_sig.

(** The sector of the round-trip test: one entry, active, of type 0x83,
    at sector 2048, of 204800 sectors, and three slots of zeros. *)
Definition linux_sector (boot chs_start chs_end sig : bytes) : bytes :=
  mbr_sector boot
             (mbr_entry_chs x80 chs_start x83 chs_end 2048 204800)
             (zeros 16) (zeros 16) (zeros 16)
             sig.

(** A table whose first entry has a type and a first sector, and the
    sector count 0. *)
Definition zero_count_sector : bytes :=
  mbr_sector (zeros 446)
             (mbr_entry x00 x83 2048 0) (zeros 16) (zeros 16) (zeros 16)
             boot_sig.

Definition zero_count_entry : PartitionEntry :=
  {| number := 1;
     type := "Linux Native";
     type_code := 0x83;
     start_sector := 2048;
     size_sectors := 0;
     end_sector := 2047;
     size_bytes := 0;
     size_human := "0.00 B";
     guid := "";
     name := [];
     attributes := 0;
     is_active := false |}.

(** A GPT header sector of 512 bytes with the three fields the decoder
    uses; the other fields are zero. *)
Definition gpt_header (partition_entries_lba num_partition_entries partition_entry_size : Z)
  : bytes :=
  (EFI_PART ++ zeros 64
     ++ le_bytes 8 partition_entries_lba
     ++ le_bytes 4 num_partition_entries
     ++ le_bytes 4 partition_entry_size
     ++ zeros 4 ++ zeros 420)%list.

(** ASCII text as UTF-16 little-endian bytes. *)
Definition utf16le (s : string) : bytes :=
  flat_map (fun b => [b; x00]) (list_byte_of_string s).

(** [b] followed by zeros up to [n] bytes. *)
Definition pad_to (n : nat) (b : bytes) : bytes :=
  (b ++ zeros (n - List.length b))%list.

(** A partition record: the 56 bytes of the fixed fields and the name
    field. *)
Definition gpt_record (type_guid partition_guid : bytes)
           (first_lba last_lba attributes : Z) (name_field : bytes) : bytes :=
  (type_guid ++ partition_guid
     ++ le_bytes 8 first_lba ++ le_bytes 8 last_lba ++ le_bytes 8 attributes
     ++ name_field)%list.

Definition linux_filesystem_guid : bytes :=
  [x0f; xc6; x3d; xaf; x84; x83; x47; x72; x8e; x79; x3d; x69; xd8; x47; x7d; xe4].

Definition some_partition_guid : bytes :=
  [x01; x02; x03; x04; x05; x06; x07; x08; x09; x0a; x0b; x0c; x0d; x0e; x0f; x10].

(** A GPT disk with four records of 128 bytes: "root", an empty record,
    "home" with its last sector before its first one, an empty record. *)
Definition two_entry_image : bytes :=
  (protective_sector ++ gpt_header 2 4 128
     ++ gpt_record linux_filesystem_guid some_partition_guid 2048 4095 0
                   (pad_to 72 (utf16le "root"))
     ++ zeros 128
     ++ gpt_record linux_filesystem_guid some_partition_guid 4096 2048 0
                   (pad_to 72 (utf16le "home"))
     ++ zeros 128)%list.

(** The entry that the decoder makes of the record "home" of that disk. *)
Definition backwards_entry : PartitionEntry :=
  {| number := 2;
     type := "Linux Filesystem";
     type_code := 0;
     start_sector := 4096;
     size_sectors := -2047;
     end_sector := 2048;
     size_bytes := -1048064;
     size_human := "-1048064.00 B";
     guid := "0102030405060708090a0b0c0d0e0f10";
     name := [104; 111; 109; 101];
     attributes := 0;
     is_active := false |}.

(** A GPT disk that declares records of 64 bytes and has two of them,
    complete. *)
Definition small_record_image : bytes :=
  (protective_sector ++ gpt_header 2 2 64
     ++ gpt_record linux_filesystem_guid some_partition_guid 2048 4095 0 (utf16le "root")
     ++ gpt_record linux_filesystem_guid some_partition_guid 4096 8191 0 (utf16le "home"))%list.

(** A GPT disk that declares records of 256 bytes and has two of them,
    with a name of 50 characters. *)
Definition long_name : string := "a-partition-name-longer-than-thirty-six-characters".

Definition large_record_image : bytes :=
  (protective_sector ++ gpt_header 2 2 256
     ++ gpt_record linux_filesystem_guid some_partition_guid 2048 4095 0
                   (pad_to 200 (utf16le long_name))
     ++ gpt_record linux_filesystem_guid some_partition_guid 4096 8191 0
                   (pad_to 200 (utf16le long_name)))%list.

(** The entry array of an image whose array is at the offset 1024, as
    the decoder finds it after its [seek]. *)
Definition at_entry_array (content : bytes) : file := {| data := content; pos := 1024 |}.

(** ** More sectors and images *)

(** A sector with a Linux partition in its first slot and without the
    boot signature. *)
Definition unsigned_sector : bytes :=
  mbr_sector (zeros 446)
             (mbr_entry x80 x83 2048 204800) (zeros 16) (zeros 16) (zeros 16)
             (zeros 2).

(** ** The entries of a computation at one sector size *)

(** A property of every entry a computation appends when the sector size
    is [ss]. *)
Definition emits_at {A : Type} (ss : Z) (P : PartitionEntry -> Prop) (m : M A) : Prop :=
  forall e : PartitionEntry, In e (emitted m ss) -> P e.

(** The integers [start], [start + 1], ... ([k] of them). *)
Fixpoint zseq (start : Z) (k : nat) : list Z :=
  match k with
  | O => []
  | S k' => start :: zseq (start + 1) k'
  end.

(** What holds of the fields of an entry of the MBR decoder at the sector
    size [ss]. *)
Definition mbr_fields (ss : Z) (e : PartitionEntry) : Prop :=
  1 <= number e <= 4
  /\ 0 <= type_code e <= 255
  /\ type e = _get_partition_description (type_code e)
  /\ 0 <= start_sector e < 2 ^ 32
  /\ 0 <= size_sectors e < 2 ^ 32
  /\ size_bytes e = size_sectors e * ss
  /\ _bytes_to_human (size_bytes e) = Ok (size_human e)
  /\ guid e = ""
  /\ name e = []
  /\ attributes e = 0.

Definition is_surrogate (c : Z) : bool := (0xD800 <=? c) && (c <=? 0xDFFF).

(** A Unicode scalar value: what a character of a Python [str] that was
    decoded without errors is. *)
Definition code_point (c : Z) : Prop := 0 <= c <= 0x10FFFF /\ is_surrogate c = false.

(** A lower-case hexadecimal digit. *)
Definition is_hex_digit (c : ascii) : bool :=
  existsb (Ascii.eqb c)
          ["0"; "1"; "2"; "3"; "4"; "5"; "6"; "7"; "8"; "9";
           "a"; "b"; "c"; "d"; "e"; "f"]%char.

(** What holds of the fields of an entry of the GPT decoder at the sector
    size [ss]. *)
Definition gpt_fields (ss : Z) (e : PartitionEntry) : Prop :=
  type_code e = 0
  /\ is_active e = false
  /\ 0 < start_sector e < 2 ^ 64
  /\ 0 <= end_sector e < 2 ^ 64
  /\ 0 <= attributes e < 2 ^ 64
  /\ size_bytes e = size_sectors e * ss
  /\ _bytes_to_human (size_bytes e) = Ok (size_human e)
  /\ String.length (guid e) = 32%nat
  /\ Forall (fun c => is_hex_digit c = true) (list_ascii_of_string (guid e))
  /\ (List.length (name e) <= 36)%nat
  /\ hd 1 (name e) <> 0
  /\ last (name e) 1 <> 0
  /\ Forall code_point (name e).

(** ** A partition table as values *)

(** What one slot of an MBR partition table holds. *)
Record Slot : Type := {
  status_byte : byte;
  chs_first : bytes;
  type_byte : byte;
  chs_last : bytes;
  lba : Z;
  count : Z
}.

(** The 16 bytes of a slot. *)
Definition encode_slot (s : Slot) : bytes :=
  mbr_entry_chs (status_byte s) (chs_first s) (type_byte s) (chs_last s) (lba s) (count s).

(** The values that fit the fields of a slot. *)
Definition valid_slot (s : Slot) : Prop :=
  len (chs_first s) = 3 /\ len (chs_last s) = 3
  /\ 0 <= lba s < 2 ^ 32 /\ 0 <= count s < 2 ^ 32.

Definition empty_slot (s : Slot) : bool :=
  (byte_val (type_byte s) =? 0x00) && (lba s =? 0).

(** The entry that stands for the slot [s] at the position [i] of the
    table, on a disk with sectors of [sector_size] bytes. *)
Definition entry_of_slot (sector_size : Z) (i : Z) (s : Slot) : PartitionEntry :=
  {| number := i + 1;
     type := _get_partition_description (byte_val (type_byte s));
     type_code := byte_val (type_byte s);
     start_sector := lba s;
     size_sectors := count s;
     end_sector := lba s + count s - 1;
     size_bytes := count s * sector_size;
     size_human := text_of (_bytes_to_human (count s * sector_size));
     guid := "";
     name := [];
     attributes := 0;
     is_active := byte_val (status_byte s) =? 0x80 |}.

(** The entries of a table: those of the slots that are not empty, each
    with its position. *)
Definition entries_of_table (sector_size : Z) (table : list Slot) : list PartitionEntry :=
  map (fun p => entry_of_slot sector_size (fst p) (snd p))
      (filter (fun p => negb (empty_slot (snd p)))
              (combine (zseq 0 (List.length table)) table)).

Definition no_slot : Slot :=
  {| status_byte := x00; chs_first := zeros 3; type_byte := x00; chs_last := zeros 3;
     lba := 0; count := 0 |}.

Definition linux_slot : Slot :=
  {| status_byte := x80; chs_first := [x20; x21; x00]; type_byte := x83;
     chs_last := [xfe; xff; xff]; lba := 2048; count := 204800 |}.

Definition swap_slot : Slot :=
  {| status_byte := x00; chs_first := zeros 3; type_byte := x82; chs_last := zeros 3;
     lba := 206848; count := 0xFFFFFFFF |}.

(** A protective MBR followed by a GPT header that places the entry
    array at the sector [2^54], that is at the byte [2^63]. *)
Definition far_array_image : bytes := (protective_sector ++ gpt_header (2 ^ 54) 4 128)%list.

(** ** A GPT entry array as values *)

(** What one record of the entry array holds; the name is a text of
    one-byte characters. *)
Record GptRecord : Type := {
  rec_type : bytes;
  rec_guid : bytes;
  rec_first : Z;
  rec_last : Z;
  rec_attributes : Z;
  rec_name : string
}.

(** The 128 bytes of a record. *)
Definition encode_record (r : GptRecord) : bytes :=
  gpt_record (rec_type r) (rec_guid r) (rec_first r) (rec_last r) (rec_attributes r)
             (pad_to 72 (utf16le (rec_name r))).

(** The values that fit the fields of a record that is in use. *)
Definition valid_record (r : GptRecord) : Prop :=
  len (rec_type r) = 16 /\ all_zero (rec_type r) = false
  /\ len (rec_guid r) = 16
  /\ 0 < rec_first r < 2 ^ 64
  /\ 0 <= rec_last r < 2 ^ 64
  /\ 0 <= rec_attributes r < 2 ^ 64
  /\ (String.length (rec_name r) <= 36)%nat
  /\ Forall (fun b => b <> x00) (list_byte_of_string (rec_name r)).

(** The entry that stands for the record [r] with the number
    [partition_num], on a disk with sectors of [sector_size] bytes. *)
Definition entry_of_record (sector_size partition_num : Z) (r : GptRecord) : PartitionEntry :=
  {| number := partition_num;
     type := _get_gpt_partition_type (rec_type r);
     type_code := 0;
     start_sector := rec_first r;
     size_sectors := rec_last r - rec_first r + 1;
     end_sector := rec_last r;
     size_bytes := (rec_last r - rec_first r + 1) * sector_size;
     size_human := text_of (_bytes_to_human ((rec_last r - rec_first r + 1) * sector_size));
     guid := hexlify (rec_guid r);
     name := map byte_val (list_byte_of_string (rec_name r));
     attributes := rec_attributes r;
     is_active := false |}.

(** The entries of a list of records, numbered from [partition_num]
    on. *)
Definition entries_of_records (sector_size partition_num : Z) (rs : list GptRecord)
  : list PartitionEntry :=
  map (fun p => entry_of_record sector_size (fst p) (snd p))
      (combine (zseq partition_num (List.length rs)) rs).

(** A GPT disk with sectors of 512 bytes: the protective MBR, the header
    in the sector 1, and the records from the sector 2 on. *)
Definition gpt_image (rs : list GptRecord) : bytes :=
  (protective_sector ++ gpt_header 2 (len rs) 128 ++ List.concat (map encode_record rs))%list.

Definition root_record : GptRecord :=
  {| rec_type := linux_filesystem_guid; rec_guid := some_partition_guid;
     rec_first := 2048; rec_last := 4095; rec_attributes := 0; rec_name := "root" |}.

Definition home_record : GptRecord :=
  {| rec_type := linux_filesystem_guid; rec_guid := some_partition_guid;
     rec_first := 4096; rec_last := 8191; rec_attributes := 4; rec_name := "home" |}.

(** An entry that starts at the sector 2, where the entry array of a GPT
    disk lies. *)
Definition table_entry : PartitionEntry :=
  entry_of_record 512 1
    {| rec_type := linux_filesystem_guid; rec_guid := some_partition_guid;
       rec_first := 2; rec_last := 2; rec_attributes := 0; rec_name := "table" |}.

(** * The parts of the program that print *)

(** ** More of the Python runtime *)

(** [l[i]] on a list: a negative index counts from the end, [IndexError]
    outside the list. *)
Definition list_getitem {A : Type} (l : list A) (i : Z) : result A :=
  let j := if i <? 0 then i + len l else i in
  if j <? 0 then Raise IndexError
  else
    match nth_error l (Z.to_nat j) with
    | Some x => Ok x
    | None => Raise IndexError
    end.

(** [range(start, stop, step)] for [step > 0]. *)
Definition range (start stop step : Z) : list Z :=
  map (fun k => start + Z.of_nat k * step)
      (seq 0 (Z.to_nat ((stop - start + step - 1) / step))).

(** [s.ljust(width)] and [f"{s:<width}"]. *)
Definition ljust (width : nat) (s : string) : string :=
  s ++ string_of_list_ascii (repeat " "%char (width - String.length s)).

(** [f"{n:0wX}"]: upper-case hexadecimal, zero-padded to [width]
    characters, the minus sign of a negative number included. *)
Definition format_0X (width : nat) (n : Z) : string :=
  let sign := if n <? 0 then "-" else "" in
  let digits := hex_upper (Z.abs n) in
  sign ++ string_of_list_ascii
            (repeat "0"%char (width - String.length sign - String.length digits))
       ++ digits.

(** [chr(b) if 32 <= b < 127 else '.']. *)
Definition printable (b : Z) : ascii :=
  if (32 <=? b) && (b <? 127) then ascii_of_nat (Z.to_nat b) else "."%char.

(** ** The colours of the terminal *)

Module Colors.

(** The character ['\033']. *)
Definition ESC : ascii := "027"%char.

Definition HEADER : string := String ESC "[95m".
Definition BLUE : string := String ESC "[94m".
Definition GREEN : string := String ESC "[92m".
Definition YELLOW : string := String ESC "[93m".
Definition RED : string := String ESC "[91m".
Definition CYAN : string := String ESC "[96m".
Definition MAGENTA : string := String ESC "[95m".
Definition WHITE : string := String ESC "[97m".
Definition BOLD : string := String ESC "[1m".
Definition UNDERLINE : string := String ESC "[4m".
Definition END : string := String ESC "[0m".

End Colors.

Definition colors : list string :=
  [Colors.RED; Colors.GREEN; Colors.YELLOW; Colors.BLUE;
   Colors.MAGENTA; Colors.CYAN; Colors.WHITE].

Definition _get_partition_color (partition_num : Z) : result string :=
  list_getitem colors ((partition_num - 1) mod len colors).

(** ** The hex dump of the first sector

    The value of [_print_colored_hex_dump] is the list of the lines it
    prints. *)

(** The colour and the name of the area of the line at the offset [i]. *)
Definition area_of (i : Z) : string * string :=
  if i <? 440 then (Colors.BLUE, "BOOT")
  else if (440 <=? i) && (i <? 446) then (Colors.MAGENTA, "DSIG")
  else if (446 <=? i) && (i <? 510) then (Colors.GREEN, "PART")
  else if 510 <=? i then (Colors.YELLOW, "SIG")
  else (Colors.WHITE, "DATA").

(** The two columns of a line: the bytes in hexadecimal and as ASCII. *)
Definition hex_column (chunk : bytes) : string :=
  ljust (3 * 16)
        (String.concat " " (map (fun b => format_02X (byte_val b)) chunk)).

Definition ascii_column (chunk : bytes) : string :=
  string_of_list_ascii (map (fun b => printable (byte_val b)) chunk).

(** The line of the dump for the bytes [chunk] at the offset [i]. *)
Definition hex_dump_line (color area : string) (i : Z) (chunk : bytes) : string :=
  let offset_str := "0x" ++ format_0X 4 i in
  color ++ Colors.BOLD ++ ljust 4 area ++ Colors.END ++ " "
        ++ Colors.WHITE ++ offset_str ++ Colors.END ++ ": "
        ++ hex_column chunk ++ "  |" ++ ascii_column chunk ++ "|".

Definition newline : string := String "010"%char EmptyString.

Definition hex_dump_header : list string :=
  [ newline ++ Colors.BOLD ++ Colors.CYAN ++ "[HEX ДАМП ПЕРВОГО СЕКТОРА]" ++ Colors.END;
    Colors.YELLOW
      ++ "Смещение  HEX                                               ASCII"
      ++ Colors.END;
    Colors.CYAN ++ string_of_list_ascii (repeat "-"%char 67) ++ Colors.END ].

Definition _print_colored_hex_dump (data : bytes) : list string :=
  let bytes_per_line := 16 in
  (hex_dump_header
     ++ map (fun i =>
               let chunk := slice data i (i + bytes_per_line) in
               let '(color, area) := area_of i in
               hex_dump_line color area i chunk)
            (range 0 (Z.min (len data) 256) bytes_per_line))%list.

(** ** The first bytes of a partition

    The [try] block of the loop of [_find_first_sectors], for one
    partition: [Ok (Some line)] is the line that it prints after the title
    of the first 64 bytes, [Ok None] stands for no line, and [Raise e] for
    the exception that the [except] branch reports. *)

(** [' '.join(hex_str[i:i+2] for i in range(0, len(hex_str), 2))]. *)
Definition formatted_hex (hex_str : string) : string :=
  String.concat " "
    (map (fun i => substring (Z.to_nat i) 2 hex_str)
         (range 0 (Z.of_nat (String.length hex_str)) 2)).

Definition first_bytes_line (image : option bytes) (self_sector_size : Z)
           (partition : PartitionEntry) : result (option string) :=
  match image with
  | None => Raise FileNotFoundError
  | Some content =>
      let f := open content in
      let offset := start_sector partition * self_sector_size in
      rbind (seek f offset) (fun f =>
      rbind (read f 64) (fun '(first_bytes, f) =>
      match first_bytes with
      | [] => Ok None
      | _ :: _ =>
          let hex_str := hexlify first_bytes in
          Ok (Some ("    " ++ prefix 47 (formatted_hex hex_str) ++ "..."))
      end))
  end.

(** The two lower-case hexadecimal digits of each byte, with spaces
    between the bytes. *)
Definition spaced_hex (b : bytes) : string :=
  String.concat " " (map (fun x => hexlify [x]) b).

(** * The second program: [dump_analyzer.py] *)

Module DumpAnalyzer.

(** The dictionary that [parse_partition_entry] returns, with its four
    keys as fields. *)
Record Partition : Type := {
  boot_flag : Z;
  type : Z;
  first_sector : Z;
  total_sectors : Z
}.

(** [open(path, "rb").read(512)]. *)
Definition read_mbr (image : option bytes) : result bytes :=
  match image with
  | None => Raise FileNotFoundError
  | Some content => rbind (read (open content) 512) (fun '(mbr, _) => Ok mbr)
  end.

(** [struct.unpack("<II", b)]: two unsigned 32-bit integers from exactly
    eight bytes. *)
Definition unpack_II (b : bytes) : result (Z * Z) :=
  if Nat.eqb (List.length b) 8
  then Ok (le_value (firstn 4 b), le_value (skipn 4 b))
  else Raise StructError.

Definition parse_partition_entry (entry_bytes : bytes) : result Partition :=
  rbind (getitem entry_bytes 0) (fun boot_flag =>
  rbind (getitem entry_bytes 4) (fun part_type =>
  rbind (unpack_II (slice entry_bytes 8 16)) (fun '(first_sector, total_sectors) =>
  Ok {| boot_flag := boot_flag;
        type := part_type;
        first_sector := first_sector;
        total_sectors := total_sectors |}))).

(** [for x in l: out.append(f(x))]. *)
Fixpoint collect {A B : Type} (f : A -> result B) (l : list A) : result (list B) :=
  match l with
  | [] => Ok []
  | x :: rest =>
      rbind (f x) (fun y => rbind (collect f rest) (fun ys => Ok (y :: ys)))
  end.

(** The signature is unpacked first; when it is not 0xAA55 the function
    prints a warning and goes on. *)
Definition analyze_mbr (mbr : bytes) : result (list Partition) :=
  rbind (unpack_le 2 (slice mbr 510 512)) (fun sig =>
  let table_off := 446 in
  collect (fun i => parse_partition_entry
                      (slice mbr (table_off + i * 16) (table_off + (i + 1) * 16)))
          [0; 1; 2; 3]).

(** The two first steps of [main]: [mbr = read_mbr(path)] and
    [partitions = analyze_mbr(mbr)]. *)
Definition read_partitions (image : option bytes) : result (list Partition) :=
  rbind (read_mbr image) analyze_mbr.

End DumpAnalyzer.

(** The partition that the slot [i] of a sector holds, as the second
    program has it. *)
Definition slot_partition (sector : bytes) (i : Z) : DumpAnalyzer.Partition :=
  {| DumpAnalyzer.boot_flag := slot_status sector i;
     DumpAnalyzer.type := slot_type_code sector i;
     DumpAnalyzer.first_sector := slot_lba_start sector i;
     DumpAnalyzer.total_sectors := slot_num_sectors sector i |}.

(** The entry of the first program for a partition of the second one at
    the position [i] of the table. *)
Definition entry_of_partition (sector_size i : Z) (p : DumpAnalyzer.Partition)
  : PartitionEntry :=
  {| number := i + 1;
     type := _get_partition_description (DumpAnalyzer.type p);
     type_code := DumpAnalyzer.type p;
     start_sector := DumpAnalyzer.first_sector p;
     size_sectors := DumpAnalyzer.total_sectors p;
     end_sector := DumpAnalyzer.first_sector p + DumpAnalyzer.total_sectors p - 1;
     size_bytes := DumpAnalyzer.total_sectors p * sector_size;
     size_human := text_of (_bytes_to_human (DumpAnalyzer.total_sectors p * sector_size));
     guid := "";
     name := [];
     attributes := 0;
     is_active := DumpAnalyzer.boot_flag p =? 0x80 |}.

Definition empty_partition (p : DumpAnalyzer.Partition) : bool :=
  (DumpAnalyzer.type p =? 0x00) && (DumpAnalyzer.first_sector p =? 0).

(** * Properties *)

(** ** SizeFormatter *)

Section SizeFormatter.

Lemma float_of_int_exact (n : Z) :
  Z.abs n < 2 ^ 53 -> float_of_int n = Ok n.
Proof.
  intros Hn. unfold float_of_int.
  destruct (Z.eq_dec (Z.abs n) 0) as [E|E].
  - rewrite E. reflexivity.
  - assert (Hlog : Z.log2 (Z.abs n) < 53) by (apply Z.log2_lt_pow2; lia).
    destruct (Z.leb_spec (Z.log2 (Z.abs n) + 1) 53); [reflexivity | lia].
Qed.

Lemma round_half_even_lower (a b : Z) :
  0 < b -> a / b <= round_half_even a b.
Proof.
  intros Hb. unfold round_half_even.
  repeat match goal with |- context [if ?c then _ else _] => destruct c end; lia.
Qed.

(** Conversion never takes a number that needs more than 53 bits below
    [2^53]. *)
Lemma float_of_int_large (n m : Z) :
  2 ^ 53 <= n -> float_of_int n = Ok m -> 2 ^ 53 <= m.
Proof.
  intros Hn. unfold float_of_int.
  assert (Ha : Z.abs n = n) by lia. rewrite Ha.
  assert (Hlog : 53 <= Z.log2 n) by (apply Z.log2_le_pow2; lia).
  destruct (Z.leb_spec (Z.log2 n + 1) 53); [lia|].
  set (sh := Z.log2 n + 1 - 53).
  destruct (Z.leb_spec (2 ^ 1024) (round_half_even n (2 ^ sh) * 2 ^ sh)); [discriminate|].
  intros E. injection E as <-.
  assert (Hsh : 0 < 2 ^ sh) by (apply Z.pow_pos_nonneg; lia).
  assert (Hq : 2 ^ 52 <= n / 2 ^ sh).
  { apply Z.div_le_lower_bound; [lia|].
    rewrite Z.mul_comm, <- Z.pow_add_r by lia.
    replace (52 + sh) with (Z.log2 n) by (unfold sh; lia).
    apply Z.log2_spec; lia. }
  pose proof (round_half_even_lower n (2 ^ sh) Hsh) as Hr.
  assert (Hsgn : Z.sgn n = 1) by (apply Z.sgn_pos; lia).
  rewrite Hsgn, Z.mul_1_l.
  assert (H2 : 2 <= 2 ^ sh).
  { change 2 with (2 ^ 1) at 1. apply Z.pow_le_mono_r; unfold sh; lia. }
  change (2 ^ 53) with (2 ^ 52 * 2). nia.
Qed.

(** After [j] divisions the loop holds the float [m / 1024^j]. *)
Lemma bytes_to_human_loop_float (m : Z) (us : list string) :
  forall (j : Z) (k : nat),
    0 < j ->
    (k <= List.length us)%nat ->
    (forall i : nat, (i < k)%nat -> 1024 * 2 ^ (10 * (j + Z.of_nat i)) <= m) ->
    ((k < List.length us)%nat -> m < 1024 * 2 ^ (10 * (j + Z.of_nat k))) ->
    bytes_to_human_loop us (Float {| mant := m; shift := 10 * j |})
    = Ok (format_2f {| mant := m; shift := 10 * (j + Z.of_nat k) |}
            ++ " " ++ nth k (us ++ ["PB"])%list "").
Proof.
  induction us as [|u us IH]; intros j k Hj Hk Hge Hlt.
  - assert (k = 0%nat) by (simpl in Hk; lia). subst k.
    cbn [bytes_to_human_loop format_num_2f rbind nth app Z.of_nat].
    rewrite Z.add_0_r. reflexivity.
  - cbn [bytes_to_human_loop lt_1024 mant shift].
    destruct k as [|k].
    + cbn [Z.of_nat] in *. rewrite Z.add_0_r in *.
      destruct (Z.ltb_spec m (1024 * 2 ^ (10 * j))).
      * reflexivity.
      * cbn [List.length] in Hlt. lia.
    + pose proof (Hge 0%nat ltac:(lia)) as Hge0.
      cbn [Z.of_nat] in Hge0. rewrite Z.add_0_r in Hge0.
      destruct (Z.ltb_spec m (1024 * 2 ^ (10 * j))); [lia|].
      cbn [div_1024 rbind mant shift].
      replace (10 * j + 10) with (10 * (j + 1)) by lia.
      rewrite (IH (j + 1) k); try lia.
      * replace (j + 1 + Z.of_nat k) with (j + Z.of_nat (S k)) by lia. reflexivity.
      * cbn [List.length] in Hk. lia.
      * intros i Hi. specialize (Hge (S i) ltac:(lia)).
        replace (j + 1 + Z.of_nat i) with (j + Z.of_nat (S i)) by lia. exact Hge.
      * intros Hk'. replace (j + 1 + Z.of_nat k) with (j + Z.of_nat (S k)) by lia.
        apply Hlt. cbn [List.length]. lia.
Qed.

End SizeFormatter.

(** Evaluation of the closed powers of a goal and of its hypotheses. *)
Ltac eval_pow :=
  cbn [Z.of_nat Pos.of_succ_nat Pos.succ Z.add Z.mul Pos.add Pos.mul] in *;
  repeat match goal with
         | |- context [?a ^ ?b] =>
             let v := eval vm_compute in (a ^ b) in
             progress change (a ^ b) with v
         | H : context [?a ^ ?b] |- _ =>
             let v := eval vm_compute in (a ^ b) in
             progress change (a ^ b) with v in H
         end.

Lemma bytes_to_human_loop_cons (u : string) (us : list string) (x : num) :
  bytes_to_human_loop (u :: us) x
  = if lt_1024 x
    then rbind (format_num_2f x) (fun s => Ok (s ++ " " ++ u))
    else rbind (div_1024 x) (bytes_to_human_loop us).
Proof. reflexivity. Qed.

(** C10: the size formatter walks the units B, KB, MB, GB, TB and PB,
    dividing by 1024 at each step; it stops at the first unit [k] at which
    the value is below 1024 (that is, [1024^k <= n < 1024^(k+1)]), or at
    PB, and prints the value [float(n) / 1024^k] with two decimals. In
    particular 0 gives "0.00 B", 1024 gives "1.00 KB", 1536 gives
    "1.50 KB" and 1024**3 gives "1.00 GB". *)
Theorem bytes_to_human_units :
  (forall (n m : Z) (k : nat),
      0 <= n ->
      float_of_int n = Ok m ->
      (k <= 5)%nat ->
      (k <> 0%nat -> 1024 ^ Z.of_nat k <= n) ->
      (k <> 5%nat -> n < 1024 ^ (Z.of_nat k + 1)) ->
      _bytes_to_human n
      = Ok (format_2f {| mant := m; shift := 10 * Z.of_nat k |} ++ " " ++ unit_name k))
  /\ _bytes_to_human 0 = Ok "0.00 B"
  /\ _bytes_to_human 1024 = Ok "1.00 KB"
  /\ _bytes_to_human 1536 = Ok "1.50 KB"
  /\ _bytes_to_human (1024 ^ 3) = Ok "1.00 GB".
Proof.
  split; [|repeat split; vm_compute; reflexivity].
  intros n m k Hn Hm Hk Hlo Hhi.
  unfold _bytes_to_human, units.
  rewrite bytes_to_human_loop_cons. cbn [lt_1024].
  destruct k as [|k].
  - specialize (Hhi ltac:(lia)). eval_pow.
    destruct (Z.ltb_spec n 1024); [|lia].
    cbn [format_num_2f]. rewrite Hm. reflexivity.
  - specialize (Hlo ltac:(lia)).
    assert (H1024 : 1024 <= n).
    { eapply Z.le_trans; [|exact Hlo].
      change 1024 with (1024 ^ 1) at 1. apply Z.pow_le_mono_r; lia. }
    destruct (Z.ltb_spec n 1024); [lia|].
    cbn [div_1024]. rewrite Hm. cbn [rbind].
    change {| mant := m; shift := 10 |} with {| mant := m; shift := 10 * 1 |}.
    rewrite (bytes_to_human_loop_float m _ 1 k); try lia.
    + unfold unit_name, units. cbn [app nth].
      replace (1 + Z.of_nat k) with (Z.of_nat (S k)) by lia. reflexivity.
    + cbn [List.length]. lia.
    + intros i Hi.
      destruct (Z.lt_ge_cases n (2 ^ 53)) as [Hs|Hl].
      * rewrite float_of_int_exact in Hm by lia. injection Hm as <-.
        eapply Z.le_trans; [|exact Hlo].
        change 1024 with (2 ^ 10) . rewrite <- Z.pow_add_r, <- Z.pow_mul_r by lia.
        apply Z.pow_le_mono_r; lia.
      * pose proof (float_of_int_large n m Hl Hm) as Hm53.
        eapply Z.le_trans; [|exact Hm53].
        change 1024 with (2 ^ 10). rewrite <- Z.pow_add_r by lia.
        apply Z.pow_le_mono_r; lia.
    + cbn [List.length]. intros Hk4. specialize (Hhi ltac:(lia)).
      assert (Hn50 : n < 2 ^ 53).
      { eapply Z.lt_le_trans; [exact Hhi|].
        change 1024 with (2 ^ 10). rewrite <- Z.pow_mul_r by lia.
        apply Z.pow_le_mono_r; lia. }
      rewrite float_of_int_exact in Hm by lia. injection Hm as <-.
      eapply Z.lt_le_trans; [exact Hhi|].
      change 1024 with (2 ^ 10). rewrite <- Z.pow_add_r, <- Z.pow_mul_r by lia.
      apply Z.pow_le_mono_r; lia.
Qed.

Lemma bytes_to_human_units_witness :
  _bytes_to_human 5000000
  = Ok (format_2f {| mant := 5000000; shift := 20 |} ++ " MB").
Proof.
  apply (proj1 bytes_to_human_units 5000000 5000000 2%nat).
  - lia.
  - reflexivity.
  - lia.
  - intros _. vm_compute. discriminate.
  - intros _. reflexivity.
Defined.

(** ** PartitionTypeCatalog *)

Section Catalog.

Context {K V : Type} (eqb : K -> K -> bool).
Hypothesis eqb_eq : forall a b : K, eqb a b = true <-> a = b.

(** A lookup gives a value stored under the key, or the default when no
    item has the key. *)
Lemma dict_get_spec (d : list (K * V)) (k : K) (default : V) :
  In (k, dict_get eqb d k default) d
  \/ ((forall v, ~ In (k, v) d) /\ dict_get eqb d k default = default).
Proof.
  induction d as [|[k' v'] d IH]; cbn [dict_get].
  - right. split; [intros v []|reflexivity].
  - destruct (eqb k' k) eqn:E.
    + apply eqb_eq in E. subst k'. left. left. reflexivity.
    + destruct IH as [IH|[IH1 IH2]].
      * left. right. exact IH.
      * right. split; [|exact IH2].
        intros v [Hin|Hin]; [|exact (IH1 v Hin)].
        injection Hin as -> _.
        assert (eqb k k = true) by (apply eqb_eq; reflexivity). congruence.
Qed.

End Catalog.

Lemma format_02X_byte (c : Z) :
  0 <= c <= 255 -> format_02X c = hex2_upper c.
Proof.
  intros Hc.
  assert (Hall : forallb (fun n => String.eqb (format_02X (Z.of_nat n)) (hex2_upper (Z.of_nat n)))
                         (seq 0 256) = true) by (vm_compute; reflexivity).
  rewrite forallb_forall in Hall.
  specialize (Hall (Z.to_nat c)).
  rewrite Z2Nat.id in Hall by lia.
  apply String.eqb_eq, Hall, in_seq. lia.
Qed.

Lemma prefix_upper_hexlify (b0 b1 b2 b3 : byte) (rest : bytes) :
  prefix 8 (upper (hexlify (b0 :: b1 :: b2 :: b3 :: rest)))
  = upper (hexlify [b0; b1; b2; b3]).
Proof.
  unfold prefix. cbn [hexlify upper String.length].
  rewrite Nat.min_l by lia. cbn [substring].
  destruct (upper (hexlify rest)); reflexivity.
Qed.

(** C9, as the code has it: both lookups are total functions; a key of
    the table gives a description stored under it; an MBR code that is not
    in the table gives "Неизвестный (0xNN)" (the program's own word for
    an unknown type), NN being the two upper-case hexadecimal digits of
    the code; a 16-byte GUID that is not in the table gives
    "Unknown GUID (XXXXXXXX...)", the eight digits being the first four
    bytes of the GUID. *)
Theorem catalog_lookup_total :
  (forall type_code : Z,
      In (type_code, _get_partition_description type_code) partition_types
      \/ ((forall d, ~ In (type_code, d) partition_types)
          /\ _get_partition_description type_code
             = "Неизвестный (0x" ++ format_02X type_code ++ ")"
          /\ (0 <= type_code <= 255 -> format_02X type_code = hex2_upper type_code)))
  /\ (forall guid_bytes : bytes,
         List.length guid_bytes = 16%nat ->
         In (upper (hexlify guid_bytes), _get_gpt_partition_type guid_bytes) gpt_types
         \/ ((forall d, ~ In (upper (hexlify guid_bytes), d) gpt_types)
             /\ _get_gpt_partition_type guid_bytes
                = "Unknown GUID (" ++ upper (hexlify (firstn 4 guid_bytes)) ++ "...)")).
Proof.
  split.
  - intros type_code. unfold _get_partition_description.
    destruct (dict_get_spec Z.eqb Z.eqb_eq partition_types type_code
                ("Неизвестный (0x" ++ format_02X type_code ++ ")")) as [H|[H1 H2]].
    + left. exact H.
    + right. repeat split; [exact H1|exact H2|apply format_02X_byte].
  - intros guid_bytes Hlen. unfold _get_gpt_partition_type.
    destruct (dict_get_spec String.eqb String.eqb_eq gpt_types (upper (hexlify guid_bytes))
                ("Unknown GUID (" ++ prefix 8 (upper (hexlify guid_bytes)) ++ "...)"))
      as [H|[H1 H2]].
    + left. exact H.
    + right. split; [exact H1|]. rewrite H2.
      destruct guid_bytes as [|b0 [|b1 [|b2 [|b3 rest]]]]; try discriminate.
      rewrite prefix_upper_hexlify. reflexivity.
Qed.

Lemma catalog_lookup_total_witness :
  _get_partition_description 0x02 = "Неизвестный (0x02)"
  /\ _get_gpt_partition_type unknown_guid = "Unknown GUID (DEADBEEF...)".
Proof.
  split.
  - destruct (proj1 catalog_lookup_total 0x02) as [H|[_ [H _]]].
    + vm_compute in H. intuition discriminate.
    + exact H.
  - destruct (proj2 catalog_lookup_total unknown_guid) as [H|[_ H]].
    + reflexivity.
    + vm_compute in H. intuition discriminate.
    + exact H.
Defined.

(** C9 as the specification words it fails on the label of an unknown MBR
    code: the code 0x02 is in no row of the table and its label is not
    "Unknown (0x02)". *)
Lemma unknown_code_label_counterexample :
  (forall d, ~ In (0x02, d) partition_types)
  /\ _get_partition_description 0x02 <> "Unknown (0x02)".
Proof.
  split.
  - intros d H. vm_compute in H. intuition discriminate.
  - vm_compute. discriminate.
Qed.

(** ** TableTypeDetector *)

Lemma getitem_nth_error (s : bytes) (i : nat) (b : byte) :
  nth_error s i = Some b -> getitem s i = Ok (byte_val b).
Proof. unfold getitem. intros ->. reflexivity. Qed.

(** C3, as the code has it: a sector with the boot signature 55 AA whose
    first entry has the type code 0xEE is classified as [GPT], the one GPT
    member of [PartitionType] (the enumeration has the members MBR, GPT and
    UNKNOWN only), and the boot signature is recorded; nothing else of the
    analyzer changes. *)
Theorem detect_protective_mbr (sector : bytes) (self : DiskAnalyzer) :
  nth_error sector 510 = Some x55 ->
  nth_error sector 511 = Some xaa ->
  nth_error sector 450 = Some xee ->
  _detect_partition_type sector self
  = (Ok tt,
     {| disk_image := disk_image self;
        sector_size := sector_size self;
        partition_type := GPT;
        partitions := partitions self;
        boot_signature := "55 AA";
        disk_size := disk_size self |}).
Proof.
  intros H510 H511 H450.
  unfold _detect_partition_type, has_boot_signature, bind, lift, ret.
  rewrite (getitem_nth_error _ _ _ H510). cbn [byte_val Byte.to_N Z.of_N Z.eqb Pos.eqb].
  rewrite (getitem_nth_error _ _ _ H511). cbn [byte_val Byte.to_N Z.of_N Z.eqb Pos.eqb].
  unfold set_boot_signature at 1.
  cbn [disk_image sector_size partition_type partitions boot_signature disk_size].
  rewrite (getitem_nth_error _ _ _ H450). reflexivity.
Qed.

Lemma detect_protective_mbr_witness :
  partition_type (snd (_detect_partition_type protective_sector (__init__ "disk.img" 512)))
  = GPT.
Proof.
  rewrite (detect_protective_mbr protective_sector (__init__ "disk.img" 512)).
  - reflexivity.
  - reflexivity.
  - reflexivity.
  - reflexivity.
Defined.

(** C3 as the specification words it asks for a table type that is neither
    GPT nor MBR; on the protective MBR above the detector answers [GPT]. *)
Lemma protective_mbr_counterexample :
  nth_error protective_sector 510 = Some x55
  /\ nth_error protective_sector 511 = Some xaa
  /\ nth_error protective_sector 450 = Some xee
  /\ ~ (partition_type (snd (_detect_partition_type protective_sector
                                                    (__init__ "disk.img" 512))) <> GPT
        /\ partition_type (snd (_detect_partition_type protective_sector
                                                       (__init__ "disk.img" 512))) <> MBR).
Proof.
  repeat split; try reflexivity.
  intros [H _]. apply H. vm_compute. reflexivity.
Qed.

(** A first sector of 512 bytes has no bytes at the offsets 0x200 to
    0x208, so that without the boot signature the detector changes
    nothing. *)
Lemma detect_no_signature_512 (sector : bytes) (self : DiskAnalyzer) :
  List.length sector = 512%nat ->
  has_boot_signature sector self = (Ok false, self) ->
  _detect_partition_type sector self = (Ok tt, self).
Proof.
  intros Hlen Hsig.
  unfold _detect_partition_type, bind. rewrite Hsig.
  unfold slice. rewrite skipn_all2 by (rewrite Hlen; vm_compute; lia).
  rewrite firstn_nil. reflexivity.
Qed.

(** C2 at that image, read with 512-byte sectors: the GPT signature is
    looked for in the bytes of sector 0, the image stays UNKNOWN and
    [analyze] answers [False]. *)
Theorem bare_gpt_not_detected :
  getitem bare_gpt_image 510 = Ok 0
  /\ slice bare_gpt_image 512 (512 + 8) = EFI_PART
  /\ analyze (Some bare_gpt_image) (__init__ "disk.img" 512)
     = (false,
        {| disk_image := "disk.img";
           sector_size := 512;
           partition_type := UNKNOWN;
           partitions := [];
           boot_signature := "";
           disk_size := 1024 |}).
Proof. repeat split; vm_compute; reflexivity. Qed.

(** ** A truncated GPT header *)

(** C5 at that image: the header read gives 91 bytes, the decoder gives
    up, and [analyze] answers [True] with the type GPT and no entry. *)
Theorem truncated_gpt_header_accepted :
  len (slice truncated_gpt_image 512 (512 + 512)) = 91
  /\ analyze (Some truncated_gpt_image) (__init__ "disk.img" 512)
     = (true,
        {| disk_image := "disk.img";
           sector_size := 512;
           partition_type := GPT;
           partitions := [];
           boot_signature := "55 AA";
           disk_size := 603 |}).
Proof. split; vm_compute; reflexivity. Qed.

(** ** The decoders only append to [self.partitions] *)

Section Frame.

Lemma extend_nil (self : DiskAnalyzer) : extend self [] = self.
Proof. destruct self. unfold extend. cbn. rewrite app_nil_r. reflexivity. Qed.

Lemma extend_extend (self : DiskAnalyzer) (l1 l2 : list PartitionEntry) :
  extend (extend self l1) l2 = extend self (l1 ++ l2).
Proof. unfold extend. cbn. rewrite app_assoc. reflexivity. Qed.

Lemma appends_only_ret {A : Type} (a : A) : appends_only (ret a).
Proof. intros self. unfold outcome, emitted, ret. cbn. rewrite extend_nil. reflexivity. Qed.

Lemma appends_only_lift {A : Type} (r : result A) : appends_only (lift r).
Proof. intros self. unfold outcome, emitted, lift. cbn. rewrite extend_nil. reflexivity. Qed.

Lemma appends_only_sector_size : appends_only (gets sector_size).
Proof. intros self. unfold outcome, emitted, gets. cbn. rewrite extend_nil. reflexivity. Qed.

Lemma appends_only_append (e : PartitionEntry) : appends_only (partitions_append e).
Proof. intros self. reflexivity. Qed.

(** The answer and the entries of a sequence of two computations. *)
Lemma run_bind {A B : Type} (m : M A) (k : A -> M B) (self : DiskAnalyzer) :
  appends_only m ->
  (forall a, appends_only (k a)) ->
  bind m k self
  = match outcome m (sector_size self) with
    | Ok a =>
        (outcome (k a) (sector_size self),
         extend self (emitted m (sector_size self) ++ emitted (k a) (sector_size self)))
    | Raise e => (Raise e, extend self (emitted m (sector_size self)))
    end.
Proof.
  intros Hm Hk. unfold bind. rewrite (Hm self).
  destruct (outcome m (sector_size self)) as [a|e]; [|reflexivity].
  rewrite (Hk a). cbn [extend sector_size]. rewrite extend_extend. reflexivity.
Qed.

Lemma appends_only_bind {A B : Type} (m : M A) (k : A -> M B) :
  appends_only m -> (forall a, appends_only (k a)) -> appends_only (bind m k).
Proof.
  intros Hm Hk self.
  unfold outcome at 1, emitted at 1.
  rewrite !(run_bind m k) by assumption.
  cbn [blank __init__ sector_size].
  destruct (outcome m (sector_size self)); reflexivity.
Qed.

Lemma outcome_bind {A B : Type} (m : M A) (k : A -> M B) (ss : Z) :
  appends_only m ->
  (forall a, appends_only (k a)) ->
  outcome (bind m k) ss = rbind (outcome m ss) (fun a => outcome (k a) ss).
Proof.
  intros Hm Hk. unfold outcome at 1. rewrite run_bind by assumption.
  cbn [blank __init__ sector_size].
  destruct (outcome m ss); reflexivity.
Qed.

Lemma emitted_bind {A B : Type} (m : M A) (k : A -> M B) (ss : Z) :
  appends_only m ->
  (forall a, appends_only (k a)) ->
  emitted (bind m k) ss
  = (emitted m ss
       ++ match outcome m ss with
          | Ok a => emitted (k a) ss
          | Raise _ => []
          end)%list.
Proof.
  intros Hm Hk. unfold emitted at 1. rewrite run_bind by assumption.
  cbn [blank __init__ sector_size].
  destruct (outcome m ss); cbn; [reflexivity|rewrite app_nil_r; reflexivity].
Qed.

Lemma appends_only_for_each {A : Type} (l : list A) (body : A -> M unit) :
  (forall x, appends_only (body x)) -> appends_only (for_each l body).
Proof.
  intros Hbody. induction l as [|x l IH]; cbn [for_each].
  - apply appends_only_ret.
  - apply appends_only_bind; [apply Hbody|intros _; exact IH].
Qed.

End Frame.

Create HintDb appends discriminated.
#[export] Hint Resolve appends_only_ret appends_only_lift appends_only_sector_size
  appends_only_append appends_only_for_each : appends.

(** Proof of [appends_only] along the structure of a computation. *)
Ltac appends_step :=
  match goal with
  | |- appends_only (bind _ _) => apply appends_only_bind; [|intros ?]
  | |- appends_only (if ?c then _ else _) => destruct c
  | |- appends_only (match ?p with (_, _) => _ end) => destruct p
  | |- appends_only (let _ := _ in _) => cbv zeta
  | |- appends_only _ => solve [auto with appends]
  end.

Lemma appends_only_mbr_slot (sector : bytes) (i : Z) : appends_only (mbr_slot sector i).
Proof. unfold mbr_slot. repeat appends_step. Qed.

Lemma appends_only_analyze_mbr (sector : bytes) (f : file) :
  appends_only (_analyze_mbr sector f).
Proof.
  unfold _analyze_mbr. apply appends_only_for_each. apply appends_only_mbr_slot.
Qed.

Lemma appends_only_gpt_entry (entry_data : bytes) (partition_num : Z) :
  appends_only (gpt_entry entry_data partition_num).
Proof. unfold gpt_entry. repeat appends_step. Qed.

#[export] Hint Resolve appends_only_mbr_slot appends_only_gpt_entry : appends.

Lemma appends_only_gpt_entries (n : nat) :
  forall (f : file) (partition_entry_size partition_num : Z),
    appends_only (gpt_entries n f partition_entry_size partition_num).
Proof.
  induction n as [|n IH]; intros f esz num; cbn [gpt_entries].
  - apply appends_only_ret.
  - repeat appends_step.
Qed.

Lemma appends_only_analyze_gpt (sector : bytes) (f : file) :
  appends_only (_analyze_gpt sector f).
Proof.
  unfold _analyze_gpt. repeat appends_step. apply appends_only_gpt_entries.
Qed.

(** ** Slices *)

Section Slices.

Context {A : Type}.
Implicit Types s : list A.

Lemma length_slice s (a b : Z) :
  0 <= a -> a <= b -> b <= len s -> len (slice s a b) = b - a.
Proof.
  intros Ha Hab Hb. unfold slice, len in *.
  rewrite length_firstn, length_skipn. lia.
Qed.

Lemma slice_slice s (a b c d : Z) :
  0 <= a -> 0 <= c -> c <= d -> d <= b - a ->
  slice (slice s a b) c d = slice s (a + c) (a + d).
Proof.
  intros Ha Hc Hcd Hd. unfold slice.
  rewrite skipn_firstn_comm, firstn_firstn, skipn_skipn.
  f_equal; [|f_equal]; lia.
Qed.

Lemma nth_error_slice s (a b : Z) (k : nat) :
  0 <= a -> Z.of_nat k < b - a ->
  nth_error (slice s a b) k = nth_error s (Z.to_nat a + k).
Proof.
  intros Ha Hk. unfold slice.
  rewrite nth_error_firstn.
  destruct (Nat.ltb_spec k (Z.to_nat (b - a))); [|lia].
  apply nth_error_skipn.
Qed.

(** Reading on from where a read stopped is reading on from where it
    was meant to stop. *)
Lemma skipn_length_firstn s (n : nat) :
  skipn (List.length (firstn n s)) s = skipn n s.
Proof.
  rewrite length_firstn.
  destruct (Nat.le_ge_cases n (List.length s)).
  - rewrite Nat.min_l by assumption. reflexivity.
  - rewrite Nat.min_r by assumption.
    rewrite !skipn_all2 by lia. reflexivity.
Qed.

End Slices.

(** Going to a position from 0 on that fits a signed 64-bit offset. *)
Lemma seek_in_range (f : file) (p : Z) :
  0 <= p < 2 ^ 63 -> seek f p = Ok {| data := data f; pos := p |}.
Proof.
  intros Hp. unfold seek.
  destruct (Z.ltb_spec p (- 2 ^ 63)); [lia|].
  destruct (Z.leb_spec (2 ^ 63) p); [lia|].
  destruct (Z.ltb_spec p 0); [lia|]. reflexivity.
Qed.

Lemma getitem_in_range (s : bytes) (i : nat) :
  Z.of_nat i < len s -> getitem s i = Ok (byte_val (nth i s x00)).
Proof.
  intros Hi. unfold getitem, len in *.
  rewrite (nth_error_nth' s x00) by lia. reflexivity.
Qed.

Lemma unpack_le_exact (w : nat) (b : bytes) :
  len b = Z.of_nat w -> unpack_le w b = Ok (le_value b).
Proof.
  intros Hlen. unfold unpack_le, len in *.
  destruct (Nat.eqb_spec (List.length b) w); [reflexivity|lia].
Qed.

Lemma byte_val_range (b : byte) : 0 <= byte_val b < 256.
Proof.
  unfold byte_val. pose proof (Byte.to_N_bounded b) as H. lia.
Qed.

Lemma le_value_range (b : bytes) : 0 <= le_value b < 256 ^ len b.
Proof.
  unfold len. induction b as [|x b IH]; cbn [le_value List.length].
  - cbn. lia.
  - rewrite Nat2Z.inj_succ, Z.pow_succ_r by lia.
    pose proof (byte_val_range x). lia.
Qed.

Lemma nth_slice {A : Type} (s : list A) (a b : Z) (k : nat) (d : A) :
  0 <= a -> Z.of_nat k < b - a ->
  nth k (slice s a b) d = nth (Z.to_nat (a + Z.of_nat k)) s d.
Proof.
  intros Ha Hk. unfold slice. rewrite nth_firstn.
  destruct (Nat.ltb_spec k (Z.to_nat (b - a))); [|lia].
  rewrite nth_skipn. f_equal. lia.
Qed.

(** ** MbrDecoder *)

(** One turn of the loop of [_analyze_mbr] on a slot that lies within the
    sector. *)
Lemma mbr_slot_run (sector : bytes) (i : Z) (self : DiskAnalyzer) :
  0 <= i ->
  slot_offset i + 16 <= len sector ->
  mbr_slot sector i self
  = if slot_empty sector i then (Ok tt, self)
    else
      match _bytes_to_human (slot_num_sectors sector i * sector_size self) with
      | Ok h => (Ok tt, extend self [slot_entry sector (sector_size self) i h])
      | Raise e => (Raise e, self)
      end.
Proof.
  intros Hi Hlen.
  assert (Hoff : 446 <= slot_offset i) by (unfold slot_offset; lia).
  pose (partition_data := slice sector (slot_offset i) (slot_offset i + 16)).
  assert (Hpd : len partition_data = 16).
  { unfold partition_data. rewrite length_slice by lia. lia. }
  assert (H0 : getitem partition_data 0 = Ok (slot_status sector i)).
  { rewrite getitem_in_range by lia. unfold partition_data.
    rewrite nth_slice by lia. cbn [Z.of_nat]. rewrite Z.add_0_r. reflexivity. }
  assert (H4 : getitem partition_data 4 = Ok (slot_type_code sector i)).
  { rewrite getitem_in_range by lia. unfold partition_data.
    rewrite nth_slice by lia. reflexivity. }
  assert (H8 : unpack_le 4 (slice partition_data 8 12) = Ok (slot_lba_start sector i)).
  { rewrite unpack_le_exact by (rewrite length_slice; lia).
    unfold partition_data. rewrite slice_slice by lia. reflexivity. }
  assert (H12 : unpack_le 4 (slice partition_data 12 16) = Ok (slot_num_sectors sector i)).
  { rewrite unpack_le_exact by (rewrite length_slice; lia).
    unfold partition_data. rewrite slice_slice by lia. reflexivity. }
  unfold mbr_slot. fold (slot_offset i). fold partition_data.
  rewrite Hpd. cbn [Z.ltb Z.compare Pos.compare Pos.compare_cont].
  unfold bind, lift, gets, partitions_append.
  rewrite H0, H4, H8, H12. fold (slot_empty sector i).
  destruct (slot_empty sector i); [reflexivity|].
  destruct (_bytes_to_human (slot_num_sectors sector i * sector_size self));
    reflexivity.
Qed.

Lemma round_half_even_upper (a b : Z) :
  round_half_even a b <= a / b + 1.
Proof.
  unfold round_half_even.
  repeat match goal with |- context [if ?c then _ else _] => destruct c end; lia.
Qed.

(** Below [2^1023] the conversion to a float does not overflow. *)
Lemma float_of_int_total (n : Z) :
  Z.abs n < 2 ^ 1023 -> exists m, float_of_int n = Ok m.
Proof.
  intros Hn. unfold float_of_int.
  destruct (Z.leb_spec (Z.log2 (Z.abs n) + 1) 53) as [|Hbits]; [eauto|].
  set (a := Z.abs n) in *.
  set (sh := Z.log2 a + 1 - 53).
  assert (Ha : 0 < a).
  { destruct (Z.eq_dec a 0) as [E|E]; [rewrite E in Hbits; cbn in Hbits; lia|lia]. }
  assert (Hsh : 0 < 2 ^ sh) by (apply Z.pow_pos_nonneg; unfold sh; lia).
  assert (Hle : 2 ^ sh <= a).
  { apply Z.le_trans with (2 ^ Z.log2 a).
    - apply Z.pow_le_mono_r; unfold sh; lia.
    - apply Z.log2_spec. exact Ha. }
  pose proof (round_half_even_upper a (2 ^ sh)) as Hr.
  pose proof (Z.mul_div_le a (2 ^ sh) Hsh) as Hq.
  destruct (Z.leb_spec (2 ^ 1024) (round_half_even a (2 ^ sh) * 2 ^ sh)) as [Hbig|]; [|eauto].
  exfalso.
  assert (H1024 : 2 ^ 1024 = 2 * 2 ^ 1023) by reflexivity.
  nia.
Qed.

Lemma bytes_to_human_loop_float_total (us : list string) :
  forall d : dyadic, exists h, bytes_to_human_loop us (Float d) = Ok h.
Proof.
  induction us as [|u us IH]; intros d; cbn [bytes_to_human_loop format_num_2f rbind].
  - eauto.
  - destruct (lt_1024 (Float d)); cbn [format_num_2f div_1024 rbind]; eauto.
Qed.

Lemma bytes_to_human_total (n : Z) :
  Z.abs n < 2 ^ 1023 -> exists h, _bytes_to_human n = Ok h.
Proof.
  intros Hn. destruct (float_of_int_total n Hn) as [m Hm].
  unfold _bytes_to_human, units. rewrite bytes_to_human_loop_cons.
  destruct (lt_1024 (Int n)); cbn [format_num_2f div_1024]; rewrite Hm; cbn [rbind].
  - eauto.
  - apply bytes_to_human_loop_float_total.
Qed.

(** The size of an MBR partition in a sector size of at most 64 bits has
    a text. *)
Lemma slot_size_human (sector : bytes) (i ss : Z) :
  0 <= i ->
  slot_offset i + 16 <= len sector ->
  Z.abs ss < 2 ^ 64 ->
  exists h, _bytes_to_human (slot_num_sectors sector i * ss) = Ok h.
Proof.
  intros Hi Hlen Hss. apply bytes_to_human_total.
  pose proof (le_value_range (slice sector (slot_offset i + 12) (slot_offset i + 16))) as Hr.
  rewrite length_slice in Hr by (unfold slot_offset in *; lia).
  fold (slot_num_sectors sector i) in Hr.
  replace (slot_offset i + 16 - (slot_offset i + 12)) with 4 in Hr by lia.
  change (256 ^ 4) with (2 ^ 32) in Hr.
  rewrite Z.abs_mul.
  apply Z.le_lt_trans with (2 ^ 32 * 2 ^ 64); [|reflexivity].
  apply Z.mul_le_mono_nonneg; lia.
Qed.

Lemma mbr_slots_run (sector : bytes) (l : list Z) :
  forall self : DiskAnalyzer,
    (forall i, In i l -> 0 <= i /\ slot_offset i + 16 <= len sector) ->
    Z.abs (sector_size self) < 2 ^ 64 ->
    for_each l (mbr_slot sector) self
    = (Ok tt,
       extend self (map (decoded_slot sector (sector_size self))
                        (filter (fun i => negb (slot_empty sector i)) l))).
Proof.
  induction l as [|i l IH]; intros self Hl Hss; cbn [for_each filter map].
  - unfold ret. rewrite extend_nil. reflexivity.
  - destruct (Hl i (or_introl eq_refl)) as [Hi Hlen].
    assert (Hl' : forall j, In j l -> 0 <= j /\ slot_offset j + 16 <= len sector)
      by (intros j Hj; apply Hl; right; exact Hj).
    unfold bind. rewrite mbr_slot_run by assumption.
    destruct (slot_empty sector i); cbn [negb].
    + apply IH; assumption.
    + destruct (slot_size_human sector i (sector_size self) Hi Hlen Hss) as [h Hh].
      cbn [map].
      change (decoded_slot sector (sector_size self) i)
        with (slot_entry sector (sector_size self) i
                (text_of (_bytes_to_human (slot_num_sectors sector i * sector_size self)))).
      rewrite Hh. cbn [text_of].
      rewrite IH by assumption.
      cbn [extend sector_size]. rewrite extend_extend. reflexivity.
Qed.

(** C1, as the code has it: from a 512-byte sector the decoder emits one
    entry for each slot that is not empty (type code 0x00 and first
    sector 0 make a slot empty), in slot order, and the number of an
    entry is the position of its slot in the table, [i + 1]: an empty
    slot emits nothing, and the numbers of the slots after it are not
    moved down. *)
Theorem mbr_numbering_by_slot (sector : bytes) (f : file) (self : DiskAnalyzer) :
  len sector = 512 ->
  Z.abs (sector_size self) < 2 ^ 64 ->
  exists l : list PartitionEntry,
    _analyze_mbr sector f self = (Ok tt, extend self l)
    /\ l = map (decoded_slot sector (sector_size self)) (used_slots sector)
    /\ map number l = map (fun i => i + 1) (used_slots sector)
    /\ map start_sector l = map (slot_lba_start sector) (used_slots sector).
Proof.
  intros Hlen Hss. eexists. split; [|split; [reflexivity|]].
  - unfold _analyze_mbr. apply mbr_slots_run; [|exact Hss].
    intros i Hi. unfold slot_offset. cbn [In] in Hi. lia.
  - split; rewrite map_map; reflexivity.
Qed.

Lemma mbr_numbering_by_slot_witness :
  exists l : list PartitionEntry,
    _analyze_mbr sparse_sector (open sparse_sector) (__init__ "disk.img" 512)
    = (Ok tt, extend (__init__ "disk.img" 512) l)
    /\ map number l = [2; 4].
Proof.
  destruct (mbr_numbering_by_slot sparse_sector (open sparse_sector) (__init__ "disk.img" 512))
    as [l [Hrun [_ [Hnum _]]]].
  - reflexivity.
  - vm_compute. reflexivity.
  - exists l. split; [exact Hrun|exact Hnum].
Defined.

(** C1 as the specification words it numbers the entries 1..N; on the
    table [empty, X, empty, Y] the decoder numbers X with 2 and Y with
    4. *)
Lemma mbr_numbering_counterexample :
  len sparse_sector = 512
  /\ map (slot_empty sparse_sector) [0; 1; 2; 3] = [true; false; true; false]
  /\ map number
         (partitions (snd (_analyze_mbr sparse_sector (open sparse_sector)
                                        (__init__ "disk.img" 512))))
     = [2; 4]
  /\ map number
         (partitions (snd (_analyze_mbr sparse_sector (open sparse_sector)
                                        (__init__ "disk.img" 512))))
     <> [1; 2].
Proof.
  repeat split; try (vm_compute; reflexivity).
  vm_compute. discriminate.
Qed.

(** *** A table with one Linux partition *)

Lemma byte_at_app (boot tail : bytes) (k : Z) :
  0 <= k -> byte_at (boot ++ tail)%list (len boot + k) = byte_at tail k.
Proof.
  intros Hk. unfold byte_at, len.
  rewrite app_nth2 by lia. do 2 f_equal. lia.
Qed.

Lemma slice_app_skip {A : Type} (boot tail : list A) (a b : Z) :
  0 <= a -> slice (boot ++ tail)%list (len boot + a) (len boot + b) = slice tail a b.
Proof.
  intros Ha. unfold slice, len.
  rewrite skipn_app, skipn_all2, app_nil_l by lia.
  f_equal; [|f_equal]; lia.
Qed.

(** C7: whatever the boot code, the CHS fields and the two last bytes
    are, the decoder emits exactly one entry from that sector: number 1,
    active, of the kind "Linux Native", from sector 2048 to sector 206847,
    of [204800 * sector_size] bytes. *)
Theorem mbr_single_linux_entry
        (boot chs_start chs_end sig : bytes) (f : file) (self : DiskAnalyzer) :
  len boot = 446 ->
  len chs_start = 3 ->
  len chs_end = 3 ->
  len sig = 2 ->
  Z.abs (sector_size self) < 2 ^ 64 ->
  exists e : PartitionEntry,
    _analyze_mbr (linux_sector boot chs_start chs_end sig) f self
    = (Ok tt, extend self [e])
    /\ number e = 1
    /\ is_active e = true
    /\ type e = "Linux Native"
    /\ index 0 "Linux" (type e) = Some 0%nat
    /\ start_sector e = 2048
    /\ size_sectors e = 204800
    /\ end_sector e = 206847
    /\ size_bytes e = 204800 * sector_size self.
Proof.
  intros Hboot Hs He Hsig Hss.
  destruct chs_start as [|c1 [|c2 [|c3 [|]]]]; try (exfalso; cbn in Hs; lia).
  destruct chs_end as [|d1 [|d2 [|d3 [|]]]]; try (exfalso; cbn in He; lia).
  destruct sig as [|s1 [|s2 [|]]]; try (exfalso; cbn in Hsig; lia).
  set (sector := linux_sector boot [c1; c2; c3] [d1; d2; d3] [s1; s2]).
  assert (Hlen : len sector = 512).
  { unfold sector, linux_sector, mbr_sector, len in *.
    rewrite length_app. cbn [List.length app mbr_entry_chs zeros repeat le_bytes]. lia. }
  destruct (mbr_numbering_by_slot sector f self Hlen Hss) as [l [Hrun [Hl _]]].
  set (tail := (mbr_entry_chs x80 [c1; c2; c3] x83 [d1; d2; d3] 2048 204800
                  ++ zeros 16 ++ zeros 16 ++ zeros 16 ++ [s1; s2])%list).
  assert (Hsplit : sector = (boot ++ tail)%list) by reflexivity.
  assert (Hfield : forall k, 0 <= k -> byte_at sector (446 + k) = byte_at tail k).
  { intros k Hk. rewrite Hsplit, <- Hboot. apply byte_at_app. exact Hk. }
  assert (Hslice : forall a b, 0 <= a -> slice sector (446 + a) (446 + b) = slice tail a b).
  { intros a b Ha. rewrite Hsplit, <- Hboot. apply slice_app_skip. exact Ha. }
  assert (Hstatus : slot_status sector 0 = 0x80).
  { unfold slot_status, slot_offset. rewrite (Hfield (0 * 16)) by lia. reflexivity. }
  assert (Htype : forall i, In i [0; 1; 2; 3] ->
            slot_type_code sector i = if i =? 0 then 0x83 else 0).
  { intros i Hi. unfold slot_type_code, slot_offset.
    rewrite <- Z.add_assoc, Hfield by (cbn [In] in Hi; lia).
    cbn [In] in Hi. destruct Hi as [<-|[<-|[<-|[<-|[]]]]]; reflexivity. }
  assert (Hlba : forall i, In i [0; 1; 2; 3] ->
            slot_lba_start sector i = if i =? 0 then 2048 else 0).
  { intros i Hi. unfold slot_lba_start, slot_offset.
    rewrite <- !Z.add_assoc, Hslice by (cbn [In] in Hi; lia).
    cbn [In] in Hi. destruct Hi as [<-|[<-|[<-|[<-|[]]]]]; vm_compute; reflexivity. }
  assert (Hnum : slot_num_sectors sector 0 = 204800).
  { unfold slot_num_sectors, slot_offset.
    rewrite <- !Z.add_assoc, Hslice by lia. vm_compute. reflexivity. }
  assert (Hused : used_slots sector = [0]).
  { unfold used_slots, slot_empty. cbn [filter].
    rewrite !Htype, !Hlba by (cbn [In]; tauto). reflexivity. }
  rewrite Hused in Hl. cbn [map] in Hl. subst l.
  eexists. split; [exact Hrun|].
  unfold decoded_slot, slot_entry.
  cbn [number is_active type start_sector size_sectors end_sector size_bytes].
  rewrite Hstatus, Hnum, (Htype 0), (Hlba 0) by (cbn [In]; tauto).
  repeat split; reflexivity.
Qed.

Lemma mbr_single_linux_entry_witness :
  exists e : PartitionEntry,
    _analyze_mbr (linux_sector (zeros 446) (zeros 3) (zeros 3) boot_sig)
                 (open (linux_sector (zeros 446) (zeros 3) (zeros 3) boot_sig))
                 (__init__ "disk.img" 512)
    = (Ok tt, extend (__init__ "disk.img" 512) [e])
    /\ number e = 1
    /\ is_active e = true
    /\ end_sector e = 206847
    /\ size_bytes e = 204800 * 512.
Proof.
  destruct (mbr_single_linux_entry (zeros 446) (zeros 3) (zeros 3) boot_sig
              (open (linux_sector (zeros 446) (zeros 3) (zeros 3) boot_sig))
              (__init__ "disk.img" 512))
    as [e [Hrun [Hn [Ha [_ [_ [_ [_ [He Hs]]]]]]]]].
  - reflexivity.
  - reflexivity.
  - reflexivity.
  - reflexivity.
  - vm_compute. reflexivity.
  - exists e. repeat split; assumption.
Defined.

(** ** The run of [analyze] *)

(** What the detector answers and writes depends on the sector only. *)
Lemma detect_run (sector : bytes) :
  exists (r : result unit) (t : option PartitionType) (signature : bool),
    (forall self, _detect_partition_type sector self = (r, detected t signature self))
    /\ (t = None \/ r = Ok tt).
Proof.
  assert (Hnosig :
            forall (p : result bool),
              (p = Ok false \/ exists e, p = Raise e) ->
              exists r t signature,
                (forall self,
                    match p with
                    | Ok sig =>
                        (if sig : bool
                         then (set_boot_signature "55 AA" ;;;
                               partition_type <- lift (getitem sector 450) ;;
                               if partition_type =? 0xEE
                               then set_partition_type GPT
                               else set_partition_type MBR)
                         else
                           if bytes_eqb (slice sector 0x200 0x208) EFI_PART
                           then set_partition_type GPT
                           else ret tt) self
                    | Raise e => (Raise e, self)
                    end = (r, detected t signature self))
                /\ (t = None \/ r = Ok tt)).
  { intros p [->|[e ->]].
    - destruct (bytes_eqb (slice sector 0x200 0x208) EFI_PART).
      + exists (Ok tt), (Some GPT), false. split; [intros []; reflexivity|auto].
      + exists (Ok tt), None, false. split; [intros []; reflexivity|auto].
    - exists (Raise e), None, false. split; [intros []; reflexivity|auto]. }
  unfold _detect_partition_type, has_boot_signature.
  unfold bind at 1 2, lift at 1.
  destruct (getitem sector 510) as [b510|e]; [|apply (Hnosig (Raise e)); eauto].
  destruct (b510 =? 0x55); [|apply (Hnosig (Ok false)); auto].
  unfold bind at 1, lift at 1, ret at 1.
  destruct (getitem sector 511) as [b511|e]; [|apply (Hnosig (Raise e)); eauto].
  destruct (b511 =? 0xAA); [|apply (Hnosig (Ok false)); auto].
  unfold bind, lift, set_boot_signature, set_partition_type.
  cbn [disk_image sector_size partition_type partitions boot_signature disk_size].
  destruct (getitem sector 450) as [pt|e].
  - destruct (pt =? 0xEE).
    + exists (Ok tt), (Some GPT), true. split; [intros []; reflexivity|auto].
    + exists (Ok tt), (Some MBR), true. split; [intros []; reflexivity|auto].
  - exists (Raise e), None, true. split; [intros []; reflexivity|auto].
Qed.

(** The body of [analyze] on an image, step by step. *)
Lemma analyze_body_run (content : bytes) (self : DiskAnalyzer) :
  analyze_body (Some content) self
  = match read (open content) (sector_size self) with
    | Raise e => (Raise e, with_disk_size (len content) self)
    | Ok (sector0, f) =>
        if len sector0 <? sector_size self
        then (Ok false, with_disk_size (len content) self)
        else
          match _detect_partition_type sector0 (with_disk_size (len content) self) with
          | (Raise e, self') => (Raise e, self')
          | (Ok _, self') =>
              match partition_type self' with
              | MBR => decoded (_analyze_mbr sector0 f) self'
              | GPT => decoded (_analyze_gpt sector0 f) self'
              | UNKNOWN => (Ok false, self')
              end
          end
    end.
Proof.
  unfold analyze_body.
  unfold bind at 1, set_disk_size at 1. fold (with_disk_size (len content) self).
  unfold bind at 1, gets at 1. cbn [with_disk_size sector_size].
  fold (with_disk_size (len content) self).
  unfold bind at 1, lift at 1.
  destruct (read (open content) (sector_size self)) as [[sector0 f]|e]; [|reflexivity].
  destruct (len sector0 <? sector_size self); [reflexivity|].
  unfold bind at 1.
  destruct (_detect_partition_type sector0 (with_disk_size (len content) self))
    as [[[]|e] self']; [|reflexivity].
  unfold bind at 1, gets at 1.
  destruct (partition_type self'); [| |reflexivity].
  - unfold bind, decoded. rewrite (appends_only_analyze_mbr sector0 f self').
    destruct (outcome (_analyze_mbr sector0 f) (sector_size self')) as [[]|e]; reflexivity.
  - unfold bind, decoded. rewrite (appends_only_analyze_gpt sector0 f self').
    destruct (outcome (_analyze_gpt sector0 f) (sector_size self')) as [[]|e]; reflexivity.
Qed.

(** ** Decoding on a new analyzer *)



(** ** GptDecoder *)

Lemma record_at_succ (content : bytes) (offset esz : Z) (j : nat) :
  record_at content offset esz (S j) = record_at content (offset + esz) esz j.
Proof. unfold record_at. f_equal; lia. Qed.

(** The reads of the loop are the records by position: the loop steps by
    the declared size of a record, and it stops at the first read of
    fewer than 128 bytes. *)
Lemma gpt_entries_by_position (n : nat) :
  forall (f : file) (esz num q : Z) (self : DiskAnalyzer),
    0 <= esz ->
    0 <= pos f ->
    0 <= q ->
    skipn (Z.to_nat (pos f)) (data f) = skipn (Z.to_nat q) (data f) ->
    gpt_entries n f esz num self
    = gpt_fold (walked_records (data f) q esz n) num self.
Proof.
  induction n as [|n IH]; intros f esz num q self Hesz Hpos Hq Hinv; [reflexivity|].
  unfold walked_records. cbn [seq map take_while gpt_entries].
  rewrite <- seq_shift, map_map.
  rewrite (map_ext _ _ (record_at_succ (data f) q esz)).
  fold (walked_records (data f) (q + esz) esz n).
  assert (Hrec : record_at (data f) q esz 0 = firstn (Z.to_nat esz) (skipn (Z.to_nat (pos f)) (data f))).
  { unfold record_at, slice. rewrite Hinv. cbn [Z.of_nat]. f_equal; [|f_equal]; lia. }
  unfold bind at 1, lift at 1, read.
  destruct (Z.ltb_spec esz (-1)); [lia|].
  destruct (Z.eqb_spec esz (-1)); [lia|].
  rewrite <- Hrec.
  destruct (len (record_at (data f) q esz 0) <? 128); cbn [negb gpt_fold]; [reflexivity|].
  unfold bind.
  destruct (gpt_entry (record_at (data f) q esz 0) num self) as [[num'|e] self']; [|reflexivity].
  apply (IH {| data := data f; pos := pos f + len (record_at (data f) q esz 0) |}).
  - exact Hesz.
  - cbn [pos]. unfold len. lia.
  - lia.
  - cbn [pos data]. unfold len.
    rewrite Z2Nat.inj_add, Nat2Z.id by lia.
    rewrite Nat.add_comm, <- skipn_skipn.
    rewrite Hrec, skipn_length_firstn, Hinv, skipn_skipn.
    f_equal. lia.
Qed.

(** One turn of the loop of [_analyze_gpt] on a record of at least 128
    bytes. *)
Lemma gpt_entry_run (entry_data : bytes) (partition_num : Z) (self : DiskAnalyzer) :
  128 <= len entry_data ->
  gpt_entry entry_data partition_num self
  = if all_zero (slice entry_data 0 16) then (Ok partition_num, self)
    else if le_value (slice entry_data 32 40) =? 0 then (Ok partition_num, self)
    else
      match _bytes_to_human
              ((le_value (slice entry_data 40 48) - le_value (slice entry_data 32 40) + 1)
               * sector_size self) with
      | Ok h =>
          (Ok (partition_num + 1),
           extend self [record_entry entry_data (sector_size self) partition_num h])
      | Raise e => (Raise e, self)
      end.
Proof.
  intros Hlen. unfold gpt_entry.
  destruct (all_zero (slice entry_data 0 16)); [reflexivity|].
  unfold bind, lift, gets, partitions_append, ret.
  rewrite !unpack_le_exact by (rewrite length_slice; lia).
  destruct (le_value (slice entry_data 32 40) =? 0); [reflexivity|].
  destruct (_bytes_to_human _); reflexivity.
Qed.

(** C6, as the code has it. The decoder reads the header at the offset
    [sector_size] and goes to the entry array at
    [partition_entries_lba * sector_size]; it then goes through the
    records by the declared [partition_entry_size] (record [j] is at
    [j * partition_entry_size] from the start of the array), for at most
    [num_partition_entries] records, and stops at the first record of
    fewer than 128 bytes, 128 being the fixed size the code compares
    with. Of a record of at least 128 bytes it skips the one with an
    all-zero type GUID or a first sector 0, and otherwise emits an entry
    whose name is decoded as UTF-16 little-endian from the bytes 56 to
    128 of the record, with the NUL characters at both ends removed. *)
Theorem gpt_entry_array_walk (sector : bytes) (f : file) (self : DiskAnalyzer) :
  let ss := sector_size self in
  let gpt_header := slice (data f) ss (ss + ss) in
  let partition_entries_lba := le_value (slice gpt_header 72 80) in
  let num_partition_entries := le_value (slice gpt_header 80 84) in
  let partition_entry_size := le_value (slice gpt_header 84 88) in
  0 <= ss < 2 ^ 63 ->
  92 <= len gpt_header ->
  partition_entries_lba * ss < 2 ^ 63 ->
  _analyze_gpt sector f self
  = gpt_fold (walked_records (data f) (partition_entries_lba * ss) partition_entry_size
                             (Z.to_nat num_partition_entries))
             1 self
  /\ (forall entry_data,
         In entry_data (walked_records (data f) (partition_entries_lba * ss)
                                       partition_entry_size
                                       (Z.to_nat num_partition_entries)) ->
         128 <= len entry_data
         /\ forall partition_num self',
             gpt_entry entry_data partition_num self'
             = if all_zero (slice entry_data 0 16) then (Ok partition_num, self')
               else if le_value (slice entry_data 32 40) =? 0 then (Ok partition_num, self')
               else
                 match _bytes_to_human
                         ((le_value (slice entry_data 40 48)
                           - le_value (slice entry_data 32 40) + 1)
                          * sector_size self') with
                 | Ok h =>
                     (Ok (partition_num + 1),
                      extend self'
                             [record_entry entry_data (sector_size self') partition_num h])
                 | Raise e => (Raise e, self')
                 end).
Proof.
  intros ss gpt_header partition_entries_lba num_partition_entries partition_entry_size
         Hss Hhdr Hoff.
  split.
  - assert (Hread : read {| data := data f; pos := ss |} ss
                    = Ok (gpt_header, {| data := data f; pos := ss + len gpt_header |})).
    { unfold read. cbn [pos data].
      destruct (Z.ltb_spec ss (-1)); [lia|].
      destruct (Z.eqb_spec ss (-1)); [lia|].
      unfold gpt_header, slice. replace (ss + ss - ss) with ss by lia. reflexivity. }
    pose proof (le_value_range (slice gpt_header 72 80)) as Hlba.
    pose proof (le_value_range (slice gpt_header 84 88)) as Hesz.
    fold partition_entries_lba in Hlba. fold partition_entry_size in Hesz.
    unfold _analyze_gpt.
    unfold bind at 1, gets at 1. fold ss.
    unfold bind at 1, lift at 1. rewrite seek_in_range by lia.
    unfold bind at 1, lift at 1. rewrite Hread.
    destruct (Z.ltb_spec (len gpt_header) 92); [lia|].
    unfold bind, lift.
    rewrite !unpack_le_exact by (rewrite length_slice; lia).
    fold partition_entries_lba num_partition_entries partition_entry_size.
    rewrite seek_in_range by nia.
    cbn [data].
    apply (gpt_entries_by_position _ {| data := data f; pos := partition_entries_lba * ss |});
      cbn [pos data]; try lia. reflexivity.
  - intros entry_data Hin.
    assert (Hlen : 128 <= len entry_data).
    { unfold walked_records in Hin.
      induction (map (record_at (data f) (partition_entries_lba * ss) partition_entry_size)
                     (seq 0 (Z.to_nat num_partition_entries))) as [|r rs IH];
        cbn [take_while] in Hin; [destruct Hin|].
      destruct (Z.ltb_spec (len r) 128); cbn [negb] in Hin; [destruct Hin|].
      destruct Hin as [<-|Hin]; [assumption|exact (IH Hin)]. }
    split; [exact Hlen|].
    intros partition_num self'. apply gpt_entry_run. exact Hlen.
Qed.

Lemma gpt_entry_array_walk_witness :
  _analyze_gpt protective_sector (open two_entry_image) (__init__ "disk.img" 512)
  = gpt_fold (walked_records two_entry_image 1024 128 4) 1 (__init__ "disk.img" 512).
Proof.
  apply (proj1 (gpt_entry_array_walk protective_sector (open two_entry_image)
                                     (__init__ "disk.img" 512)
                                     ltac:(cbn; lia)
                                     ltac:(vm_compute; discriminate)
                                     ltac:(vm_compute; reflexivity))).
Defined.

(** C6 as the specification words it fails on both images. With records
    of 64 bytes the decoder stops at the first record, which is complete,
    and emits nothing, where the walk of the specification emits two
    entries; with records of 256 bytes the decoder cuts the name after 36
    characters, where the specification has the 50 characters. *)
Lemma gpt_declared_size_counterexample :
  partitions (snd (analyze (Some small_record_image) (__init__ "disk.img" 512))) = []
  /\ emitted (gpt_entries 2 (at_entry_array small_record_image) 64 1) 512 = []
  /\ List.length (emitted (spec_gpt_entries 2 (at_entry_array small_record_image) 64 1) 512)
     = 2%nat
  /\ map (fun e => List.length (name e))
         (partitions (snd (analyze (Some large_record_image) (__init__ "disk.img" 512))))
     = [36%nat; 36%nat]
  /\ map (fun e => List.length (name e))
         (emitted (gpt_entries 2 (at_entry_array large_record_image) 256 1) 512)
     = [36%nat; 36%nat]
  /\ map (fun e => List.length (name e))
         (emitted (spec_gpt_entries 2 (at_entry_array large_record_image) 256 1) 512)
     = [50%nat; 50%nat]
  /\ emitted (gpt_entries 2 (at_entry_array small_record_image) 64 1) 512
     <> emitted (spec_gpt_entries 2 (at_entry_array small_record_image) 64 1) 512
  /\ emitted (gpt_entries 2 (at_entry_array large_record_image) 256 1) 512
     <> emitted (spec_gpt_entries 2 (at_entry_array large_record_image) 256 1) 512.
Proof.
  repeat split; try (vm_compute; reflexivity); vm_compute; discriminate.
Qed.

(** C4 as the specification words it fails on a typed MBR slot with the
    sector count 0, and on a GPT record whose last sector is before its
    first one: both are materialized, with [end_sector < start_sector]
    and a sector count below 1. *)
Lemma materialized_entries_counterexample :
  In zero_count_entry
     (partitions (snd (analyze (Some zero_count_sector) (__init__ "disk.img" 512))))
  /\ end_sector zero_count_entry < start_sector zero_count_entry
  /\ size_sectors zero_count_entry < 1
  /\ In backwards_entry
        (partitions (snd (analyze (Some two_entry_image) (__init__ "disk.img" 512))))
  /\ end_sector backwards_entry < start_sector backwards_entry
  /\ size_sectors backwards_entry < 1.
Proof.
  split; [vm_compute; left; reflexivity|].
  split; [reflexivity|]. split; [reflexivity|].
  split; [vm_compute; right; left; reflexivity|].
  split; reflexivity.
Qed.

(** * Further properties of the analyzer *)

(** ** Bytes *)

Lemma byte_val_inj (a b : byte) : byte_val a = byte_val b -> a = b.
Proof.
  unfold byte_val. intros H. apply N2Z.inj in H.
  pose proof (Byte.of_to_N a) as Ha. rewrite H, Byte.of_to_N in Ha.
  congruence.
Qed.

Lemma bytes_eqb_eq (a b : bytes) : bytes_eqb a b = true <-> a = b.
Proof.
  revert b. induction a as [|x a IH]; intros [|y b]; cbn [bytes_eqb];
    try (split; [discriminate|discriminate]); [tauto|].
  rewrite andb_true_iff, IH. split.
  - intros [H ->]. apply Byte.byte_dec_bl in H. congruence.
  - intros E. injection E as -> ->. split; [apply Byte.byte_dec_lb|]; reflexivity.
Qed.

(** ** TableTypeDetector *)

(** The detector on a sector with the boot signature. *)
Lemma detect_signature_run (sector : bytes) (c : Z) (self : DiskAnalyzer) :
  getitem sector 510 = Ok 0x55 ->
  getitem sector 511 = Ok 0xAA ->
  getitem sector 450 = Ok c ->
  _detect_partition_type sector self
  = (Ok tt, detected (Some (if c =? 0xEE then GPT else MBR)) true self).
Proof.
  intros H510 H511 H450.
  unfold _detect_partition_type, has_boot_signature, bind, lift, ret.
  rewrite H510. cbn [Z.eqb Pos.eqb]. rewrite H511. cbn [Z.eqb Pos.eqb].
  unfold set_boot_signature at 1.
  cbn [disk_image sector_size partition_type partitions boot_signature disk_size].
  rewrite H450. destruct (c =? 0xEE); reflexivity.
Qed.

Lemma not_protective (b450 : byte) : b450 <> xee -> (byte_val b450 =? 0xEE) = false.
Proof.
  intros Hne. destruct (Z.eqb_spec (byte_val b450) 0xEE) as [E|_]; [|reflexivity].
  exfalso. apply Hne. apply byte_val_inj. exact E.
Qed.

(** X1. The boot signature with another type code than 0xEE in the first
    entry makes the disk an MBR disk, and the signature is recorded. *)
Theorem detect_mbr (sector : bytes) (b450 : byte) (self : DiskAnalyzer) :
  nth_error sector 510 = Some x55 ->
  nth_error sector 511 = Some xaa ->
  nth_error sector 450 = Some b450 ->
  b450 <> xee ->
  _detect_partition_type sector self = (Ok tt, detected (Some MBR) true self).
Proof.
  intros H510 H511 H450 Hne.
  rewrite (detect_signature_run sector (byte_val b450)).
  - rewrite not_protective by exact Hne. reflexivity.
  - exact (getitem_nth_error sector 510 x55 H510).
  - exact (getitem_nth_error sector 511 xaa H511).
  - exact (getitem_nth_error sector 450 b450 H450).
Qed.

Lemma detect_mbr_witness :
  _detect_partition_type sparse_sector (__init__ "disk.img" 512)
  = (Ok tt, detected (Some MBR) true (__init__ "disk.img" 512)).
Proof.
  apply (detect_mbr sparse_sector x00).
  - reflexivity.
  - reflexivity.
  - reflexivity.
  - discriminate.
Defined.

(** A sector whose bytes 510 and 511 are not 55 AA has no boot
    signature. *)
Lemma no_boot_signature (sector : bytes) (b510 b511 : byte) (self : DiskAnalyzer) :
  nth_error sector 510 = Some b510 ->
  nth_error sector 511 = Some b511 ->
  b510 <> x55 \/ b511 <> xaa ->
  has_boot_signature sector self = (Ok false, self).
Proof.
  intros H510 H511 Hsig.
  unfold has_boot_signature, bind, lift, ret.
  rewrite (getitem_nth_error _ _ _ H510).
  destruct (Z.eqb_spec (byte_val b510) 0x55) as [E510|]; [|reflexivity].
  rewrite (getitem_nth_error _ _ _ H511).
  destruct (Z.eqb_spec (byte_val b511) 0xAA) as [E511|]; [|reflexivity].
  exfalso. destruct Hsig as [H|H]; apply H; apply byte_val_inj; assumption.
Qed.

(** The detector on a sector without the boot signature. *)
Lemma detect_no_signature_run (sector : bytes) (self : DiskAnalyzer) :
  has_boot_signature sector self = (Ok false, self) ->
  _detect_partition_type sector self
  = if bytes_eqb (slice sector 512 520) EFI_PART
    then (Ok tt, detected (Some GPT) false self)
    else (Ok tt, self).
Proof.
  intros Hno. unfold _detect_partition_type, bind. rewrite Hno.
  change (slice sector 0x200 0x208) with (slice sector 512 520).
  destruct (bytes_eqb (slice sector 512 520) EFI_PART); [destruct self|]; reflexivity.
Qed.

Lemma detect_nothing (sector : bytes) (self : DiskAnalyzer) :
  has_boot_signature sector self = (Ok false, self) ->
  slice sector 512 520 <> EFI_PART ->
  _detect_partition_type sector self = (Ok tt, self).
Proof.
  intros Hno Hne. rewrite detect_no_signature_run by exact Hno.
  destruct (bytes_eqb (slice sector 512 520) EFI_PART) eqn:E; [|reflexivity].
  apply bytes_eqb_eq in E. contradiction.
Qed.

(** X2. Without the boot signature the detector looks at the bytes 512 to
    520 of the buffer of sector 0 and at nothing else: it answers GPT when
    they are "EFI PART" and leaves the analyzer as it was otherwise, which
    is always so when the buffer has fewer than 520 bytes. *)
Theorem detect_without_signature (sector : bytes) (b510 b511 : byte) (self : DiskAnalyzer) :
  nth_error sector 510 = Some b510 ->
  nth_error sector 511 = Some b511 ->
  b510 <> x55 \/ b511 <> xaa ->
  (slice sector 512 520 = EFI_PART ->
   _detect_partition_type sector self = (Ok tt, detected (Some GPT) false self))
  /\ (slice sector 512 520 <> EFI_PART ->
      _detect_partition_type sector self = (Ok tt, self))
  /\ (len sector < 520 -> _detect_partition_type sector self = (Ok tt, self)).
Proof.
  intros H510 H511 Hsig.
  pose proof (no_boot_signature sector b510 b511 self H510 H511 Hsig) as Hno.
  split; [|split].
  - intros E. rewrite detect_no_signature_run by exact Hno.
    apply bytes_eqb_eq in E. rewrite E. reflexivity.
  - apply detect_nothing. exact Hno.
  - intros Hlen. apply detect_nothing; [exact Hno|]. intros E.
    apply (f_equal (@List.length byte)) in E.
    unfold slice, len in *. rewrite length_firstn, length_skipn in E.
    cbn in E. lia.
Qed.

Lemma detect_without_signature_witness :
  _detect_partition_type (zeros 512) (__init__ "disk.img" 512)
  = (Ok tt, __init__ "disk.img" 512).
Proof.
  apply (detect_without_signature (zeros 512) x00 x00 (__init__ "disk.img" 512)).
  - reflexivity.
  - reflexivity.
  - left. discriminate.
  - reflexivity.
Defined.

(** ** The run of [analyze]: failures and what stays *)

(** The body of [analyze] on a file of fewer bytes than one sector. *)
Lemma analyze_body_short (content : bytes) (self : DiskAnalyzer) :
  len content < sector_size self ->
  analyze_body (Some content) self = (Ok false, with_disk_size (len content) self).
Proof.
  intros Hshort. rewrite analyze_body_run.
  unfold read, open. cbn [pos data skipn Z.to_nat].
  assert (0 <= len content) by (unfold len; lia).
  destruct (Z.ltb_spec (sector_size self) (-1)); [lia|].
  destruct (Z.eqb_spec (sector_size self) (-1)); [lia|].
  rewrite firstn_all2 by (unfold len in *; lia).
  destruct (Z.ltb_spec (len content) (sector_size self)); [reflexivity|lia].
Qed.

(** X3. When the file has fewer bytes than one sector, [analyze] answers
    [False]; it has recorded the size of the file and nothing else. *)
Theorem analyze_short_sector (content : bytes) (self : DiskAnalyzer) :
  len content < sector_size self ->
  analyze (Some content) self = (false, with_disk_size (len content) self).
Proof.
  intros Hshort. unfold analyze. rewrite analyze_body_short by exact Hshort.
  reflexivity.
Qed.

Lemma analyze_short_sector_witness :
  analyze (Some (zeros 100)) (__init__ "disk.img" 512)
  = (false, with_disk_size 100 (__init__ "disk.img" 512)).
Proof.
  apply (analyze_short_sector (zeros 100) (__init__ "disk.img" 512)).
  reflexivity.
Defined.

(** The first sector as [analyze] reads it with a sector size from 0 on
    that the file can fill. *)
Lemma read_first_sector (content : bytes) (ss : Z) :
  0 <= ss <= len content ->
  read (open content) ss
  = Ok (firstn (Z.to_nat ss) content, {| data := content; pos := ss |})
  /\ len (firstn (Z.to_nat ss) content) = ss.
Proof.
  intros Hss. unfold read, open. cbn [pos data skipn Z.to_nat].
  destruct (Z.ltb_spec ss (-1)); [lia|].
  destruct (Z.eqb_spec ss (-1)); [lia|].
  assert (Hlen : len (firstn (Z.to_nat ss) content) = ss).
  { unfold len in *. rewrite length_firstn. lia. }
  split; [rewrite Hlen; reflexivity|exact Hlen].
Qed.

(** X4. With a sector size below 512 (other than -1, which reads the
    whole file) a fresh analyzer never decodes anything: [analyze] answers
    [False], the table type stays unknown and there is no entry. *)
Theorem analyze_small_sector_size (content : bytes) (path : string) (ss : Z) :
  ss < 512 ->
  ss <> -1 ->
  analyze (Some content) (__init__ path ss)
  = (false, with_disk_size (len content) (__init__ path ss)).
Proof.
  intros Hss Hne.
  destruct (Z.lt_ge_cases (len content) ss) as [Hshort|Hfull].
  { unfold analyze. rewrite analyze_body_short by exact Hshort. reflexivity. }
  unfold analyze. rewrite analyze_body_run.
  change (sector_size (__init__ path ss)) with ss.
  destruct (Z.lt_ge_cases ss 0) as [Hneg|Hpos].
  { unfold read. destruct (Z.ltb_spec ss (-1)); [reflexivity|lia]. }
  destruct (read_first_sector content ss ltac:(lia)) as [Hread Hlen].
  rewrite Hread, Hlen, Z.ltb_irrefl.
  set (sector0 := firstn (Z.to_nat ss) content) in *.
  set (self1 := with_disk_size (len content) (__init__ path ss)).
  assert (H511 : getitem sector0 511 = Raise IndexError).
  { unfold getitem. replace (nth_error sector0 511) with (@None byte); [reflexivity|].
    symmetry. apply nth_error_None. unfold len in Hlen. lia. }
  assert (Hslice : slice sector0 0x200 0x208 = []).
  { unfold slice. rewrite skipn_all2 by (unfold len in Hlen; lia). apply firstn_nil. }
  assert (Hsig : has_boot_signature sector0 self1 = (Raise IndexError, self1)
                 \/ has_boot_signature sector0 self1 = (Ok false, self1)).
  { unfold has_boot_signature, bind, lift, ret, getitem.
    destruct (nth_error sector0 510) as [b510|]; [|left; reflexivity].
    destruct (byte_val b510 =? 0x55); [|right; reflexivity].
    unfold getitem in H511. destruct (nth_error sector0 511); [discriminate|].
    left. reflexivity. }
  assert (Hdet : exists e, _detect_partition_type sector0 self1 = (Raise e, self1)
                 \/ _detect_partition_type sector0 self1 = (Ok tt, self1)).
  { exists IndexError. unfold _detect_partition_type, bind.
    destruct Hsig as [-> | ->]; [left; reflexivity|].
    rewrite Hslice. right. reflexivity. }
  destruct Hdet as [e [-> | ->]]; reflexivity.
Qed.

Lemma analyze_small_sector_size_witness :
  analyze (Some sparse_sector) (__init__ "disk.img" 511)
  = (false, with_disk_size 512 (__init__ "disk.img" 511)).
Proof.
  apply (analyze_small_sector_size sparse_sector "disk.img" 511).
  - reflexivity.
  - discriminate.
Defined.

(** What [analyze] keeps, read off a result that is written out. *)
Ltac keeps_fields :=
  cbn [fst snd rbind extend detected with_disk_size
       sector_size disk_image partitions disk_size];
  split; [reflexivity|];
  split; [reflexivity|];
  split; [first [eexists; reflexivity | exists []; rewrite app_nil_r; reflexivity]|];
  split; [intros ? [= <-]; reflexivity|];
  split; [discriminate|].

(** X5. Whatever the image and the analyzer are, [analyze] keeps the
    sector size and the name of the file, it only adds to the partitions,
    on a file that exists it records the size of the file, on a missing
    file it changes nothing and answers [False]; and when it answers
    [True] the table type is MBR or GPT. *)
Theorem analyze_keeps (image : option bytes) (self : DiskAnalyzer) :
  sector_size (snd (analyze image self)) = sector_size self
  /\ disk_image (snd (analyze image self)) = disk_image self
  /\ (exists l, partitions (snd (analyze image self)) = (partitions self ++ l)%list)
  /\ (forall content, image = Some content ->
                      disk_size (snd (analyze image self)) = len content)
  /\ (image = None -> analyze image self = (false, self))
  /\ (fst (analyze image self) = true ->
      partition_type (snd (analyze image self)) = MBR
      \/ partition_type (snd (analyze image self)) = GPT).
Proof.
  destruct image as [content|].
  2:{ repeat split; try discriminate.
      exists []. cbn. rewrite app_nil_r. reflexivity. }
  unfold analyze. rewrite analyze_body_run.
  destruct (read (open content) (sector_size self)) as [[sector0 f]|e];
    [|keeps_fields; discriminate].
  destruct (len sector0 <? sector_size self); [keeps_fields; discriminate|].
  destruct (detect_run sector0) as (r & t & signature & Hdet & _).
  rewrite Hdet.
  destruct r as [[]|e]; [|keeps_fields; discriminate].
  destruct (partition_type (detected t signature (with_disk_size (len content) self))) eqn:Ept.
  - unfold decoded.
    destruct (outcome (_analyze_mbr sector0 f) _) as [[]|e]; keeps_fields;
      [intros _; left; exact Ept|discriminate].
  - unfold decoded.
    destruct (outcome (_analyze_gpt sector0 f) _) as [[]|e]; keeps_fields;
      [intros _; right; exact Ept|discriminate].
  - keeps_fields. discriminate.
Qed.

Lemma analyze_keeps_witness :
  disk_size (snd (analyze (Some sparse_sector) (__init__ "disk.img" 512))) = 512
  /\ (partition_type (snd (analyze (Some sparse_sector) (__init__ "disk.img" 512))) = MBR
      \/ partition_type (snd (analyze (Some sparse_sector) (__init__ "disk.img" 512))) = GPT).
Proof.
  destruct (analyze_keeps (Some sparse_sector) (__init__ "disk.img" 512))
    as (_ & _ & _ & Hsize & _ & Htype).
  split.
  - exact (Hsize sparse_sector eq_refl).
  - apply Htype. vm_compute. reflexivity.
Defined.

(** ** Whole MBR disks *)

(** The MBR decoder on a sector that holds the four slots. *)
Lemma analyze_mbr_run (sector : bytes) (f : file) (self : DiskAnalyzer) :
  510 <= len sector ->
  Z.abs (sector_size self) < 2 ^ 64 ->
  _analyze_mbr sector f self
  = (Ok tt, extend self (map (decoded_slot sector (sector_size self)) (used_slots sector))).
Proof.
  intros Hlen Hss. unfold _analyze_mbr. apply mbr_slots_run; [|exact Hss].
  intros i Hi. unfold slot_offset. cbn [In] in Hi. lia.
Qed.

Lemma outcome_emitted_mbr (sector : bytes) (f : file) (ss : Z) :
  510 <= len sector ->
  Z.abs ss < 2 ^ 64 ->
  outcome (_analyze_mbr sector f) ss = Ok tt
  /\ emitted (_analyze_mbr sector f) ss = map (decoded_slot sector ss) (used_slots sector).
Proof.
  intros Hlen Hss. unfold outcome, emitted.
  rewrite analyze_mbr_run by assumption. split; reflexivity.
Qed.

Lemma nth_error_first_sector (content : bytes) (ss : Z) (i : nat) :
  Z.of_nat i < ss ->
  nth_error (firstn (Z.to_nat ss) content) i = nth_error content i.
Proof.
  intros Hi. rewrite nth_error_firstn.
  destruct (Nat.ltb_spec i (Z.to_nat ss)); [reflexivity|lia].
Qed.

(** X6. An image that has the boot signature at the offsets 510 and 511
    and another type than 0xEE at the offset 450, read with sectors of at
    least 512 bytes that the file can fill: on a fresh analyzer [analyze]
    answers [True], the type is MBR, and the partitions are the entries of
    the slots that are not empty, in slot order. *)
Theorem analyze_mbr_disk (content : bytes) (b450 : byte) (path : string) (ss : Z) :
  512 <= ss < 2 ^ 64 ->
  ss <= len content ->
  nth_error content 510 = Some x55 ->
  nth_error content 511 = Some xaa ->
  nth_error content 450 = Some b450 ->
  b450 <> xee ->
  analyze (Some content) (__init__ path ss)
  = (true,
     {| disk_image := path;
        sector_size := ss;
        partition_type := MBR;
        partitions := map (decoded_slot (firstn (Z.to_nat ss) content) ss)
                          (used_slots (firstn (Z.to_nat ss) content));
        boot_signature := "55 AA";
        disk_size := len content |}).
Proof.
  intros Hss Hfull H510 H511 H450 Hne.
  unfold analyze. rewrite analyze_body_run.
  change (sector_size (__init__ path ss)) with ss.
  destruct (read_first_sector content ss ltac:(lia)) as [Hread Hlen].
  rewrite Hread, Hlen, Z.ltb_irrefl.
  set (sector0 := firstn (Z.to_nat ss) content) in *.
  assert (Hnth : forall i b, Z.of_nat i < ss -> nth_error content i = Some b ->
                         getitem sector0 i = Ok (byte_val b)).
  { intros i b Hi Hb. apply getitem_nth_error. unfold sector0.
    rewrite nth_error_first_sector by exact Hi. exact Hb. }
  rewrite (detect_signature_run sector0 (byte_val b450)).
  2:{ exact (Hnth 510%nat x55 ltac:(lia) H510). }
  2:{ exact (Hnth 511%nat xaa ltac:(lia) H511). }
  2:{ exact (Hnth 450%nat b450 ltac:(lia) H450). }
  rewrite not_protective by exact Hne.
  cbn [detected partition_type]. unfold decoded.
  cbn [sector_size detected with_disk_size __init__].
  destruct (outcome_emitted_mbr sector0 {| data := content; pos := ss |} ss) as [-> ->];
    [lia|lia|].
  reflexivity.
Qed.

Lemma analyze_mbr_disk_witness :
  analyze (Some sparse_sector) (__init__ "disk.img" 512)
  = (true,
     {| disk_image := "disk.img";
        sector_size := 512;
        partition_type := MBR;
        partitions := map (decoded_slot (firstn 512 sparse_sector) 512)
                          (used_slots (firstn 512 sparse_sector));
        boot_signature := "55 AA";
        disk_size := 512 |}).
Proof.
  apply (analyze_mbr_disk sparse_sector x00 "disk.img" 512).
  - lia.
  - vm_compute. discriminate.
  - reflexivity.
  - reflexivity.
  - reflexivity.
  - discriminate.
Defined.

(** ** The entries of the decoders, field by field *)

Section EmitsAt.

Variable ss : Z.
Variable P : PartitionEntry -> Prop.

Lemma emits_at_ret {A : Type} (a : A) : emits_at ss P (ret a).
Proof. intros e []. Qed.

Lemma emits_at_append (e : PartitionEntry) : P e -> emits_at ss P (partitions_append e).
Proof. intros He e' [<-|[]]. exact He. Qed.

(** What a lifted result gave is known in what follows. *)
Lemma emits_at_bind_lift {A B : Type} (r : result A) (k : A -> M B) :
  (forall a, appends_only (k a)) ->
  (forall a, r = Ok a -> emits_at ss P (k a)) ->
  emits_at ss P (bind (lift r) k).
Proof.
  intros Ak Hk e. rewrite emitted_bind by auto with appends.
  cbn [app]. change (outcome (lift r) ss) with r.
  destruct r as [a|]; [apply (Hk a eq_refl)|intros []].
Qed.

(** The sector size that is read is [ss]. *)
Lemma emits_at_bind_sector_size {B : Type} (k : Z -> M B) :
  (forall a, appends_only (k a)) ->
  emits_at ss P (k ss) ->
  emits_at ss P (bind (gets sector_size) k).
Proof.
  intros Ak Hk e. rewrite emitted_bind by auto with appends.
  cbn [app]. exact (Hk e).
Qed.

Lemma emits_at_bind {A B : Type} (m : M A) (k : A -> M B) :
  appends_only m ->
  (forall a, appends_only (k a)) ->
  emits_at ss P m ->
  (forall a, emits_at ss P (k a)) ->
  emits_at ss P (bind m k).
Proof.
  intros Am Ak Hm Hk e. rewrite emitted_bind by assumption.
  rewrite in_app_iff. intros [H|H].
  - exact (Hm e H).
  - destruct (outcome m ss) as [a|]; [exact (Hk a e H)|destruct H].
Qed.

Lemma emits_at_for_each {A : Type} (l : list A) (body : A -> M unit) :
  (forall x, appends_only (body x)) ->
  (forall x, In x l -> emits_at ss P (body x)) ->
  emits_at ss P (for_each l body).
Proof.
  intros Ab. induction l as [|x l IH]; intros Hb; cbn [for_each].
  - apply emits_at_ret.
  - apply emits_at_bind; auto with appends.
    + apply Hb. left. reflexivity.
    + intros _. apply IH. intros y Hy. apply Hb. right. exact Hy.
Qed.

End EmitsAt.

(** Proof of [emits_at] along the structure of a computation; what the
    reads gave and the conditions of the branches stay in the context. *)
Ltac emits_at_step :=
  match goal with
  | |- emits_at _ _ (bind (lift _) _) =>
      apply emits_at_bind_lift; [intros ?; solve [repeat appends_step] | intros ? ?]
  | |- emits_at _ _ (bind (gets sector_size) _) =>
      apply emits_at_bind_sector_size; [intros ?; solve [repeat appends_step] | ]
  | |- emits_at _ _ (bind _ _) =>
      apply emits_at_bind;
      [solve [repeat appends_step] | intros ?; solve [repeat appends_step] | | intros ?]
  | |- emits_at _ _ (if ?c then _ else _) => destruct c eqn:?
  | |- emits_at _ _ (match ?p with (_, _) => _ end) => destruct p
  | |- emits_at _ _ (let _ := _ in _) => cbv zeta
  | |- emits_at _ _ (ret _) => apply emits_at_ret
  | |- emits_at _ _ (partitions_append _) => apply emits_at_append
  end.

Lemma getitem_range (s : bytes) (i : nat) (a : Z) :
  getitem s i = Ok a -> 0 <= a <= 255.
Proof.
  unfold getitem. destruct (nth_error s i) as [b|]; [|discriminate].
  intros [= <-]. pose proof (byte_val_range b). lia.
Qed.

Lemma unpack_le_range (w : nat) (b : bytes) (a : Z) :
  unpack_le w b = Ok a -> 0 <= a < 256 ^ Z.of_nat w /\ List.length b = w /\ a = le_value b.
Proof.
  unfold unpack_le. destruct (Nat.eqb_spec (List.length b) w) as [E|]; [|discriminate].
  intros [= <-]. pose proof (le_value_range b) as H. unfold len in H. rewrite E in H.
  repeat split; [lia|lia|exact E].
Qed.

Lemma mbr_slot_fields (sector : bytes) (i ss : Z) :
  0 <= i <= 3 -> emits_at ss (mbr_fields ss) (mbr_slot sector i).
Proof.
  intros Hi. unfold mbr_slot. repeat emits_at_step.
  repeat match goal with
         | H : getitem _ _ = Ok _ |- _ => apply getitem_range in H
         | H : unpack_le _ _ = Ok _ |- _ => apply unpack_le_range in H; destruct H as [H _]
         end.
  unfold mbr_fields.
  cbn [number type_code type start_sector size_sectors size_bytes size_human guid name
       attributes].
  change (256 ^ Z.of_nat 4) with (2 ^ 32) in *.
  repeat split; try lia; assumption.
Qed.

Lemma analyze_mbr_fields (sector : bytes) (f : file) (ss : Z) :
  emits_at ss (mbr_fields ss) (_analyze_mbr sector f).
Proof.
  unfold _analyze_mbr. apply emits_at_for_each.
  - apply appends_only_mbr_slot.
  - intros i Hi. apply mbr_slot_fields. cbn [In] in Hi. lia.
Qed.

Lemma length_hexlify (b : bytes) : String.length (hexlify b) = (2 * List.length b)%nat.
Proof. induction b as [|x b IH]; cbn [hexlify String.length List.length]; lia. Qed.

(** The hexadecimal text of a byte string is made of lower-case
    hexadecimal digits. *)
Lemma hexlify_digits (b : bytes) :
  Forall (fun c => is_hex_digit c = true) (list_ascii_of_string (hexlify b)).
Proof.
  induction b as [|x b IH]; [apply Forall_nil|].
  cbn [hexlify list_ascii_of_string].
  constructor; [destruct x; reflexivity|].
  constructor; [destruct x; reflexivity|exact IH].
Qed.

(** A slice that has all the bytes it asks for lies within the list. *)
Lemma slice_within {A : Type} (s : list A) (a b : Z) :
  0 <= a < b -> List.length (slice s a b) = Z.to_nat (b - a) -> b <= len s.
Proof.
  intros Hab. unfold slice, len. rewrite length_firstn, length_skipn. lia.
Qed.

(** *** The name of a GPT entry *)

Lemma utf16le_units_spec (n : nat) :
  forall b : bytes,
    (List.length b <= n)%nat ->
    (2 * List.length (utf16le_units b) <= List.length b)%nat
    /\ Forall (fun u => 0 <= u < 65536) (utf16le_units b).
Proof.
  induction n as [|n IH]; intros [|lo [|hi rest]] Hn; cbn [utf16le_units List.length] in *;
    try (split; [lia|apply Forall_nil]); [exfalso; lia|].
  destruct (IH rest ltac:(lia)) as [Hlen Hall].
  split; [lia|]. constructor; [|exact Hall].
  pose proof (byte_val_range lo). pose proof (byte_val_range hi). lia.
Qed.

Lemma utf16_points_spec (n : nat) :
  forall us : list Z,
    (List.length us <= n)%nat ->
    Forall (fun u => 0 <= u < 65536) us ->
    (List.length (utf16_points us) <= List.length us)%nat
    /\ Forall code_point (utf16_points us).
Proof.
  induction n as [|n IH]; intros [|u rest] Hn Hall;
    try (split; [cbn; lia|apply Forall_nil]); [cbn in Hn; lia|].
  inversion Hall as [|? ? Hu Hrest]; subst.
  cbn [List.length] in Hn.
  destruct (IH rest ltac:(lia) Hrest) as [Hlen Hpts].
  cbn [utf16_points].
  destruct (is_high_surrogate u) eqn:Ehi.
  - destruct rest as [|v rest']; [split; [cbn; lia|constructor]|].
    destruct (is_low_surrogate v) eqn:Elo.
    + inversion Hrest as [|? ? Hv Hrest']; subst.
      cbn [List.length] in Hn.
      destruct (IH rest' ltac:(lia) Hrest') as [Hlen' Hpts'].
      split; [cbn [List.length]; lia|]. constructor; [|exact Hpts'].
      unfold is_high_surrogate, is_low_surrogate in *. unfold code_point, is_surrogate, join_surrogates.
      apply andb_true_iff in Ehi, Elo. destruct Ehi as [H1 H2], Elo as [H3 H4].
      apply Z.leb_le in H1, H2, H3, H4.
      split; [lia|]. apply andb_false_iff. right. apply Z.leb_gt. lia.
    + split; [cbn [List.length] in *; lia|exact Hpts].
  - destruct (is_low_surrogate u) eqn:Elo.
    + split; [cbn [List.length]; lia|exact Hpts].
    + split; [cbn [List.length]; lia|]. constructor; [|exact Hpts].
      unfold is_high_surrogate, is_low_surrogate in *. unfold code_point, is_surrogate.
      apply andb_false_iff in Ehi, Elo.
      split; [lia|]. apply andb_false_iff.
      destruct (Z.leb_spec 0xD800 u), (Z.leb_spec u 0xDFFF); auto.
      exfalso.
      destruct Ehi as [H1|H1], Elo as [H2|H2];
        try apply Z.leb_gt in H1; try apply Z.leb_gt in H2; lia.
Qed.

(** What [lstrip] leaves is the end of the text, after NUL characters. *)
Lemma lstrip_nul_suffix (s : list Z) :
  exists z : list Z, s = (z ++ lstrip_nul s)%list.
Proof.
  induction s as [|c s [z IH]]; [exists []; reflexivity|].
  cbn [lstrip_nul]. destruct c as [|p|p]; try (exists []; reflexivity).
  exists (0 :: z). cbn [app]. f_equal. exact IH.
Qed.

Lemma hd_lstrip_nul (s : list Z) : hd 1 (lstrip_nul s) <> 0.
Proof.
  induction s as [|c s IH]; [cbn; lia|].
  cbn [lstrip_nul]. destruct c as [|p|p]; [exact IH|cbn; lia|cbn; lia].
Qed.

Lemma last_rev {A : Type} (l : list A) (d : A) : last (rev l) d = hd d l.
Proof.
  destruct l as [|x l]; [reflexivity|]. cbn [rev hd]. apply last_last.
Qed.

(** [strip] keeps a part of the text that has no NUL at either end. *)
Lemma strip_nul_spec (s : list Z) :
  (exists z1 z2 : list Z, s = (z1 ++ strip_nul s ++ z2)%list)
  /\ hd 1 (strip_nul s) <> 0
  /\ last (strip_nul s) 1 <> 0.
Proof.
  unfold strip_nul.
  destruct (lstrip_nul_suffix s) as [z1 H1].
  destruct (lstrip_nul_suffix (rev (lstrip_nul s))) as [z2 H2].
  assert (H3 : lstrip_nul s = (rev (lstrip_nul (rev (lstrip_nul s))) ++ rev z2)%list).
  { rewrite <- rev_app_distr, <- H2, rev_involutive. reflexivity. }
  split; [|split].
  - exists z1, (rev z2). rewrite <- H3. exact H1.
  - pose proof (hd_lstrip_nul s) as Hhd. rewrite H3 in Hhd.
    destruct (rev (lstrip_nul (rev (lstrip_nul s)))); [cbn; lia|exact Hhd].
  - rewrite last_rev. apply hd_lstrip_nul.
Qed.

Lemma name_spec (b : bytes) :
  (2 * List.length (strip_nul (decode_utf16le_ignore b)) <= List.length b)%nat
  /\ hd 1 (strip_nul (decode_utf16le_ignore b)) <> 0
  /\ last (strip_nul (decode_utf16le_ignore b)) 1 <> 0
  /\ Forall code_point (strip_nul (decode_utf16le_ignore b)).
Proof.
  unfold decode_utf16le_ignore.
  destruct (utf16le_units_spec (List.length b) b (le_n _)) as [Hlen Hunits].
  destruct (utf16_points_spec _ (utf16le_units b) (le_n _) Hunits) as [Hlen' Hpts].
  destruct (strip_nul_spec (utf16_points (utf16le_units b))) as [(z1 & z2 & Hs) [Hhd Hlast]].
  split; [|split; [exact Hhd|split; [exact Hlast|]]].
  - apply (f_equal (@List.length Z)) in Hs. rewrite !length_app in Hs. lia.
  - rewrite Hs in Hpts. apply Forall_app in Hpts. destruct Hpts as [_ Hpts].
    apply Forall_app in Hpts. tauto.
Qed.

Lemma gpt_entry_fields (entry_data : bytes) (partition_num ss : Z) :
  emits_at ss (gpt_fields ss) (gpt_entry entry_data partition_num).
Proof.
  unfold gpt_entry. repeat emits_at_step.
  repeat match goal with
         | H : unpack_le _ _ = Ok _ |- _ =>
             apply unpack_le_range in H; destruct H as (? & ? & _)
         end.
  change (256 ^ Z.of_nat 8) with (2 ^ 64) in *.
  match goal with H : (_ =? 0) = false |- _ => apply Z.eqb_neq in H end.
  assert (Hlen : 56 <= len entry_data).
  { apply (slice_within entry_data 48 56); [lia|assumption]. }
  destruct (name_spec (slice entry_data 56 128)) as (Hn & Hhd & Hlast & Hpts).
  unfold gpt_fields.
  cbn [type_code is_active start_sector end_sector attributes size_bytes size_sectors
       size_human guid name].
  repeat split; try lia; try assumption.
  - rewrite length_hexlify.
    assert (H16 : len (slice entry_data 16 32) = 32 - 16) by (apply length_slice; lia).
    unfold len in H16. lia.
  - apply hexlify_digits.
  - assert (H72 : (List.length (slice entry_data 56 128) <= 72)%nat).
    { unfold slice. rewrite length_firstn. lia. }
    lia.
Qed.

Lemma gpt_entries_fields (ss : Z) (n : nat) :
  forall (f : file) (partition_entry_size partition_num : Z),
    emits_at ss (gpt_fields ss) (gpt_entries n f partition_entry_size partition_num).
Proof.
  induction n as [|n IH]; intros f esz num; cbn [gpt_entries].
  - apply emits_at_ret.
  - pose proof appends_only_gpt_entries as Hag.
    repeat first [ emits_at_step
                 | match goal with
                   | |- emits_at _ _ (gpt_entry _ _) => apply gpt_entry_fields
                   | |- emits_at _ _ (gpt_entries _ _ _ _) => apply IH
                   end ].
Qed.

Lemma analyze_gpt_fields (sector : bytes) (f : file) (ss : Z) :
  emits_at ss (gpt_fields ss) (_analyze_gpt sector f).
Proof.
  unfold _analyze_gpt.
  pose proof appends_only_gpt_entries as Hag.
  repeat first [ emits_at_step
               | match goal with
                 | |- emits_at _ _ (gpt_entries _ _ _ _) => apply gpt_entries_fields
                 end ].
Qed.

(** The partitions of a fresh analyzer after [analyze], with the table
    type: none, or what the decoder of the type emitted on the first
    sector that was read. *)
Lemma analyze_partitions_typed (image : option bytes) (path : string) (ss : Z) :
  partitions (snd (analyze image (__init__ path ss))) = []
  \/ (partition_type (snd (analyze image (__init__ path ss))) = MBR
      /\ exists content sector0 f,
          image = Some content
          /\ read (open content) ss = Ok (sector0, f)
          /\ partitions (snd (analyze image (__init__ path ss)))
             = emitted (_analyze_mbr sector0 f) ss)
  \/ (partition_type (snd (analyze image (__init__ path ss))) = GPT
      /\ exists content sector0 f,
          image = Some content
          /\ read (open content) ss = Ok (sector0, f)
          /\ partitions (snd (analyze image (__init__ path ss)))
             = emitted (_analyze_gpt sector0 f) ss).
Proof.
  destruct image as [content|]; [|left; reflexivity].
  unfold analyze. rewrite analyze_body_run. cbn [__init__ sector_size].
  destruct (read (open content) ss) as [[sector0 f]|e] eqn:Eread; [|left; reflexivity].
  destruct (len sector0 <? ss); [left; reflexivity|].
  destruct (detect_run sector0) as (r & t & signature & Hdet & _).
  rewrite Hdet.
  destruct r as [[]|e]; [|left; reflexivity].
  destruct t as [[]|]; cbn [detected partition_type with_disk_size];
    unfold decoded; cbn [sector_size detected with_disk_size __init__].
  - right. left.
    destruct (outcome (_analyze_mbr sector0 f) ss) as [[]|e];
      (split; [reflexivity|exists content, sector0, f; repeat split; exact Eread]).
  - right. right.
    destruct (outcome (_analyze_gpt sector0 f) ss) as [[]|e];
      (split; [reflexivity|exists content, sector0, f; repeat split; exact Eread]).
  - left. reflexivity.
  - left. reflexivity.
Qed.

(** X8. The entries of an MBR disk, field by field. After [analyze] on a
    fresh analyzer has found an MBR table, every partition has a number
    from 1 to 4, a type code of one byte with the description of that code,
    a first sector and a sector count of 32 bits, the size in bytes
    [size_sectors * sector_size] with its text, and no GUID, name or
    attributes. *)
Theorem mbr_entry_fields (image : option bytes) (path : string) (ss : Z) (e : PartitionEntry) :
  partition_type (snd (analyze image (__init__ path ss))) = MBR ->
  In e (partitions (snd (analyze image (__init__ path ss)))) ->
  mbr_fields ss e.
Proof.
  intros Hpt Hin.
  destruct (analyze_partitions_typed image path ss)
    as [E|[[_ (content & sector0 & f & _ & _ & E)]|[Hpt' _]]].
  - rewrite E in Hin. destruct Hin.
  - rewrite E in Hin. exact (analyze_mbr_fields sector0 f ss e Hin).
  - congruence.
Qed.

Lemma mbr_entry_fields_witness : mbr_fields 512 zero_count_entry.
Proof.
  apply (mbr_entry_fields (Some zero_count_sector) "disk.img" 512 zero_count_entry).
  - vm_compute. reflexivity.
  - vm_compute. left. reflexivity.
Defined.

(** X9. The entries of a GPT disk, field by field. After [analyze] on a
    fresh analyzer has found a GPT, every partition has the type code 0
    and is not active, a first sector from 1 on and a last sector and
    attributes of 64 bits, the size in bytes [size_sectors * sector_size]
    with its text, a GUID of 32 hexadecimal digits, and a name of at most
    36 characters that neither starts nor ends with NUL and has no
    surrogate in it. *)
Theorem gpt_entry_fields_of_disk
        (image : option bytes) (path : string) (ss : Z) (e : PartitionEntry) :
  partition_type (snd (analyze image (__init__ path ss))) = GPT ->
  In e (partitions (snd (analyze image (__init__ path ss)))) ->
  gpt_fields ss e.
Proof.
  intros Hpt Hin.
  destruct (analyze_partitions_typed image path ss)
    as [E|[[Hpt' _]|[_ (content & sector0 & f & _ & _ & E)]]].
  - rewrite E in Hin. destruct Hin.
  - congruence.
  - rewrite E in Hin. exact (analyze_gpt_fields sector0 f ss e Hin).
Qed.

Lemma gpt_entry_fields_of_disk_witness : gpt_fields 512 backwards_entry.
Proof.
  apply (gpt_entry_fields_of_disk (Some two_entry_image) "disk.img" 512 backwards_entry).
  - vm_compute. reflexivity.
  - vm_compute. right. left. reflexivity.
Defined.

(** ** The numbers of the entries *)

(** What a computation writes is its entries after those of [self]. *)
Lemma snd_appends_only {A : Type} (m : M A) (self : DiskAnalyzer) :
  appends_only m -> snd (m self) = extend self (emitted m (sector_size self)).
Proof. intros Hm. rewrite (Hm self). reflexivity. Qed.

Lemma emitted_bind_lift {A B : Type} (r : result A) (k : A -> M B) (ss : Z) :
  emitted (bind (lift r) k) ss
  = match r with
    | Ok a => emitted (k a) ss
    | Raise _ => []
    end.
Proof. unfold emitted, bind, lift. destruct r; reflexivity. Qed.

Lemma emitted_bind_sector_size {B : Type} (k : Z -> M B) (ss : Z) :
  emitted (bind (gets sector_size) k) ss = emitted (k ss) ss.
Proof. reflexivity. Qed.

(** One turn of the MBR loop emits nothing, or one entry with the number
    of the slot. *)
Lemma mbr_slot_emitted (sector : bytes) (i ss : Z) :
  emitted (mbr_slot sector i) ss = []
  \/ exists e, emitted (mbr_slot sector i) ss = [e] /\ number e = i + 1.
Proof.
  unfold mbr_slot.
  destruct (len _ <? 16); [left; reflexivity|].
  repeat (rewrite emitted_bind_lift;
          match goal with
          | |- context [match ?r with Ok _ => _ | Raise _ => _ end] => destruct r
          end; [|left; reflexivity]).
  match goal with |- context [if ?c then _ else _] => destruct c end; [left; reflexivity|].
  rewrite emitted_bind_sector_size, emitted_bind_lift.
  destruct (_bytes_to_human _); [|left; reflexivity].
  right. eexists. split; reflexivity.
Qed.

Lemma mbr_slots_numbers (sector : bytes) (ss : Z) (l : list Z) :
  StronglySorted Z.lt l ->
  StronglySorted Z.lt (map number (emitted (for_each l (mbr_slot sector)) ss))
  /\ Forall (fun k => In (k - 1) l) (map number (emitted (for_each l (mbr_slot sector)) ss))
  /\ (List.length (emitted (for_each l (mbr_slot sector)) ss) <= List.length l)%nat.
Proof.
  induction l as [|i l IH]; intros Hsorted; cbn [for_each].
  - repeat split; [apply SSorted_nil|apply Forall_nil|cbn; lia].
  - inversion Hsorted as [|? ? Hl Hi]; subst.
    destruct (IH Hl) as (IH1 & IH2 & IH3).
    rewrite emitted_bind by auto with appends.
    set (tail := match outcome (mbr_slot sector i) ss with
                 | Ok _ => emitted (for_each l (mbr_slot sector)) ss
                 | Raise _ => []
                 end).
    assert (Htail : StronglySorted Z.lt (map number tail)
                    /\ Forall (fun k => In (k - 1) l) (map number tail)
                    /\ (List.length tail <= List.length l)%nat).
    { unfold tail. destruct (outcome (mbr_slot sector i) ss).
      - auto.
      - repeat split; [apply SSorted_nil|apply Forall_nil|cbn; lia]. }
    destruct Htail as (T1 & T2 & T3).
    assert (T2' : Forall (fun k => In (k - 1) (i :: l)) (map number tail)).
    { eapply Forall_impl; [|exact T2]. intros k Hk. right. exact Hk. }
    destruct (mbr_slot_emitted sector i ss) as [-> | (e & -> & He)]; cbn [app map List.length].
    + repeat split; [exact T1|exact T2'|lia].
    + repeat split; [|constructor; [left; lia|exact T2']|lia].
      apply SSorted_cons; [exact T1|].
      rewrite Forall_forall in *. intros k Hk.
      specialize (T2 k Hk). specialize (Hi (k - 1) T2). lia.
Qed.

(** X10. The numbers of the entries that one run of the MBR decoder
    appends, whatever the sector is: they go up strictly and lie between 1
    and 4, so that no number is given twice and at most four entries are
    appended. *)
Theorem mbr_numbers_increasing (sector : bytes) (f : file) (self : DiskAnalyzer) :
  exists l : list PartitionEntry,
    snd (_analyze_mbr sector f self) = extend self l
    /\ StronglySorted Z.lt (map number l)
    /\ Forall (fun k => 1 <= k <= 4) (map number l)
    /\ (List.length l <= 4)%nat.
Proof.
  exists (emitted (_analyze_mbr sector f) (sector_size self)).
  split; [apply snd_appends_only, appends_only_analyze_mbr|].
  unfold _analyze_mbr.
  destruct (mbr_slots_numbers sector (sector_size self) [0; 1; 2; 3]) as (H1 & H2 & H3).
  { repeat (apply SSorted_cons; [|repeat constructor; lia]). apply SSorted_nil. }
  repeat split; [exact H1| |exact H3].
  eapply Forall_impl; [|exact H2]. cbn [In]. intros k Hk. lia.
Qed.

(** One turn of the GPT loop emits nothing and keeps the number, or emits
    one entry with the number and goes on to the next number. *)
Lemma gpt_entry_emitted (entry_data : bytes) (partition_num ss : Z) :
  (emitted (gpt_entry entry_data partition_num) ss = []
   /\ (outcome (gpt_entry entry_data partition_num) ss = Ok partition_num
       \/ exists err, outcome (gpt_entry entry_data partition_num) ss = Raise err))
  \/ exists e,
      emitted (gpt_entry entry_data partition_num) ss = [e]
      /\ number e = partition_num
      /\ outcome (gpt_entry entry_data partition_num) ss = Ok (partition_num + 1).
Proof.
  unfold gpt_entry, outcome, emitted, bind, lift, gets, ret, partitions_append.
  destruct (all_zero _); [left; split; [reflexivity|left; reflexivity]|].
  repeat match goal with
         | |- context [match ?r with Ok _ => _ | Raise _ => _ end] =>
             destruct r; [|left; split; [reflexivity|right; eexists; reflexivity]]
         end.
  match goal with |- context [if ?c then _ else _] => destruct c end;
    [left; split; [reflexivity|left; reflexivity]|].
  cbn [blank __init__ sector_size].
  destruct (_bytes_to_human _); [|left; split; [reflexivity|right; eexists; reflexivity]].
  right. eexists. repeat split.
Qed.

Lemma zseq_length (start : Z) (k : nat) : List.length (zseq start k) = k.
Proof. revert start. induction k as [|k IH]; intros start; cbn; [|rewrite IH]; reflexivity. Qed.

Lemma gpt_entries_numbers (ss : Z) (n : nat) :
  forall (f : file) (esz num : Z),
    map number (emitted (gpt_entries n f esz num) ss)
    = zseq num (List.length (emitted (gpt_entries n f esz num) ss))
    /\ (List.length (emitted (gpt_entries n f esz num) ss) <= n)%nat.
Proof.
  induction n as [|n IH]; intros f esz num; cbn [gpt_entries].
  - split; [reflexivity|cbn; lia].
  - rewrite emitted_bind_lift.
    destruct (read f esz) as [[entry_data f']|]; [|split; [reflexivity|cbn; lia]].
    destruct (len entry_data <? 128); [split; [reflexivity|cbn; lia]|].
    rewrite emitted_bind by (auto using appends_only_gpt_entries with appends).
    destruct (gpt_entry_emitted entry_data num ss) as [[-> [-> | [err ->]]] | (e & -> & He & ->)];
      cbn [app map List.length zseq].
    + destruct (IH f' esz num) as [IH1 IH2]. split; [exact IH1|lia].
    + split; [reflexivity|lia].
    + destruct (IH f' esz (num + 1)) as [IH1 IH2]. split; [|lia].
      rewrite He, IH1. reflexivity.
Qed.

(** What holds of the entries of every run of the loop of the GPT decoder
    holds of the entries of the decoder. *)
Lemma analyze_gpt_emitted (Q : list PartitionEntry -> Prop) (sector : bytes) (f : file) (ss : Z) :
  Q [] ->
  (forall (n : nat) (f' : file) (esz : Z),
      Z.of_nat n < 2 ^ 32 -> Q (emitted (gpt_entries n f' esz 1) ss)) ->
  Q (emitted (_analyze_gpt sector f) ss).
Proof.
  intros Hnil Hloop. unfold _analyze_gpt.
  rewrite emitted_bind_sector_size.
  repeat first
         [ rewrite emitted_bind_lift
         | match goal with
           | |- Q (match ?r with Ok _ => _ | Raise _ => _ end) =>
               destruct r eqn:?; [|exact Hnil]
           | |- Q (emitted (let (_, _) := ?p in _) _) => destruct p
           | |- Q (emitted (if ?c then _ else _) _) => destruct c; [exact Hnil|]
           end ].
  apply Hloop.
  match goal with
  | H : unpack_le 4 (slice _ 80 84) = Ok _ |- _ =>
      apply unpack_le_range in H; destruct H as [H _]
  end.
  change (256 ^ Z.of_nat 4) with (2 ^ 32) in *. lia.
Qed.

(** X11. The numbers of the entries that one run of the GPT decoder
    appends, whatever the image is: they are 1, 2, 3, ... without a gap
    (a record that is skipped takes no number), and there are fewer than
    [2^32] of them. *)
Theorem gpt_numbers_sequential (sector : bytes) (f : file) (self : DiskAnalyzer) :
  exists l : list PartitionEntry,
    snd (_analyze_gpt sector f self) = extend self l
    /\ map number l = zseq 1 (List.length l)
    /\ Z.of_nat (List.length l) < 2 ^ 32.
Proof.
  exists (emitted (_analyze_gpt sector f) (sector_size self)).
  split; [apply snd_appends_only, appends_only_analyze_gpt|].
  apply (analyze_gpt_emitted
           (fun l => map number l = zseq 1 (List.length l) /\ Z.of_nat (List.length l) < 2 ^ 32)).
  - split; [reflexivity|cbn; lia].
  - intros n f' esz Hn.
    destruct (gpt_entries_numbers (sector_size self) n f' esz 1) as [H1 H2].
    split; [exact H1|lia].
Qed.

(** ** Encoding a partition table and decoding it *)

Lemma byte_val_of_Z (z : Z) : byte_val (byte_of_Z z) = z mod 256.
Proof.
  unfold byte_of_Z, byte_val.
  pose proof (Z.mod_pos_bound z 256 ltac:(lia)) as Hm.
  destruct (Byte.of_N (Z.to_N (z mod 256))) as [b|] eqn:E.
  - apply Byte.to_of_N in E. rewrite E. lia.
  - apply Byte.of_N_None_iff in E. lia.
Qed.

(** Unpacking what was packed. *)
Lemma le_value_le_bytes (w : nat) :
  forall v : Z, 0 <= v < 256 ^ Z.of_nat w -> le_value (le_bytes w v) = v.
Proof.
  induction w as [|w IH]; intros v Hv; cbn [le_bytes le_value].
  - cbn in Hv. lia.
  - rewrite Nat2Z.inj_succ, Z.pow_succ_r in Hv by lia.
    rewrite byte_val_of_Z, IH.
    + pose proof (Z.div_mod v 256 ltac:(lia)). lia.
    + split; [apply Z.div_pos; lia|apply Z.div_lt_upper_bound; lia].
Qed.

Lemma length_le_bytes (w : nat) (v : Z) : List.length (le_bytes w v) = w.
Proof. revert v. induction w as [|w IH]; intros v; cbn [le_bytes List.length]; [|rewrite IH]; reflexivity. Qed.

Lemma length_encode_slot (s : Slot) : valid_slot s -> len (encode_slot s) = 16.
Proof.
  intros (H1 & H2 & _). unfold encode_slot, mbr_entry_chs, len in *.
  rewrite !length_app, !length_le_bytes. cbn [List.length]. lia.
Qed.

(** The fields of the slot [i] of a sector that has the bytes of [s] at
    the offset of the slot. *)
Lemma encoded_slot_fields (pre post : bytes) (s : Slot) (i : Z) :
  valid_slot s ->
  len pre = slot_offset i ->
  slot_status (pre ++ encode_slot s ++ post)%list i = byte_val (status_byte s)
  /\ slot_type_code (pre ++ encode_slot s ++ post)%list i = byte_val (type_byte s)
  /\ slot_lba_start (pre ++ encode_slot s ++ post)%list i = lba s
  /\ slot_num_sectors (pre ++ encode_slot s ++ post)%list i = count s.
Proof.
  intros (H1 & H2 & Hlba & Hcount) Hpre.
  destruct s as [st c ty d first cnt]. cbn [chs_first chs_last lba count status_byte type_byte] in *.
  destruct c as [|c1 [|c2 [|c3 [|]]]]; try (exfalso; cbn in H1; lia).
  destruct d as [|d1 [|d2 [|d3 [|]]]]; try (exfalso; cbn in H2; lia).
  unfold slot_status, slot_type_code, slot_lba_start, slot_num_sectors.
  rewrite <- Hpre.
  rewrite <- (Z.add_0_r (len pre)) at 1.
  rewrite !byte_at_app, !slice_app_skip by lia.
  repeat split.
  - change (slice _ 8 12) with (le_bytes 4 first).
    apply le_value_le_bytes. exact Hlba.
  - change (slice _ 12 16) with (le_bytes 4 cnt).
    apply le_value_le_bytes. exact Hcount.
Qed.

Lemma decoded_encoded_slot (pre post : bytes) (s : Slot) (i ss : Z) :
  valid_slot s ->
  len pre = slot_offset i ->
  slot_empty (pre ++ encode_slot s ++ post)%list i = empty_slot s
  /\ decoded_slot (pre ++ encode_slot s ++ post)%list ss i = entry_of_slot ss i s.
Proof.
  intros Hs Hpre.
  destruct (encoded_slot_fields pre post s i Hs Hpre) as (E1 & E2 & E3 & E4).
  unfold slot_empty, decoded_slot, slot_entry, empty_slot, entry_of_slot.
  rewrite E1, E2, E3, E4. split; reflexivity.
Qed.

(** X12. Encoding and decoding an MBR partition table. Whatever the boot
    code, the two last bytes of the sector and the CHS fields are, the
    decoder makes of the sector that holds four slots the entries of the
    slots that are not empty, in the order of the table: each with the
    number of its position, the type code, the first sector and the sector
    count that were encoded, and the active flag of a status byte 0x80. *)
Theorem mbr_round_trip (boot sig : bytes) (s0 s1 s2 s3 : Slot) (f : file) (self : DiskAnalyzer) :
  len boot = 446 ->
  valid_slot s0 -> valid_slot s1 -> valid_slot s2 -> valid_slot s3 ->
  Z.abs (sector_size self) < 2 ^ 64 ->
  _analyze_mbr (mbr_sector boot (encode_slot s0) (encode_slot s1) (encode_slot s2)
                           (encode_slot s3) sig) f self
  = (Ok tt, extend self (entries_of_table (sector_size self) [s0; s1; s2; s3])).
Proof.
  intros Hboot V0 V1 V2 V3 Hss.
  pose proof (length_encode_slot s0 V0) as L0.
  pose proof (length_encode_slot s1 V1) as L1.
  pose proof (length_encode_slot s2 V2) as L2.
  pose proof (length_encode_slot s3 V3) as L3.
  set (e0 := encode_slot s0) in *. set (e1 := encode_slot s1) in *.
  set (e2 := encode_slot s2) in *. set (e3 := encode_slot s3) in *.
  set (sector := mbr_sector boot e0 e1 e2 e3 sig).
  assert (Hlen : 510 <= len sector).
  { unfold sector, mbr_sector, len in *. rewrite !length_app. lia. }
  rewrite analyze_mbr_run by assumption. f_equal. f_equal.
  set (ss := sector_size self).
  assert (S0 : sector = (boot ++ e0 ++ (e1 ++ e2 ++ e3 ++ sig))%list) by reflexivity.
  assert (S1 : sector = ((boot ++ e0) ++ e1 ++ (e2 ++ e3 ++ sig))%list).
  { unfold sector, mbr_sector. rewrite <- !app_assoc. reflexivity. }
  assert (S2 : sector = ((boot ++ e0 ++ e1) ++ e2 ++ (e3 ++ sig))%list).
  { unfold sector, mbr_sector. rewrite <- !app_assoc. reflexivity. }
  assert (S3 : sector = ((boot ++ e0 ++ e1 ++ e2) ++ e3 ++ sig)%list).
  { unfold sector, mbr_sector. rewrite <- !app_assoc. reflexivity. }
  destruct (decoded_encoded_slot boot (e1 ++ e2 ++ e3 ++ sig)%list s0 0 ss V0) as [A0 B0].
  { unfold slot_offset. lia. }
  destruct (decoded_encoded_slot (boot ++ e0)%list (e2 ++ e3 ++ sig)%list s1 1 ss V1) as [A1 B1].
  { unfold slot_offset, len in *. rewrite !length_app. lia. }
  destruct (decoded_encoded_slot (boot ++ e0 ++ e1)%list (e3 ++ sig)%list s2 2 ss V2) as [A2 B2].
  { unfold slot_offset, len in *. rewrite !length_app. lia. }
  destruct (decoded_encoded_slot (boot ++ e0 ++ e1 ++ e2)%list sig s3 3 ss V3) as [A3 B3].
  { unfold slot_offset, len in *. rewrite !length_app. lia. }
  fold e0 e1 e2 e3 in A0, B0, A1, B1, A2, B2, A3, B3.
  rewrite <- S0 in A0, B0. rewrite <- S1 in A1, B1.
  rewrite <- S2 in A2, B2. rewrite <- S3 in A3, B3.
  unfold used_slots, entries_of_table.
  cbn [List.length zseq combine filter Z.add Pos.add Pos.succ fst snd].
  rewrite A0, A1, A2, A3.
  destruct (empty_slot s0), (empty_slot s1), (empty_slot s2), (empty_slot s3);
    cbn [negb map fst snd]; rewrite ?B0, ?B1, ?B2, ?B3; reflexivity.
Qed.

Lemma mbr_round_trip_witness :
  _analyze_mbr (mbr_sector (zeros 446) (encode_slot no_slot) (encode_slot linux_slot)
                           (encode_slot no_slot) (encode_slot swap_slot) boot_sig)
               (open []) (__init__ "disk.img" 4096)
  = (Ok tt,
     extend (__init__ "disk.img" 4096)
            [entry_of_slot 4096 1 linux_slot; entry_of_slot 4096 3 swap_slot]).
Proof.
  apply (mbr_round_trip (zeros 446) boot_sig no_slot linux_slot no_slot swap_slot
                        (open []) (__init__ "disk.img" 4096)).
  - reflexivity.
  - unfold valid_slot. cbn. lia.
  - unfold valid_slot. cbn. lia.
  - unfold valid_slot. cbn. lia.
  - unfold valid_slot. cbn. lia.
  - cbn. lia.
Defined.

(** ** The text of a size: whole numbers and overflow *)

Lemma str_int_sign (n : Z) :
  (if n <? 0 then "-" else "") ++ str_int (Z.abs n) = str_int n.
Proof. destruct n; reflexivity. Qed.

Lemma round_half_even_1 (a : Z) : round_half_even a 1 = a.
Proof.
  unfold round_half_even. rewrite Z.div_1_r, Z.mod_1_r. reflexivity.
Qed.

(** A whole number with two decimals. *)
Lemma format_2f_int (n : Z) : format_2f {| mant := n; shift := 0 |} = str_int n ++ ".00".
Proof.
  unfold format_2f. cbn [mant shift]. change (2 ^ 0) with 1.
  rewrite round_half_even_1, Z.mul_comm, Z.div_mul, Z.mod_mul by lia.
  change (two_digits 0) with "00".
  rewrite <- (str_int_sign n).
  destruct (n <? 0); cbn [append]; reflexivity.
Qed.

Lemma append_assoc (a b c : string) : (a ++ b) ++ c = a ++ b ++ c.
Proof. induction a as [|x a IH]; cbn [append]; [|rewrite IH]; reflexivity. Qed.

(** X13. A size below 1024 is printed in bytes, as the whole number with
    ".00 B" after it. This holds of the negative sizes too, whatever
    their magnitude is (within the 53 bits that a float holds exactly):
    they are never scaled to KB, MB, ... *)
Theorem bytes_to_human_below_1024 (n : Z) :
  n < 1024 ->
  - 2 ^ 53 < n ->
  _bytes_to_human n = Ok (str_int n ++ ".00 B").
Proof.
  intros Hhi Hlo. unfold _bytes_to_human, units.
  rewrite bytes_to_human_loop_cons. cbn [lt_1024].
  destruct (Z.ltb_spec n 1024); [|lia].
  cbn [format_num_2f]. rewrite float_of_int_exact by lia. cbn [rbind].
  rewrite format_2f_int, append_assoc. reflexivity.
Qed.

Lemma bytes_to_human_below_1024_witness :
  _bytes_to_human (-1048064) = Ok "-1048064.00 B".
Proof.
  apply (bytes_to_human_below_1024 (-1048064)).
  - reflexivity.
  - reflexivity.
Defined.

(** The conversion of an integer to a float overflows from
    [2^1024 - 2^970] on: the integers from there to [2^1024] round up to
    [2^1024]. *)
Lemma float_of_int_overflow (n : Z) :
  2 ^ 1024 - 2 ^ 970 <= Z.abs n -> float_of_int n = Raise OverflowError.
Proof.
  intros Hn. unfold float_of_int.
  set (a := Z.abs n) in *.
  assert (H1023 : 2 ^ 1023 <= a).
  { eapply Z.le_trans; [|exact Hn]. vm_compute. discriminate. }
  assert (Hlog : 1023 <= Z.log2 a) by (apply Z.log2_le_pow2; lia).
  destruct (Z.leb_spec (Z.log2 a + 1) 53); [lia|].
  set (sh := Z.log2 a + 1 - 53).
  assert (Hsh : 0 < 2 ^ sh) by (apply Z.pow_pos_nonneg; unfold sh; lia).
  destruct (Z.leb_spec (2 ^ 1024) (round_half_even a (2 ^ sh) * 2 ^ sh)) as [|Hsmall];
    [reflexivity|exfalso].
  destruct (Z.log2_spec a ltac:(lia)) as [Hlo Hhi].
  destruct (Z.eq_dec (Z.log2 a) 1023) as [E|E].
  - assert (Es : sh = 971) by (unfold sh; lia).
    rewrite E in Hlo, Hhi. rewrite Es in *. clear E Es Hlog.
    change (Z.succ 1023) with 1024 in Hhi.
    assert (Hq : a / 2 ^ 971 = 2 ^ 53 - 1).
    { apply Z.le_antisymm.
      - apply Z.lt_succ_r. apply Z.div_lt_upper_bound; [lia|].
        eapply Z.lt_le_trans; [exact Hhi|]. vm_compute. discriminate.
      - apply Z.div_le_lower_bound; [lia|].
        eapply Z.le_trans; [|exact Hn]. vm_compute. discriminate. }
    assert (Hr : 2 ^ 970 <= a mod 2 ^ 971).
    { rewrite Z.mod_eq by lia. rewrite Hq.
      replace (2 ^ 971 * (2 ^ 53 - 1)) with (2 ^ 1024 - 2 * 2 ^ 970) by reflexivity. lia. }
    assert (Hrhe : round_half_even a (2 ^ 971) = 2 ^ 53).
    { unfold round_half_even. rewrite Hq.
      destruct (Z.ltb_spec (2 * (a mod 2 ^ 971)) (2 ^ 971)) as [Hlt|_].
      - exfalso. assert (Hb : 2 ^ 971 = 2 * 2 ^ 970) by reflexivity.
        rewrite Hb in Hlt at 2. lia.
      - destruct (2 ^ 971 <? 2 * (a mod 2 ^ 971)); reflexivity. }
    rewrite Hrhe in Hsmall. vm_compute in Hsmall. discriminate.
  - assert (Hq : 2 ^ 52 <= a / 2 ^ sh).
    { apply Z.div_le_lower_bound; [lia|].
      rewrite Z.mul_comm, <- Z.pow_add_r by (unfold sh; lia).
      replace (52 + sh) with (Z.log2 a) by (unfold sh; lia). exact Hlo. }
    pose proof (round_half_even_lower a (2 ^ sh) Hsh) as Hr.
    assert (H2 : 2 ^ 52 * 2 ^ sh <= round_half_even a (2 ^ sh) * 2 ^ sh).
    { apply Z.mul_le_mono_nonneg_r; lia. }
    rewrite <- Z.pow_add_r in H2 by (unfold sh; lia).
    assert (H3 : 2 ^ 1024 <= 2 ^ (52 + sh)).
    { apply Z.pow_le_mono_r; unfold sh; lia. }
    lia.
Qed.

Lemma float_of_int_below (n : Z) :
  Z.abs n < 2 ^ 1024 - 2 ^ 970 -> exists m, float_of_int n = Ok m.
Proof.
  intros Hn.
  destruct (Z.lt_ge_cases (Z.abs n) (2 ^ 1023)) as [Hs|Hl];
    [apply float_of_int_total; exact Hs|].
  unfold float_of_int.
  set (a := Z.abs n) in *.
  assert (Ea : Z.log2 a = 1023).
  { apply Z.log2_unique; [lia|]. split; [exact Hl|].
    eapply Z.lt_trans; [exact Hn|]. vm_compute. reflexivity. }
  rewrite Ea. change (1023 + 1 <=? 53) with false. cbv iota.
  change (1023 + 1 - 53) with 971.
  destruct (Z.leb_spec (2 ^ 1024) (round_half_even a (2 ^ 971) * 2 ^ 971)) as [Hbig|];
    [exfalso|eexists; reflexivity].
  assert (Hq : a / 2 ^ 971 <= 2 ^ 53 - 1).
  { apply Z.lt_succ_r. apply Z.div_lt_upper_bound; [lia|].
    eapply Z.lt_trans; [exact Hn|]. vm_compute. reflexivity. }
  assert (Hrhe : round_half_even a (2 ^ 971) <= 2 ^ 53 - 1).
  { destruct (Z.eq_dec (a / 2 ^ 971) (2 ^ 53 - 1)) as [E|E].
    - unfold round_half_even. rewrite E.
      destruct (Z.ltb_spec (2 * (a mod 2 ^ 971)) (2 ^ 971)) as [_|Hge]; [lia|exfalso].
      rewrite Z.mod_eq in Hge by lia. rewrite E in Hge.
      replace (2 ^ 971 * (2 ^ 53 - 1)) with (2 ^ 1024 - 2 * 2 ^ 970) in Hge by reflexivity.
      assert (Hb : 2 ^ 971 = 2 * 2 ^ 970) by reflexivity.
      rewrite Hb in Hge. lia.
    - pose proof (round_half_even_upper a (2 ^ 971)). lia. }
  assert (H : round_half_even a (2 ^ 971) * 2 ^ 971 <= (2 ^ 53 - 1) * 2 ^ 971).
  { apply Z.mul_le_mono_nonneg_r; lia. }
  assert (H' : (2 ^ 53 - 1) * 2 ^ 971 < 2 ^ 1024) by reflexivity.
  lia.
Qed.

(** X14. The size formatter raises [OverflowError] exactly on the sizes
    whose magnitude is [2^1024 - 2^970] or more, those that do not fit a
    float; on every other integer it gives a text. *)
Theorem bytes_to_human_overflow (n : Z) :
  (Z.abs n < 2 ^ 1024 - 2 ^ 970 -> exists h, _bytes_to_human n = Ok h)
  /\ (2 ^ 1024 - 2 ^ 970 <= Z.abs n -> _bytes_to_human n = Raise OverflowError).
Proof.
  split; intros Hn.
  - destruct (float_of_int_below n Hn) as [m Hm].
    unfold _bytes_to_human, units. rewrite bytes_to_human_loop_cons.
    destruct (lt_1024 (Int n)); cbn [format_num_2f div_1024]; rewrite Hm; cbn [rbind].
    + eauto.
    + apply bytes_to_human_loop_float_total.
  - pose proof (float_of_int_overflow n Hn) as Hm.
    unfold _bytes_to_human, units. rewrite bytes_to_human_loop_cons.
    destruct (lt_1024 (Int n)); cbn [format_num_2f div_1024]; rewrite Hm; reflexivity.
Qed.

Lemma bytes_to_human_overflow_witness :
  (exists h, _bytes_to_human (2 ^ 1024 - 2 ^ 970 - 1) = Ok h)
  /\ _bytes_to_human (- (2 ^ 1024 - 2 ^ 970)) = Raise OverflowError.
Proof.
  split.
  - apply (proj1 (bytes_to_human_overflow (2 ^ 1024 - 2 ^ 970 - 1))).
    vm_compute. reflexivity.
  - apply (proj2 (bytes_to_human_overflow (- (2 ^ 1024 - 2 ^ 970)))).
    vm_compute. discriminate.
Defined.

(** ** Whole GPT disks *)

(** The GPT decoder up to its loop. *)
Lemma analyze_gpt_run (sector : bytes) (f : file) (self : DiskAnalyzer) :
  let ss := sector_size self in
  let gpt_header := slice (data f) ss (ss + ss) in
  let partition_entries_lba := le_value (slice gpt_header 72 80) in
  0 <= ss < 2 ^ 63 ->
  _analyze_gpt sector f self
  = if len gpt_header <? 92 then (Ok tt, self)
    else if 2 ^ 63 <=? partition_entries_lba * ss then (Raise ValueError, self)
         else gpt_entries (Z.to_nat (le_value (slice gpt_header 80 84)))
                          {| data := data f; pos := partition_entries_lba * ss |}
                          (le_value (slice gpt_header 84 88)) 1 self.
Proof.
  intros ss gpt_header partition_entries_lba Hss.
  assert (Hread : read {| data := data f; pos := ss |} ss
                  = Ok (gpt_header, {| data := data f; pos := ss + len gpt_header |})).
  { unfold read. cbn [pos data].
    destruct (Z.ltb_spec ss (-1)); [lia|].
    destruct (Z.eqb_spec ss (-1)); [lia|].
    unfold gpt_header, slice. replace (ss + ss - ss) with ss by lia. reflexivity. }
  pose proof (le_value_range (slice gpt_header 72 80)) as Hlba.
  fold partition_entries_lba in Hlba.
  unfold _analyze_gpt.
  unfold bind at 1, gets at 1. fold ss.
  unfold bind at 1, lift at 1. rewrite seek_in_range by lia.
  unfold bind at 1, lift at 1. rewrite Hread.
  destruct (Z.ltb_spec (len gpt_header) 92); [reflexivity|].
  unfold bind, lift.
  rewrite !unpack_le_exact by (rewrite length_slice; lia).
  fold partition_entries_lba.
  destruct (Z.leb_spec (2 ^ 63) (partition_entries_lba * ss)) as [Hfar|Hnear].
  - unfold seek.
    destruct (Z.leb_spec (2 ^ 63) (partition_entries_lba * ss)); [|lia].
    rewrite orb_true_r. reflexivity.
  - rewrite seek_in_range by nia. reflexivity.
Qed.

(** The size of a GPT partition in a sector size of at most 64 bits has
    a text. *)
Lemma record_size_human (entry_data : bytes) (ss : Z) :
  Z.abs ss < 2 ^ 64 ->
  exists h,
    _bytes_to_human ((le_value (slice entry_data 40 48) - le_value (slice entry_data 32 40) + 1)
                     * ss) = Ok h.
Proof.
  intros Hss. apply bytes_to_human_total.
  pose proof (le_value_range (slice entry_data 40 48)) as H1.
  pose proof (le_value_range (slice entry_data 32 40)) as H2.
  assert (L1 : len (slice entry_data 40 48) <= 8).
  { unfold slice, len. rewrite length_firstn. lia. }
  assert (L2 : len (slice entry_data 32 40) <= 8).
  { unfold slice, len. rewrite length_firstn. lia. }
  assert (P1 : 256 ^ len (slice entry_data 40 48) <= 2 ^ 64).
  { change (2 ^ 64) with (256 ^ 8). apply Z.pow_le_mono_r; [lia|exact L1]. }
  assert (P2 : 256 ^ len (slice entry_data 32 40) <= 2 ^ 64).
  { change (2 ^ 64) with (256 ^ 8). apply Z.pow_le_mono_r; [lia|exact L2]. }
  rewrite Z.abs_mul.
  apply Z.le_lt_trans with (2 ^ 64 * 2 ^ 64); [|reflexivity].
  apply Z.mul_le_mono_nonneg; lia.
Qed.

(** The loop of the GPT decoder does not raise. *)
Lemma gpt_entries_ok (n : nat) :
  forall (f : file) (esz num : Z) (self : DiskAnalyzer),
    0 <= esz ->
    Z.abs (sector_size self) < 2 ^ 64 ->
    fst (gpt_entries n f esz num self) = Ok tt.
Proof.
  induction n as [|n IH]; intros f esz num self Hesz Hss; cbn [gpt_entries]; [reflexivity|].
  unfold bind at 1, lift at 1, read.
  destruct (Z.ltb_spec esz (-1)); [lia|].
  match goal with |- context [len ?c <? 128] => set (entry_data := c) end.
  destruct (Z.ltb_spec (len entry_data) 128); [reflexivity|].
  unfold bind. rewrite gpt_entry_run by lia.
  destruct (all_zero _); [apply IH; assumption|].
  destruct (_ =? 0); [apply IH; assumption|].
  destruct (record_size_human entry_data (sector_size self) Hss) as [h ->].
  apply IH; assumption.
Qed.

(** X15. A disk with a protective MBR, read with sectors of 512 bytes or
    more that the file can fill. [analyze] on a fresh analyzer sets the
    type GPT and the boot signature. It answers [True] when the header
    has fewer than 92 bytes, and when the header places the entry array
    within the file or at its end. It answers [False], with no entry, when
    the header (of at least 92 bytes) places the entry array at the byte
    [2^63] or further: going there raises. *)
Theorem analyze_gpt_disk (content : bytes) (path : string) (ss : Z) :
  let gpt_header := slice content ss (ss + ss) in
  let partition_entries_lba := le_value (slice gpt_header 72 80) in
  512 <= ss <= len content ->
  len content < 2 ^ 63 ->
  nth_error content 510 = Some x55 ->
  nth_error content 511 = Some xaa ->
  nth_error content 450 = Some xee ->
  partition_type (snd (analyze (Some content) (__init__ path ss))) = GPT
  /\ boot_signature (snd (analyze (Some content) (__init__ path ss))) = "55 AA"
  /\ (len gpt_header < 92 \/ partition_entries_lba * ss <= len content ->
      fst (analyze (Some content) (__init__ path ss)) = true)
  /\ (92 <= len gpt_header ->
      2 ^ 63 <= partition_entries_lba * ss ->
      fst (analyze (Some content) (__init__ path ss)) = false
      /\ partitions (snd (analyze (Some content) (__init__ path ss))) = []).
Proof.
  intros gpt_header partition_entries_lba Hss H63 H510 H511 H450.
  unfold analyze. rewrite analyze_body_run.
  change (sector_size (__init__ path ss)) with ss.
  destruct (read_first_sector content ss ltac:(lia)) as [Hread Hlen].
  rewrite Hread, Hlen, Z.ltb_irrefl.
  set (sector0 := firstn (Z.to_nat ss) content) in *.
  assert (Hnth : forall i b, Z.of_nat i < ss -> nth_error content i = Some b ->
                         getitem sector0 i = Ok (byte_val b)).
  { intros i b Hi Hb. apply getitem_nth_error. unfold sector0.
    rewrite nth_error_first_sector by exact Hi. exact Hb. }
  rewrite (detect_signature_run sector0 (byte_val xee)).
  2:{ exact (Hnth 510%nat x55 ltac:(lia) H510). }
  2:{ exact (Hnth 511%nat xaa ltac:(lia) H511). }
  2:{ exact (Hnth 450%nat xee ltac:(lia) H450). }
  change (byte_val xee =? 0xEE) with true.
  cbn [detected partition_type]. unfold decoded.
  cbn [sector_size detected with_disk_size __init__].
  unfold outcome, emitted.
  pose proof (analyze_gpt_run sector0 {| data := content; pos := ss |} (blank ss)) as Hrun.
  cbn [blank __init__ sector_size data] in Hrun. fold (blank ss) in Hrun.
  fold gpt_header partition_entries_lba in Hrun.
  rewrite Hrun by lia. clear Hrun.
  destruct (Z.ltb_spec (len gpt_header) 92) as [Hshort|Hlong].
  { cbn [fst snd rbind partition_type boot_signature partitions blank __init__ extend app].
    split; [reflexivity|]. split; [reflexivity|]. split; [reflexivity|].
    intros H. lia. }
  destruct (Z.leb_spec (2 ^ 63) (partition_entries_lba * ss)) as [Hfar|Hnear].
  { cbn [fst snd rbind partition_type boot_signature partitions blank __init__ extend app].
    split; [reflexivity|]. split; [reflexivity|]. split.
    - intros [H|H]; lia.
    - intros _ _. split; reflexivity. }
  pose proof (le_value_range (slice gpt_header 84 88)) as Hesz.
  match goal with
  | |- context [gpt_entries ?n ?f ?esz ?num (blank ss)] =>
      pose proof (gpt_entries_ok n f esz num (blank ss) ltac:(lia) ltac:(cbn; lia)) as Hok;
      destruct (gpt_entries n f esz num (blank ss)) as [r self'] eqn:E
  end.
  cbn [fst] in Hok. subst r.
  cbn [fst snd rbind partition_type boot_signature partitions extend].
  split; [reflexivity|]. split; [reflexivity|]. split; [reflexivity|].
  intros _ H. lia.
Qed.

Lemma analyze_gpt_disk_witness :
  fst (analyze (Some far_array_image) (__init__ "disk.img" 512)) = false
  /\ partition_type (snd (analyze (Some far_array_image) (__init__ "disk.img" 512))) = GPT.
Proof.
  destruct (analyze_gpt_disk far_array_image "disk.img" 512)
    as (Htype & _ & _ & Hfalse).
  - vm_compute. split; discriminate.
  - reflexivity.
  - reflexivity.
  - reflexivity.
  - reflexivity.
  - split; [|exact Htype].
    apply Hfalse; vm_compute; discriminate.
Defined.

(** * The parts of the program that print *)

(** Linear arithmetic with divisions by constants. *)
Ltac div_lia := Z.to_euclidean_division_equations; lia.

(** ** The colour of a partition *)

Lemma colors_getitem (k : Z) :
  0 <= k < 7 -> list_getitem colors k = Ok (nth (Z.to_nat k) colors "").
Proof.
  intros Hk. unfold list_getitem.
  destruct (Z.ltb_spec k 0); [lia|]. cbv zeta.
  destruct (Z.ltb_spec k 0); [lia|].
  assert (E : k = 0 \/ k = 1 \/ k = 2 \/ k = 3 \/ k = 4 \/ k = 5 \/ k = 6) by lia.
  destruct E as [->|[->|[->|[->|[->|[->| ->]]]]]]; reflexivity.
Qed.

Lemma colors_distinct (j k : Z) :
  0 <= j < 7 -> 0 <= k < 7 ->
  nth (Z.to_nat j) colors "" = nth (Z.to_nat k) colors "" -> j = k.
Proof.
  intros Hj Hk.
  assert (Ej : j = 0 \/ j = 1 \/ j = 2 \/ j = 3 \/ j = 4 \/ j = 5 \/ j = 6) by lia.
  assert (Ek : k = 0 \/ k = 1 \/ k = 2 \/ k = 3 \/ k = 4 \/ k = 5 \/ k = 6) by lia.
  destruct Ej as [->|[->|[->|[->|[->|[->| ->]]]]]];
    destruct Ek as [->|[->|[->|[->|[->|[->| ->]]]]]];
    (reflexivity || (vm_compute; discriminate)).
Qed.

(** X16. The colour of a partition. The lookup never raises, whatever
    the number is (zero and the negative numbers included): the index is
    taken modulo the seven colours. Two numbers have the same colour
    exactly when they differ by a multiple of 7, so that the partitions
    1 to 7 have seven different colours and the partition 8 has the colour
    of the partition 1. *)
Theorem partition_color_total (n m : Z) :
  (exists c, _get_partition_color n = Ok c /\ In c colors)
  /\ (_get_partition_color n = _get_partition_color m <-> (n - m) mod 7 = 0).
Proof.
  unfold _get_partition_color. change (len colors) with 7.
  assert (Hn : 0 <= (n - 1) mod 7 < 7) by (apply Z.mod_pos_bound; lia).
  assert (Hm : 0 <= (m - 1) mod 7 < 7) by (apply Z.mod_pos_bound; lia).
  rewrite !colors_getitem by assumption.
  split.
  - eexists. split; [reflexivity|]. apply nth_In. change (List.length colors) with 7%nat. lia.
  - split.
    + intros [= E]. apply colors_distinct in E; [|assumption|assumption].
      revert E. clear. div_lia.
    + intros E. do 2 f_equal. f_equal. revert E. clear. div_lia.
Qed.

(** ** The hex dump *)

Lemma range_16 (stop i : Z) :
  In i (range 0 stop 16) <-> 0 <= i < stop /\ i mod 16 = 0.
Proof.
  unfold range. rewrite in_map_iff. split.
  - intros (k & <- & Hk). apply in_seq in Hk.
    assert (Hk' : Z.of_nat k < (stop - 0 + 16 - 1) / 16) by lia.
    revert Hk'. generalize (Z.of_nat k) (Nat2Z.is_nonneg k). clear. intros z Hz. div_lia.
  - intros [Hi Hmod]. exists (Z.to_nat (i / 16)). split.
    + rewrite Z2Nat.id by (apply Z.div_pos; lia). revert Hmod. clear. div_lia.
    + apply in_seq.
      assert (i / 16 < (stop - 0 + 16 - 1) / 16) by (revert Hi Hmod; clear; div_lia).
      assert (0 <= i / 16) by (apply Z.div_pos; lia).
      lia.
Qed.

Lemma length_range (start stop step : Z) :
  List.length (range start stop step) = Z.to_nat ((stop - start + step - 1) / step).
Proof. unfold range. rewrite length_map, length_seq. reflexivity. Qed.

Lemma length_append (a b : string) :
  String.length (a ++ b) = (String.length a + String.length b)%nat.
Proof. induction a as [|c a IH]; cbn [append String.length]; [|rewrite IH]; reflexivity. Qed.

Lemma length_string_of_list_ascii (l : list ascii) :
  String.length (string_of_list_ascii l) = List.length l.
Proof. induction l as [|c l IH]; cbn; [|rewrite IH]; reflexivity. Qed.

Lemma length_format_02X (b : byte) : String.length (format_02X (byte_val b)) = 2%nat.
Proof.
  rewrite format_02X_byte by (pose proof (byte_val_range b); lia). reflexivity.
Qed.

(** The bytes of a line in hexadecimal take three characters each, less
    one after the last byte. *)
Lemma length_concat_hex (chunk : bytes) :
  String.length (String.concat " " (map (fun b => format_02X (byte_val b)) chunk))
  = (3 * List.length chunk - 1)%nat.
Proof.
  induction chunk as [|b [|b' chunk] IH]; [reflexivity| |].
  - cbn [map String.concat List.length]. apply length_format_02X.
  - cbn [map String.concat] in *. rewrite !length_append, IH, length_format_02X.
    cbn [String.length List.length]. lia.
Qed.

Lemma length_hex_column (chunk : bytes) :
  (List.length chunk <= 16)%nat -> String.length (hex_column chunk) = 48%nat.
Proof.
  intros Hc. unfold hex_column, ljust.
  rewrite length_append, length_string_of_list_ascii, repeat_length, length_concat_hex.
  change (3 * 16)%nat with 48%nat. lia.
Qed.

Lemma length_ascii_column (chunk : bytes) :
  String.length (ascii_column chunk) = List.length chunk.
Proof. unfold ascii_column. rewrite length_string_of_list_ascii, length_map. reflexivity. Qed.

(** X17. The hex dump of the first sector shows the first 256 bytes at
    most, in lines of 16 bytes, and every line is labelled BOOT in blue:
    the offsets of the lines are the multiples of 16 below
    [min(len(data), 256)], all below 440, so that the labels DSIG, PART,
    SIG and DATA are never printed and the partition table at the offset
    446 is never shown. The column of the hexadecimal digits has 48
    characters in every line, and the ASCII column one character for each
    byte of the line. *)
Theorem hex_dump_only_boot (data : bytes) :
  _print_colored_hex_dump data
  = (hex_dump_header
       ++ map (fun i => hex_dump_line Colors.BLUE "BOOT" i (slice data i (i + 16)))
              (range 0 (Z.min (len data) 256) 16))%list
  /\ (List.length (range 0 (Z.min (len data) 256) 16) <= 16)%nat
  /\ (forall i : Z,
         In i (range 0 (Z.min (len data) 256) 16) ->
         0 <= i <= 240 /\ i mod 16 = 0 /\ i < len data
         /\ 1 <= len (slice data i (i + 16)) <= 16
         /\ String.length (hex_column (slice data i (i + 16))) = 48%nat
         /\ String.length (ascii_column (slice data i (i + 16)))
            = List.length (slice data i (i + 16))).
Proof.
  assert (Hrange : forall i, In i (range 0 (Z.min (len data) 256) 16) ->
                             0 <= i <= 240 /\ i mod 16 = 0 /\ i < len data).
  { intros i Hi. apply range_16 in Hi. destruct Hi as [Hi Hmod].
    repeat split; try lia. revert Hi Hmod. clear.
    generalize (len data). intros n. div_lia. }
  split; [|split].
  - unfold _print_colored_hex_dump. cbv zeta. f_equal.
    apply map_ext_in. intros i Hi. destruct (Hrange i Hi) as (Hi' & _).
    unfold area_of. destruct (Z.ltb_spec i 440); [reflexivity|lia].
  - rewrite length_range.
    assert (H : (Z.min (len data) 256 - 0 + 16 - 1) / 16 <= 16).
    { generalize (len data). intros n. div_lia. }
    lia.
  - intros i Hi. destruct (Hrange i Hi) as (Hi' & Hmod & Hlt).
    assert (Hlen : 1 <= len (slice data i (i + 16)) <= 16).
    { unfold slice, len in *. rewrite length_firstn, length_skipn. lia. }
    repeat split; try lia.
    + apply length_hex_column. unfold len in Hlen. lia.
    + apply length_ascii_column.
Qed.

Lemma hex_dump_only_boot_witness :
  0 <= 240 <= 240
  /\ String.length (hex_column (slice sparse_sector 240 (240 + 16))) = 48%nat.
Proof.
  destruct (hex_dump_only_boot sparse_sector) as (_ & _ & H).
  destruct (H 240) as (H1 & _ & _ & _ & H2 & _).
  - vm_compute. tauto.
  - split; [exact H1|exact H2].
Defined.

(** ** The first bytes of a partition *)

Lemma substring_0_0 (s : string) : substring 0 0 s = "".
Proof. destruct s; reflexivity. Qed.

(** The pairs of digits of the hexadecimal text of a byte string are the
    digits of its bytes. *)
Lemma pairs_hexlify (b : bytes) :
  map (fun k => substring (2 * k) 2 (hexlify b)) (seq 0 (List.length b))
  = map (fun x => hexlify [x]) b.
Proof.
  induction b as [|x b IH]; [reflexivity|].
  cbn [List.length seq map]. f_equal.
  - cbn [hexlify Nat.mul substring]. rewrite substring_0_0. reflexivity.
  - rewrite <- seq_shift, map_map, <- IH. apply map_ext. intros k.
    replace (2 * S k)%nat with (S (S (2 * k))) by lia. reflexivity.
Qed.

Lemma formatted_hex_hexlify (b : bytes) : formatted_hex (hexlify b) = spaced_hex b.
Proof.
  unfold formatted_hex, spaced_hex, range. f_equal.
  rewrite length_hexlify, map_map, <- pairs_hexlify.
  replace (Z.to_nat ((Z.of_nat (2 * List.length b) - 0 + 2 - 1) / 2)) with (List.length b).
  - apply map_ext. intros k. f_equal. lia.
  - generalize (List.length b). intros n.
    assert (H : (Z.of_nat (2 * n) - 0 + 2 - 1) / 2 = Z.of_nat n) by div_lia.
    rewrite H. lia.
Qed.

(** The first 47 characters of the digits of a byte string are the digits
    of its first 16 bytes. *)
Lemma prefix_47_spaced_hex (b : bytes) :
  prefix 47 (spaced_hex b) = spaced_hex (firstn 16 b).
Proof.
  unfold prefix, spaced_hex.
  do 17 (destruct b as [|? b]; [reflexivity|]).
  reflexivity.
Qed.

(** The [try] block on an offset that can be gone to: the bytes read, 64
    at most, decide what is printed. *)
Lemma first_bytes_line_run (content : bytes) (ss : Z) (partition : PartitionEntry) :
  0 <= start_sector partition * ss < 2 ^ 63 ->
  first_bytes_line (Some content) ss partition
  = match firstn 64 (skipn (Z.to_nat (start_sector partition * ss)) content) with
    | [] => Ok None
    | x :: first_bytes =>
        Ok (Some ("    " ++ prefix 47 (formatted_hex (hexlify (x :: first_bytes))) ++ "..."))
    end.
Proof.
  intros Hoff. unfold first_bytes_line.
  rewrite seek_in_range by (cbn [pos data open]; lia).
  unfold read, open. cbn [rbind pos data Z.ltb Z.eqb Z.compare].
  change (Z.to_nat 64) with 64%nat.
  destruct (firstn 64 (skipn (Z.to_nat (start_sector partition * ss)) content));
    reflexivity.
Qed.

(** X18. The line that [_find_first_sectors] prints under the title of
    the first 64 bytes of a partition shows 16 bytes: those at the offset
    [start_sector * sector_size] of the image (fewer when the image ends
    before), as pairs of hexadecimal digits with spaces between them. It
    prints no line for a partition that starts at the end of the image.
    Going to the offset fails, which the [except] branch reports, with
    [OSError] when the offset is negative and fits 64 bits, and with
    [ValueError] when it does not fit: below [-2^63], and from [2^63]
    on. *)
Theorem first_bytes_shown (content : bytes) (ss : Z) (partition : PartitionEntry) :
  let offset := start_sector partition * ss in
  (0 <= offset < len content ->
   offset < 2 ^ 63 ->
   first_bytes_line (Some content) ss partition
   = Ok (Some ("    " ++ spaced_hex (slice content offset (offset + 16)) ++ "...")))
  /\ (offset = len content ->
      offset < 2 ^ 63 ->
      first_bytes_line (Some content) ss partition = Ok None)
  /\ (- 2 ^ 63 <= offset < 0 ->
      first_bytes_line (Some content) ss partition = Raise OSError)
  /\ (offset < - 2 ^ 63 \/ 2 ^ 63 <= offset ->
      first_bytes_line (Some content) ss partition = Raise ValueError).
Proof.
  intros offset.
  repeat split.
  - intros Hoff H63. rewrite first_bytes_line_run by (fold offset; lia). fold offset.
    assert (Hfirst : firstn 16 (firstn 64 (skipn (Z.to_nat offset) content))
                     = slice content offset (offset + 16)).
    { rewrite firstn_firstn. unfold slice. f_equal. lia. }
    destruct (firstn 64 (skipn (Z.to_nat offset) content)) as [|x first_bytes] eqn:E.
    + exfalso. apply (f_equal (@List.length byte)) in E.
      rewrite length_firstn, length_skipn in E. unfold len in Hoff.
      cbn [List.length] in E. lia.
    + rewrite formatted_hex_hexlify, prefix_47_spaced_hex, Hfirst. reflexivity.
  - intros Hoff H63.
    assert (0 <= len content) by (unfold len; lia).
    rewrite first_bytes_line_run by (fold offset; lia). fold offset.
    rewrite skipn_all2 by (unfold len in Hoff; lia). reflexivity.
  - intros Hoff. unfold first_bytes_line, seek. fold offset.
    destruct (Z.ltb_spec offset (- 2 ^ 63)); [lia|].
    destruct (Z.leb_spec (2 ^ 63) offset); [lia|].
    destruct (Z.ltb_spec offset 0); [reflexivity|lia].
  - intros Hoff. unfold first_bytes_line, seek. fold offset.
    destruct (Z.ltb_spec offset (- 2 ^ 63)); [reflexivity|].
    destruct (Z.leb_spec (2 ^ 63) offset); [reflexivity|lia].
Qed.

Lemma first_bytes_shown_witness :
  first_bytes_line (Some two_entry_image) 512 table_entry
  = Ok (Some ("    " ++ spaced_hex (slice two_entry_image 1024 (1024 + 16)) ++ "...")).
Proof.
  apply (proj1 (first_bytes_shown two_entry_image 512 table_entry)).
  - vm_compute. split; [discriminate|reflexivity].
  - reflexivity.
Defined.

(** * The second program *)

Lemma firstn_slice {A : Type} (s : list A) (a b k : Z) :
  0 <= k <= b - a -> firstn (Z.to_nat k) (slice s a b) = slice s a (a + k).
Proof.
  intros Hk. unfold slice. rewrite firstn_firstn. f_equal. lia.
Qed.

Lemma skipn_slice {A : Type} (s : list A) (a b k : Z) :
  0 <= a -> 0 <= k -> skipn (Z.to_nat k) (slice s a b) = slice s (a + k) b.
Proof.
  intros Ha Hk. unfold slice. rewrite skipn_firstn_comm, skipn_skipn.
  f_equal; [|f_equal]; lia.
Qed.

(** The second program reads the fields of a slot where the first one
    reads them. *)
Lemma parse_slot (mbr : bytes) (i : Z) :
  0 <= i ->
  slot_offset i + 16 <= len mbr ->
  DumpAnalyzer.parse_partition_entry (slice mbr (446 + i * 16) (446 + (i + 1) * 16))
  = Ok (slot_partition mbr i).
Proof.
  intros Hi Hlen.
  replace (446 + (i + 1) * 16) with (slot_offset i + 16) by (unfold slot_offset; lia).
  fold (slot_offset i).
  assert (Hoff : 446 <= slot_offset i) by (unfold slot_offset; lia).
  pose (entry_bytes := slice mbr (slot_offset i) (slot_offset i + 16)).
  assert (Hpd : len entry_bytes = 16).
  { unfold entry_bytes. rewrite length_slice by lia. lia. }
  assert (H0 : getitem entry_bytes 0 = Ok (slot_status mbr i)).
  { rewrite getitem_in_range by lia. unfold entry_bytes.
    rewrite nth_slice by lia. cbn [Z.of_nat]. rewrite Z.add_0_r. reflexivity. }
  assert (H4 : getitem entry_bytes 4 = Ok (slot_type_code mbr i)).
  { rewrite getitem_in_range by lia. unfold entry_bytes.
    rewrite nth_slice by lia. reflexivity. }
  assert (H8 : DumpAnalyzer.unpack_II (slice entry_bytes 8 16)
               = Ok (slot_lba_start mbr i, slot_num_sectors mbr i)).
  { unfold DumpAnalyzer.unpack_II.
    assert (L : len (slice entry_bytes 8 16) = 16 - 8) by (apply length_slice; lia).
    unfold len in L.
    destruct (Nat.eqb_spec (List.length (slice entry_bytes 8 16)) 8); [|lia].
    change 4%nat with (Z.to_nat 4).
    rewrite firstn_slice, skipn_slice by lia.
    unfold entry_bytes. rewrite !slice_slice by lia.
    unfold slot_lba_start, slot_num_sectors.
    repeat f_equal; lia. }
  unfold DumpAnalyzer.parse_partition_entry. fold entry_bytes.
  rewrite H0, H4, H8. reflexivity.
Qed.

Lemma dump_analyze_mbr_run (mbr : bytes) :
  DumpAnalyzer.analyze_mbr mbr
  = if len mbr <? 512 then Raise StructError
    else Ok (map (slot_partition mbr) [0; 1; 2; 3]).
Proof.
  unfold DumpAnalyzer.analyze_mbr.
  destruct (Z.ltb_spec (len mbr) 512) as [Hshort|Hfull].
  - unfold unpack_le.
    assert (L : (List.length (slice mbr 510 512) < 2)%nat).
    { unfold slice, len in *. rewrite length_firstn, length_skipn. lia. }
    destruct (Nat.eqb_spec (List.length (slice mbr 510 512)) 2); [lia|reflexivity].
  - rewrite unpack_le_exact by (rewrite length_slice; lia).
    cbn [rbind DumpAnalyzer.collect].
    rewrite !parse_slot by (unfold slot_offset; lia).
    reflexivity.
Qed.

(** The slots of a sector lie in its first 512 bytes. *)
Lemma slot_partition_firstn (content : bytes) (i : Z) :
  0 <= i <= 3 ->
  slot_partition (firstn 512 content) i = slot_partition content i.
Proof.
  intros Hi.
  assert (Hbyte : forall k, 0 <= k < 512 -> byte_at (firstn 512 content) k = byte_at content k).
  { intros k Hk. unfold byte_at. rewrite nth_firstn.
    destruct (Nat.ltb_spec (Z.to_nat k) 512); [reflexivity|lia]. }
  assert (Hslice : forall a b, 0 <= a -> b <= 512 ->
                          slice (firstn 512 content) a b = slice content a b).
  { intros a b Ha Hb. unfold slice.
    rewrite skipn_firstn_comm, firstn_firstn. f_equal. lia. }
  unfold slot_partition, slot_status, slot_type_code, slot_lba_start, slot_num_sectors,
    slot_offset.
  rewrite !Hbyte, !Hslice by lia. reflexivity.
Qed.

(** X19. The second program, [dump_analyzer.py], on an image. When the
    file has fewer than 512 bytes, unpacking the signature raises
    [struct.error], which nothing catches. Otherwise the program returns
    four partitions, one for each slot of the table, the empty slots
    included, with the status byte, the type code, the first sector and the
    sector count read at the offsets 0, 4, 8 and 12 of the slot; a missing
    signature 55 AA changes nothing of this. *)
Theorem dump_read_partitions (content : bytes) :
  (len content < 512 -> DumpAnalyzer.read_partitions (Some content) = Raise StructError)
  /\ (512 <= len content ->
      DumpAnalyzer.read_partitions (Some content)
      = Ok (map (slot_partition content) [0; 1; 2; 3])).
Proof.
  unfold DumpAnalyzer.read_partitions, DumpAnalyzer.read_mbr, read, open.
  cbn [pos data skipn Z.to_nat Z.ltb Z.eqb Z.compare rbind].
  change (Pos.to_nat 512) with 512%nat.
  rewrite dump_analyze_mbr_run.
  assert (Hlen : len (firstn 512 content) = Z.min 512 (len content)).
  { unfold len. rewrite length_firstn. lia. }
  rewrite Hlen.
  split; intros H.
  - destruct (Z.ltb_spec (Z.min 512 (len content)) 512); [reflexivity|lia].
  - destruct (Z.ltb_spec (Z.min 512 (len content)) 512); [lia|].
    cbn [map]. rewrite !slot_partition_firstn by lia. reflexivity.
Qed.

Lemma dump_read_partitions_witness :
  DumpAnalyzer.read_partitions (Some (zeros 511)) = Raise StructError
  /\ DumpAnalyzer.read_partitions (Some unsigned_sector)
     = Ok (map (slot_partition unsigned_sector) [0; 1; 2; 3]).
Proof.
  split.
  - apply (proj1 (dump_read_partitions (zeros 511))). reflexivity.
  - apply (proj2 (dump_read_partitions unsigned_sector)). vm_compute. discriminate.
Defined.

(** X20. The two programs agree on an MBR sector. The entries that the
    MBR decoder of [disk_analyzer.py] appends are those of the partitions
    that [analyze_mbr] of [dump_analyzer.py] returns for the same sector,
    less the empty ones (type code 0 and first sector 0), each with the
    number of its position in the list. *)
Theorem programs_agree (mbr : bytes) (ps : list DumpAnalyzer.Partition)
        (f : file) (self : DiskAnalyzer) :
  DumpAnalyzer.analyze_mbr mbr = Ok ps ->
  Z.abs (sector_size self) < 2 ^ 64 ->
  _analyze_mbr mbr f self
  = (Ok tt,
     extend self
            (map (fun p => entry_of_partition (sector_size self) (fst p) (snd p))
                 (filter (fun p => negb (empty_partition (snd p)))
                         (combine [0; 1; 2; 3] ps)))).
Proof.
  intros Hps Hss. rewrite dump_analyze_mbr_run in Hps.
  destruct (Z.ltb_spec (len mbr) 512) as [|Hfull]; [discriminate|].
  injection Hps as <-.
  rewrite analyze_mbr_run by (assumption || lia).
  unfold used_slots. cbn [map combine filter snd].
  change (empty_partition (slot_partition mbr 0)) with (slot_empty mbr 0).
  change (empty_partition (slot_partition mbr 1)) with (slot_empty mbr 1).
  change (empty_partition (slot_partition mbr 2)) with (slot_empty mbr 2).
  change (empty_partition (slot_partition mbr 3)) with (slot_empty mbr 3).
  destruct (slot_empty mbr 0), (slot_empty mbr 1), (slot_empty mbr 2), (slot_empty mbr 3);
    reflexivity.
Qed.

Lemma programs_agree_witness :
  _analyze_mbr sparse_sector (open sparse_sector) (__init__ "disk.img" 512)
  = (Ok tt,
     extend (__init__ "disk.img" 512)
            (map (fun p => entry_of_partition 512 (fst p) (snd p))
                 (filter (fun p => negb (empty_partition (snd p)))
                         (combine [0; 1; 2; 3]
                                  (map (slot_partition sparse_sector) [0; 1; 2; 3]))))).
Proof.
  apply (programs_agree sparse_sector (map (slot_partition sparse_sector) [0; 1; 2; 3])
                        (open sparse_sector) (__init__ "disk.img" 512)).
  - vm_compute. reflexivity.
  - vm_compute. reflexivity.
Defined.

(** * Encoding a GPT disk and decoding it *)

(** ** The name *)

Lemma utf16le_units_utf16le (b rest : bytes) :
  utf16le_units (flat_map (fun x => [x; x00]) b ++ rest)%list
  = (map byte_val b ++ utf16le_units rest)%list.
Proof.
  induction b as [|x b IH]; [reflexivity|].
  cbn [flat_map app utf16le_units map]. rewrite IH.
  change (byte_val x00) with 0. rewrite Z.mul_0_r, Z.add_0_r. reflexivity.
Qed.

Lemma utf16le_units_zeros (j : nat) : utf16le_units (zeros (2 * j)) = repeat 0 j.
Proof.
  induction j as [|j IH]; [reflexivity|].
  replace (2 * S j)%nat with (S (S (2 * j))) by lia.
  unfold zeros in *. cbn [repeat utf16le_units]. rewrite IH. reflexivity.
Qed.

(** Code units below the surrogates are their own code points. *)
Lemma utf16_points_plain (us : list Z) :
  Forall (fun u => 0 <= u < 0xD800) us -> utf16_points us = us.
Proof.
  induction 1 as [|u us Hu _ IH]; [reflexivity|].
  cbn [utf16_points].
  assert (Ehi : is_high_surrogate u = false).
  { unfold is_high_surrogate. apply andb_false_iff. left. apply Z.leb_gt. lia. }
  assert (Elo : is_low_surrogate u = false).
  { unfold is_low_surrogate. apply andb_false_iff. left. apply Z.leb_gt. lia. }
  rewrite Ehi, Elo, IH. reflexivity.
Qed.

Lemma lstrip_nul_zeros (z m : list Z) :
  Forall (fun c => c = 0) z -> lstrip_nul (z ++ m)%list = lstrip_nul m.
Proof.
  induction 1 as [|c z Hc _ IH]; [reflexivity|].
  subst c. cbn [app lstrip_nul]. exact IH.
Qed.

Lemma lstrip_nul_keeps (m : list Z) : hd 1 m <> 0 -> lstrip_nul m = m.
Proof.
  destruct m as [|c m]; [reflexivity|]. cbn [hd lstrip_nul].
  destruct c; [lia|reflexivity|reflexivity].
Qed.

Lemma hd_nonzero (l : list Z) : Forall (fun c => c <> 0) l -> hd 1 l <> 0.
Proof. destruct 1; cbn [hd]; [lia|assumption]. Qed.

Lemma repeat_zero (j : nat) : Forall (fun c => c = 0) (repeat 0 j).
Proof. apply Forall_forall. intros c Hc. exact (repeat_spec _ _ _ Hc). Qed.

(** [strip] takes from a text without NUL the NUL characters that were
    put after it. *)
Lemma strip_nul_padded (l : list Z) (j : nat) :
  Forall (fun c => c <> 0) l -> strip_nul (l ++ repeat 0 j)%list = l.
Proof.
  intros Hl. unfold strip_nul. destruct l as [|c l].
  - cbn [app]. rewrite <- (app_nil_r (repeat 0 j)).
    rewrite lstrip_nul_zeros by apply repeat_zero. reflexivity.
  - rewrite (lstrip_nul_keeps ((c :: l) ++ repeat 0 j)%list)
      by (cbn [app hd]; inversion Hl; assumption).
    rewrite rev_app_distr, lstrip_nul_zeros by (apply Forall_rev, repeat_zero).
    rewrite lstrip_nul_keeps; [apply rev_involutive|].
    apply hd_nonzero, Forall_rev, Hl.
Qed.

Lemma length_utf16le (s : string) :
  List.length (utf16le s) = (2 * String.length s)%nat.
Proof.
  unfold utf16le.
  assert (H : forall b : bytes, List.length (flat_map (fun x => [x; x00]) b)
                                = (2 * List.length b)%nat).
  { induction b as [|x b IH]; cbn [flat_map app List.length]; lia. }
  rewrite H. f_equal.
  induction s as [|c s IH]; [reflexivity|].
  change (list_byte_of_string (String c s))
    with (byte_of_ascii c :: list_byte_of_string s).
  cbn [List.length String.length]. rewrite IH. reflexivity.
Qed.

(** The name that was encoded is the name that is decoded. *)
Lemma decoded_name (s : string) :
  (String.length s <= 36)%nat ->
  Forall (fun b => b <> x00) (list_byte_of_string s) ->
  strip_nul (decode_utf16le_ignore (pad_to 72 (utf16le s)))
  = map byte_val (list_byte_of_string s).
Proof.
  intros Hlen Hs. unfold decode_utf16le_ignore, pad_to.
  rewrite length_utf16le.
  replace (72 - 2 * String.length s)%nat with (2 * (36 - String.length s))%nat by lia.
  unfold utf16le at 1. rewrite utf16le_units_utf16le, utf16le_units_zeros.
  rewrite utf16_points_plain.
  - apply strip_nul_padded.
    apply Forall_map. eapply Forall_impl; [|exact Hs].
    intros b Hb E. apply Hb. apply byte_val_inj. exact E.
  - apply Forall_app. split.
    + apply Forall_map. apply Forall_forall. intros b _.
      pose proof (byte_val_range b). lia.
    + eapply Forall_impl; [|apply repeat_zero]. intros c ->. lia.
Qed.

(** ** One record *)

(** The part of a list between two others. *)
Lemma slice_at {A : Type} (pre a post : list A) (p q : Z) :
  len pre = p -> len a = q - p -> slice (pre ++ a ++ post)%list p q = a.
Proof.
  intros Hp Hq. unfold slice, len in *.
  rewrite skipn_app, skipn_all2, app_nil_l by lia.
  replace (Z.to_nat p - List.length pre)%nat with 0%nat by lia. cbn [skipn].
  rewrite firstn_app, firstn_all2 by lia.
  replace (Z.to_nat (q - p) - List.length a)%nat with 0%nat by lia.
  cbn [firstn]. apply app_nil_r.
Qed.

Lemma length_pad_to (n : nat) (b : bytes) :
  (List.length b <= n)%nat -> List.length (pad_to n b) = n.
Proof.
  intros Hb. unfold pad_to, zeros. rewrite length_app, repeat_length. lia.
Qed.

Lemma encoded_record_fields (r : GptRecord) :
  valid_record r ->
  len (encode_record r) = 128
  /\ slice (encode_record r) 0 16 = rec_type r
  /\ slice (encode_record r) 16 32 = rec_guid r
  /\ le_value (slice (encode_record r) 32 40) = rec_first r
  /\ le_value (slice (encode_record r) 40 48) = rec_last r
  /\ le_value (slice (encode_record r) 48 56) = rec_attributes r
  /\ slice (encode_record r) 56 128 = pad_to 72 (utf16le (rec_name r)).
Proof.
  intros (Ht & _ & Hg & Hf & Hl & Ha & Hn & _).
  destruct r as [t g first last attrs nm].
  cbn [rec_type rec_guid rec_first rec_last rec_attributes rec_name] in *.
  unfold encode_record, gpt_record.
  cbn [rec_type rec_guid rec_first rec_last rec_attributes rec_name].
  set (n72 := pad_to 72 (utf16le nm)).
  assert (L72 : len n72 = 72).
  { unfold n72, len. rewrite length_pad_to; [reflexivity|]. rewrite length_utf16le. lia. }
  assert (L8 : forall v, len (le_bytes 8 v) = 8).
  { intros v. unfold len. rewrite length_le_bytes. reflexivity. }
  pose proof (L8 first) as Lf. pose proof (L8 last) as Ll. pose proof (L8 attrs) as La.
  set (bf := le_bytes 8 first) in *. set (bl := le_bytes 8 last) in *.
  set (ba := le_bytes 8 attrs) in *.
  split; [unfold len in *; rewrite !length_app; lia|].
  split; [exact (slice_at [] t _ 0 16 eq_refl ltac:(lia))|].
  split; [apply slice_at; unfold len in *; lia|].
  split.
  { replace (t ++ g ++ bf ++ bl ++ ba ++ n72)%list
      with ((t ++ g) ++ bf ++ (bl ++ ba ++ n72))%list by (rewrite <- !app_assoc; reflexivity).
    rewrite slice_at by (unfold len in *; rewrite ?length_app; lia).
    apply (le_value_le_bytes 8). change (256 ^ Z.of_nat 8) with (2 ^ 64). lia. }
  split.
  { replace (t ++ g ++ bf ++ bl ++ ba ++ n72)%list
      with ((t ++ g ++ bf) ++ bl ++ (ba ++ n72))%list by (rewrite <- !app_assoc; reflexivity).
    rewrite slice_at by (unfold len in *; rewrite ?length_app; lia).
    apply (le_value_le_bytes 8). change (256 ^ Z.of_nat 8) with (2 ^ 64). lia. }
  split.
  { replace (t ++ g ++ bf ++ bl ++ ba ++ n72)%list
      with ((t ++ g ++ bf ++ bl) ++ ba ++ n72)%list by (rewrite <- !app_assoc; reflexivity).
    rewrite slice_at by (unfold len in *; rewrite ?length_app; lia).
    apply (le_value_le_bytes 8). change (256 ^ Z.of_nat 8) with (2 ^ 64). lia. }
  replace (t ++ g ++ bf ++ bl ++ ba ++ n72)%list
    with ((t ++ g ++ bf ++ bl ++ ba) ++ n72 ++ [])%list
    by (rewrite <- !app_assoc, app_nil_r; reflexivity).
  apply slice_at; unfold len in *; rewrite ?length_app; lia.
Qed.

(** One turn of the loop on the bytes of a record. *)
Lemma gpt_entry_encoded (r : GptRecord) (partition_num : Z) (self : DiskAnalyzer) :
  valid_record r ->
  Z.abs (sector_size self) < 2 ^ 64 ->
  gpt_entry (encode_record r) partition_num self
  = (Ok (partition_num + 1),
     extend self [entry_of_record (sector_size self) partition_num r]).
Proof.
  intros Hr Hss.
  destruct (encoded_record_fields r Hr) as (L & Et & Eg & Ef & El & Ea & En).
  destruct Hr as (_ & Hz & _ & Hf & _ & _ & Hn & Hs).
  rewrite gpt_entry_run by lia.
  rewrite Et, Hz, Ef, El.
  destruct (Z.eqb_spec (rec_first r) 0); [lia|].
  assert (Hh : exists h, _bytes_to_human ((rec_last r - rec_first r + 1) * sector_size self)
                         = Ok h).
  { rewrite <- Ef, <- El. apply record_size_human. exact Hss. }
  destruct Hh as [h Hh].
  unfold entry_of_record, record_entry.
  rewrite Et, Eg, Ef, El, Ea, En, Hh, decoded_name by assumption.
  reflexivity.
Qed.

(** ** The entry array *)

Lemma gpt_entries_encoded (rs : list GptRecord) :
  forall (pre post : bytes) (partition_num : Z) (self : DiskAnalyzer),
    Forall valid_record rs ->
    Z.abs (sector_size self) < 2 ^ 64 ->
    gpt_entries (List.length rs)
                {| data := (pre ++ List.concat (map encode_record rs) ++ post)%list;
                   pos := len pre |}
                128 partition_num self
    = (Ok tt, extend self (entries_of_records (sector_size self) partition_num rs)).
Proof.
  induction rs as [|r rs IH]; intros pre post num self Hrs Hss.
  - cbn [List.length gpt_entries]. unfold ret, entries_of_records.
    cbn [List.length zseq combine map]. rewrite extend_nil. reflexivity.
  - inversion Hrs as [|? ? Hr Hrs']; subst.
    destruct (encoded_record_fields r Hr) as (L & _).
    cbn [List.length gpt_entries map List.concat].
    unfold bind at 1, lift at 1, read. cbn [pos data Z.ltb Z.eqb Z.compare].
    assert (Hchunk : firstn (Z.to_nat 128)
                            (skipn (Z.to_nat (len pre))
                                   (pre ++ (encode_record r ++ List.concat (map encode_record rs))
                                        ++ post)%list)
                     = encode_record r).
    { unfold len in *. rewrite Nat2Z.id, skipn_app, skipn_all, Nat.sub_diag.
      cbn [skipn app]. rewrite <- app_assoc, firstn_app, firstn_all2 by lia.
      replace (Z.to_nat 128 - List.length (encode_record r))%nat with 0%nat by lia.
      cbn [firstn]. apply app_nil_r. }
    rewrite Hchunk, L. cbn [Z.ltb Z.compare Pos.compare Pos.compare_cont].
    unfold bind. rewrite gpt_entry_encoded by assumption.
    replace {| data := (pre ++ (encode_record r ++ List.concat (map encode_record rs)) ++ post)%list;
               pos := len pre + 128 |}
      with {| data := ((pre ++ encode_record r) ++ List.concat (map encode_record rs) ++ post)%list;
              pos := len (pre ++ encode_record r)%list |}.
    2:{ f_equal.
        - rewrite <- !app_assoc. reflexivity.
        - unfold len in *. rewrite length_app. lia. }
    rewrite IH by assumption.
    cbn [extend sector_size]. rewrite extend_extend.
    unfold entries_of_records. cbn [List.length zseq combine map fst snd app].
    reflexivity.
Qed.

(** ** The disk *)

Lemma gpt_header_fields (lba n esz : Z) :
  0 <= lba < 2 ^ 64 -> 0 <= n < 2 ^ 32 -> 0 <= esz < 2 ^ 32 ->
  len (gpt_header lba n esz) = 512
  /\ le_value (slice (gpt_header lba n esz) 72 80) = lba
  /\ le_value (slice (gpt_header lba n esz) 80 84) = n
  /\ le_value (slice (gpt_header lba n esz) 84 88) = esz.
Proof.
  intros Hlba Hn Hesz.
  split; [reflexivity|].
  split; [|split].
  - change (slice (gpt_header lba n esz) 72 80) with (le_bytes 8 lba).
    apply le_value_le_bytes. change (256 ^ Z.of_nat 8) with (2 ^ 64). lia.
  - change (slice (gpt_header lba n esz) 80 84) with (le_bytes 4 n).
    apply le_value_le_bytes. change (256 ^ Z.of_nat 4) with (2 ^ 32). lia.
  - change (slice (gpt_header lba n esz) 84 88) with (le_bytes 4 esz).
    apply le_value_le_bytes. change (256 ^ Z.of_nat 4) with (2 ^ 32). lia.
Qed.

(** The GPT decoder on the disk made of a list of records. *)
Lemma analyze_gpt_encoded (rs : list GptRecord) (sector : bytes) (p : Z)
      (self : DiskAnalyzer) :
  Forall valid_record rs ->
  len rs < 2 ^ 32 ->
  sector_size self = 512 ->
  _analyze_gpt sector {| data := gpt_image rs; pos := p |} self
  = (Ok tt, extend self (entries_of_records 512 1 rs)).
Proof.
  intros Hrs Hn Hss.
  assert (Hn0 : 0 <= len rs) by (unfold len; lia).
  destruct (gpt_header_fields 2 (len rs) 128) as (Lh & Elba & En & Eesz);
    [lia|lia|lia|].
  pose proof (analyze_gpt_run sector {| data := gpt_image rs; pos := p |} self) as Hrun.
  cbv zeta in Hrun. rewrite Hss in Hrun. cbn [data] in Hrun.
  assert (Hhdr : slice (gpt_image rs) 512 (512 + 512) = gpt_header 2 (len rs) 128).
  { unfold gpt_image. apply slice_at; [reflexivity|]. rewrite Lh. reflexivity. }
  rewrite Hhdr, Lh, Elba, En, Eesz in Hrun.
  rewrite Hrun by lia. clear Hrun.
  change (512 <? 92) with false. change (2 ^ 63 <=? 2 * 512) with false. cbv iota.
  unfold len at 1. rewrite Nat2Z.id.
  replace {| data := gpt_image rs; pos := 2 * 512 |}
    with {| data := ((protective_sector ++ gpt_header 2 (len rs) 128)
                       ++ List.concat (map encode_record rs) ++ [])%list;
            pos := len (protective_sector ++ gpt_header 2 (len rs) 128)%list |}.
  2:{ f_equal. unfold gpt_image. rewrite app_nil_r, <- app_assoc. reflexivity. }
  rewrite gpt_entries_encoded by (assumption || (rewrite Hss; reflexivity)).
  rewrite Hss. reflexivity.
Qed.

(** X21. Encoding and decoding a GPT disk. For every list of records in
    use (a type GUID that is not all zeros, a first sector from 1 on, a
    name of at most 36 one-byte characters without NUL), [analyze] on the
    image made of a protective MBR, a header and the records, with sectors
    of 512 bytes, answers [True] and has one entry for each record, in the
    order of the array and numbered from 1 on, with the first and the last
    sector, the attributes, the GUID and the name that were encoded. *)
Theorem gpt_round_trip (rs : list GptRecord) (path : string) :
  Forall valid_record rs ->
  len rs < 2 ^ 32 ->
  analyze (Some (gpt_image rs)) (__init__ path 512)
  = (true,
     {| disk_image := path;
        sector_size := 512;
        partition_type := GPT;
        partitions := entries_of_records 512 1 rs;
        boot_signature := "55 AA";
        disk_size := len (gpt_image rs) |}).
Proof.
  intros Hrs Hn.
  assert (Hlen : 1024 <= len (gpt_image rs)).
  { unfold gpt_image, len. rewrite !length_app.
    change (List.length protective_sector) with 512%nat.
    change (List.length (gpt_header 2 (Z.of_nat (List.length rs)) 128)) with 512%nat. lia. }
  unfold analyze. rewrite analyze_body_run.
  change (sector_size (__init__ path 512)) with 512.
  destruct (read_first_sector (gpt_image rs) 512 ltac:(lia)) as [Hread Hl].
  rewrite Hread, Hl, Z.ltb_irrefl.
  assert (Hsector : firstn (Z.to_nat 512) (gpt_image rs) = protective_sector).
  { unfold gpt_image. rewrite firstn_app.
    change (Z.to_nat 512 - List.length protective_sector)%nat with 0%nat.
    cbn [firstn]. rewrite app_nil_r. reflexivity. }
  rewrite Hsector.
  rewrite (detect_signature_run protective_sector 0xEE) by reflexivity.
  change (0xEE =? 0xEE) with true. cbn [detected partition_type].
  unfold decoded. cbn [sector_size detected with_disk_size __init__].
  unfold outcome, emitted.
  rewrite (analyze_gpt_encoded rs protective_sector 512 (blank 512)) by (assumption || reflexivity).
  reflexivity.
Qed.

Lemma gpt_round_trip_witness :
  analyze (Some (gpt_image [root_record; home_record])) (__init__ "disk.img" 512)
  = (true,
     {| disk_image := "disk.img";
        sector_size := 512;
        partition_type := GPT;
        partitions := entries_of_records 512 1 [root_record; home_record];
        boot_signature := "55 AA";
        disk_size := len (gpt_image [root_record; home_record]) |}).
Proof.
  apply (gpt_round_trip [root_record; home_record] "disk.img").
  - repeat constructor; vm_compute; intuition discriminate.
  - reflexivity.
Defined.

(** ** The sector size -1 *)

(** X22. The sector size is not checked, and -1 makes [read] return the
    whole file as the first sector. An image of at least 512 bytes with
    the boot signature is then analysed in one piece: when the type at the
    offset 450 is not 0xEE, [analyze] answers [True] with the entries of
    the slots that are not empty, whose sizes in bytes are the sector
    counts times -1; when it is 0xEE, the type is GPT, going to the header
    at the offset -1 raises, and [analyze] answers [False]. *)
Theorem analyze_whole_file_sector (content : bytes) (b450 : byte) (path : string) :
  512 <= len content ->
  nth_error content 510 = Some x55 ->
  nth_error content 511 = Some xaa ->
  nth_error content 450 = Some b450 ->
  (b450 <> xee ->
   analyze (Some content) (__init__ path (-1))
   = (true,
      {| disk_image := path;
         sector_size := -1;
         partition_type := MBR;
         partitions := map (decoded_slot content (-1)) (used_slots content);
         boot_signature := "55 AA";
         disk_size := len content |}))
  /\ (b450 = xee ->
      analyze (Some content) (__init__ path (-1))
      = (false,
         {| disk_image := path;
            sector_size := -1;
            partition_type := GPT;
            partitions := [];
            boot_signature := "55 AA";
            disk_size := len content |})).
Proof.
  intros Hlen H510 H511 H450.
  assert (Hread : read (open content) (-1)
                  = Ok (content, {| data := content; pos := 0 + len content |})).
  { reflexivity. }
  assert (Hdet : forall self,
             _detect_partition_type content self
             = (Ok tt, detected (Some (if byte_val b450 =? 0xEE then GPT else MBR)) true self)).
  { intros self. apply detect_signature_run.
    - exact (getitem_nth_error content 510 x55 H510).
    - exact (getitem_nth_error content 511 xaa H511).
    - exact (getitem_nth_error content 450 b450 H450). }
  unfold analyze. rewrite analyze_body_run.
  change (sector_size (__init__ path (-1))) with (-1).
  rewrite Hread, Hdet.
  destruct (Z.ltb_spec (len content) (-1)); [lia|].
  split.
  - intros Hne. rewrite not_protective by exact Hne.
    cbn [detected partition_type]. unfold decoded.
    cbn [sector_size detected with_disk_size __init__].
    destruct (outcome_emitted_mbr content {| data := content; pos := 0 + len content |} (-1))
      as [-> ->]; [lia|reflexivity|].
    reflexivity.
  - intros ->. reflexivity.
Qed.

Lemma analyze_whole_file_sector_witness :
  analyze (Some sparse_sector) (__init__ "disk.img" (-1))
  = (true,
     {| disk_image := "disk.img";
        sector_size := -1;
        partition_type := MBR;
        partitions := map (decoded_slot sparse_sector (-1)) (used_slots sparse_sector);
        boot_signature := "55 AA";
        disk_size := len sparse_sector |}).
Proof.
  apply (proj1 (analyze_whole_file_sector sparse_sector x00 "disk.img"
                                          ltac:(vm_compute; discriminate)
                                          eq_refl eq_refl eq_refl)).
  discriminate.
Defined.

(** * What the decoders materialize *)

(** One turn of the MBR loop on a slot that does not lie within the
    sector. *)
Lemma mbr_slot_short (sector : bytes) (i : Z) (self : DiskAnalyzer) :
  0 <= i ->
  len sector < slot_offset i + 16 ->
  mbr_slot sector i self = (Ok tt, self).
Proof.
  intros Hi Hshort. unfold mbr_slot. cbv zeta.
  destruct (Z.ltb_spec (len (slice sector (446 + i * 16) (446 + i * 16 + 16))) 16) as [|Hfull];
    [reflexivity|exfalso].
  unfold slice, len, slot_offset in *.
  rewrite length_firstn, length_skipn in Hfull. lia.
Qed.

(** The empty slot makes no entry. *)
Lemma mbr_slot_empty_run (sector : bytes) (i : Z) (self : DiskAnalyzer) :
  0 <= i ->
  slot_empty sector i = true ->
  mbr_slot sector i self = (Ok tt, self).
Proof.
  intros Hi Hempty.
  destruct (Z.lt_ge_cases (len sector) (slot_offset i + 16)) as [Hshort|Hfits].
  - apply mbr_slot_short; assumption.
  - rewrite mbr_slot_run by lia. rewrite Hempty. reflexivity.
Qed.

(** A record with an all-zero type GUID, or with the first sector 0,
    makes no entry and takes no number. *)
Lemma gpt_entry_empty_run (entry_data : bytes) (partition_num : Z) (self : DiskAnalyzer) :
  all_zero (slice entry_data 0 16) = true \/ le_value (slice entry_data 32 40) = 0 ->
  gpt_entry entry_data partition_num self = (Ok partition_num, self)
  \/ exists err, gpt_entry entry_data partition_num self = (Raise err, self).
Proof.
  intros Hempty. unfold gpt_entry.
  destruct (all_zero (slice entry_data 0 16)); [left; reflexivity|].
  destruct Hempty as [Hz|Hfirst]; [discriminate|].
  unfold bind, lift, unpack_le.
  destruct (Nat.eqb (List.length (slice entry_data 32 40)) 8);
    [|right; eexists; reflexivity].
  destruct (Nat.eqb (List.length (slice entry_data 40 48)) 8);
    [|right; eexists; reflexivity].
  destruct (Nat.eqb (List.length (slice entry_data 48 56)) 8);
    [|right; eexists; reflexivity].
  rewrite Hfirst. left. reflexivity.
Qed.

Lemma mbr_slot_provenance (sector : bytes) (i ss : Z) :
  0 <= i <= 3 -> emits_at ss (mbr_materialized sector ss) (mbr_slot sector i).
Proof.
  intros Hi e. unfold emitted.
  destruct (Z.lt_ge_cases (len sector) (slot_offset i + 16)) as [Hshort|Hfits].
  - rewrite mbr_slot_short by lia. intros [].
  - rewrite mbr_slot_run by lia. cbn [blank __init__ sector_size].
    destruct (slot_empty sector i) eqn:Eempty; [intros []|].
    destruct (_bytes_to_human (slot_num_sectors sector i * ss)) as [h|err]; [|intros []].
    cbn [snd extend partitions blank __init__ app]. intros [<-|[]].
    exists i. repeat split; try lia; assumption.
Qed.

Lemma analyze_mbr_provenance (sector : bytes) (f : file) (ss : Z) :
  emits_at ss (mbr_materialized sector ss) (_analyze_mbr sector f).
Proof.
  unfold _analyze_mbr. apply emits_at_for_each.
  - apply appends_only_mbr_slot.
  - intros i Hi. apply mbr_slot_provenance. cbn [In] in Hi. lia.
Qed.

Lemma gpt_entry_provenance (entry_data : bytes) (partition_num ss : Z) :
  128 <= len entry_data ->
  emits_at ss (gpt_materialized ss) (gpt_entry entry_data partition_num).
Proof.
  intros Hlen e. unfold emitted. rewrite gpt_entry_run by exact Hlen.
  destruct (all_zero (slice entry_data 0 16)) eqn:Ezero; [intros []|].
  destruct (Z.eqb_spec (le_value (slice entry_data 32 40)) 0) as [|Hfirst]; [intros []|].
  cbn [blank __init__ sector_size].
  destruct (_bytes_to_human _) as [h|err]; [|intros []].
  cbn [snd extend partitions blank __init__ app]. intros [<-|[]].
  exists entry_data. repeat split; assumption.
Qed.

Lemma gpt_entries_provenance (ss : Z) (n : nat) :
  forall (f : file) (partition_entry_size partition_num : Z),
    emits_at ss (gpt_materialized ss) (gpt_entries n f partition_entry_size partition_num).
Proof.
  induction n as [|n IH]; intros f esz num; cbn [gpt_entries].
  - apply emits_at_ret.
  - pose proof appends_only_gpt_entries as Hag.
    apply emits_at_bind_lift; [intros ?; solve [repeat appends_step]|].
    intros [entry_data f'] _.
    destruct (Z.ltb_spec (len entry_data) 128); [apply emits_at_ret|].
    apply emits_at_bind.
    + auto with appends.
    + intros ?. apply Hag.
    + apply gpt_entry_provenance. lia.
    + intros ?. apply IH.
Qed.

Lemma analyze_gpt_provenance (sector : bytes) (f : file) (ss : Z) :
  emits_at ss (gpt_materialized ss) (_analyze_gpt sector f).
Proof.
  unfold emits_at.
  apply (analyze_gpt_emitted (fun l => forall e, In e l -> gpt_materialized ss e)
                             sector f ss).
  - intros e [].
  - intros n f' esz _. apply gpt_entries_provenance.
Qed.

(** C4, as the code has it. Every entry that [analyze] materializes is
    made from an encoding that is not the empty one. On an MBR disk it is
    the entry of a slot of the first sector whose type code is not 0x00
    or whose first sector is not 0; on a GPT disk it is the entry of a
    record that was read, whose type GUID is not all zeros and whose first
    sector is not 0. Its last sector and its sector count are computed
    from each other ([end = start + count - 1]), so that [start <= end]
    holds exactly when the count is at least 1, which the decoders do not
    check. And the empty encodings are dropped: a turn of the MBR loop on
    an empty slot, and a turn of the GPT loop on a record with an all-zero
    type GUID or with the first sector 0, append nothing (the GPT turn
    keeps the number for the next record). *)
Theorem materialized_entries :
  (forall (image : option bytes) (path : string) (ss : Z) (e : PartitionEntry),
      In e (partitions (snd (analyze image (__init__ path ss)))) ->
      end_sector e = start_sector e + size_sectors e - 1
      /\ (start_sector e <= end_sector e <-> 1 <= size_sectors e)
      /\ ((partition_type (snd (analyze image (__init__ path ss))) = MBR
           /\ exists content sector0 f,
               image = Some content
               /\ read (open content) ss = Ok (sector0, f)
               /\ mbr_materialized sector0 ss e)
          \/ (partition_type (snd (analyze image (__init__ path ss))) = GPT
              /\ gpt_materialized ss e)))
  /\ (forall (sector : bytes) (i : Z) (self : DiskAnalyzer),
         0 <= i ->
         slot_empty sector i = true ->
         mbr_slot sector i self = (Ok tt, self))
  /\ (forall (entry_data : bytes) (partition_num : Z) (self : DiskAnalyzer),
         all_zero (slice entry_data 0 16) = true \/ le_value (slice entry_data 32 40) = 0 ->
         gpt_entry entry_data partition_num self = (Ok partition_num, self)
         \/ exists err, gpt_entry entry_data partition_num self = (Raise err, self)).
Proof.
  split; [|split; [exact mbr_slot_empty_run|exact gpt_entry_empty_run]].
  intros image path ss e Hin.
  assert (H : (partition_type (snd (analyze image (__init__ path ss))) = MBR
               /\ exists content sector0 f,
                   image = Some content
                   /\ read (open content) ss = Ok (sector0, f)
                   /\ mbr_materialized sector0 ss e)
              \/ (partition_type (snd (analyze image (__init__ path ss))) = GPT
                  /\ gpt_materialized ss e)).
  { destruct (analyze_partitions_typed image path ss)
      as [E|[[Hpt (content & sector0 & f & Ei & Er & E)]
            |[Hpt (content & sector0 & f & Ei & Er & E)]]];
      rewrite E in Hin.
    - destruct Hin.
    - left. split; [exact Hpt|]. exists content, sector0, f.
      repeat split; try assumption.
      exact (analyze_mbr_provenance sector0 f ss e Hin).
    - right. split; [exact Hpt|].
      exact (analyze_gpt_provenance sector0 f ss e Hin). }
  assert (Hend : end_sector e = start_sector e + size_sectors e - 1).
  { destruct H as [[_ (content & sector0 & f & _ & _ & (i & _ & _ & _ & He))]
                  |[_ (entry_data & _ & _ & _ & He)]];
      rewrite He; cbn [end_sector start_sector size_sectors slot_entry record_entry]; lia. }
  split; [exact Hend|]. split; [lia|exact H].
Qed.

Lemma materialized_entries_witness :
  end_sector zero_count_entry = start_sector zero_count_entry + size_sectors zero_count_entry - 1
  /\ partition_type (snd (analyze (Some zero_count_sector) (__init__ "disk.img" 512))) = MBR
  /\ exists sector0 : bytes, mbr_materialized sector0 512 zero_count_entry.
Proof.
  destruct (proj1 materialized_entries (Some zero_count_sector) "disk.img" 512 zero_count_entry)
    as [Hend [_ [[Hpt (content & sector0 & f & _ & _ & H)]|[Hpt _]]]].
  - vm_compute. left. reflexivity.
  - split; [exact Hend|]. split; [exact Hpt|]. exists sector0. exact H.
  - vm_compute in Hpt. discriminate.
Defined.
